(** * fetch_data.py: the TMDB batch fetcher, embedded and verified

    The program is one Python script: a rate-limited GET, a paginated
    discovery loop, a per-item enrichment loop for movies and one for
    TV shows, and a final write of [data.json].

    The embedding keeps the script's shape.  JSON values are an
    inductive type, Python's dictionary and sequence operations are
    functions into an error type (a raised exception is a value), and
    the effectful part (clock, global [last_request_time], the HTTP
    conversation, the output file) is a state-and-exception monad in
    which the state survives a raised exception, as the world does. *)

From Stdlib Require Import ZArith QArith Lqa List String Ascii Bool Lia.
From Stdlib Require Import DecimalString.
From Stdlib Require Import Floats.
Import ListNotations.

#[local] Set Warnings "-register-all,-inexact-float".
#[local] Open Scope string_scope.
#[local] Open Scope Z_scope.

(** ** JSON values, as [response.json()] produces them *)

(** A Python [dict] keeps insertion order and [json.dump] writes it in that
    order, so an object is an association list; lookup takes the first
    binding of a key.  A JSON number is an [int] or a finite [float]; a
    float is represented by its exact rational value (NaN and the
    infinities are outside the model).  Strings are sequences of 8-bit
    characters: the model is exact on ASCII text. *)
Inductive json : Type :=
| JNull
| JBool (b : bool)
| JInt (z : Z)
| JFloat (q : Q)
| JStr (s : string)
| JArr (l : list json)
| JObj (kvs : list (string * json)).

(** ** Exceptions and the error type *)

Inductive exn : Type :=
| KeyError (k : string)
| TypeError
| AttributeError
| ValueError
| HTTPError (status : Z)
| ConnectionError
| JSONDecodeError
| OSError
| UnicodeEncodeError
| LoopFuelExhausted.

Inductive result (A : Type) : Type :=
| Ok (a : A)
| Raise (e : exn).
Arguments Ok {A} a.
Arguments Raise {A} e.

Definition rbind {A B} (r : result A) (k : A -> result B) : result B :=
  match r with
  | Ok a => k a
  | Raise e => Raise e
  end.

Declare Scope py_scope.
Delimit Scope py_scope with py.
Notation "x <-? r ;; k" := (rbind r (fun x => k))
  (at level 61, r at next level, right associativity) : py_scope.
#[local] Open Scope py_scope.

Fixpoint rmap {A B} (f : A -> result B) (l : list A) : result (list B) :=
  match l with
  | [] => Ok []
  | x :: l' => y <-? f x ;; ys <-? rmap f l' ;; Ok (y :: ys)
  end.

(** ** Python's operations on JSON-derived values *)

(** [bool(v)]: the truth value tested by [if] and [and]. *)
Definition truthy (v : json) : bool :=
  match v with
  | JNull => false
  | JBool b => b
  | JInt z => negb (z =? 0)
  | JFloat q => negb (Qeq_bool q 0)
  | JStr s => negb (String.eqb s "")
  | JArr l => match l with [] => false | _ => true end
  | JObj kvs => match kvs with [] => false | _ => true end
  end.

Fixpoint dict_lookup (k : string) (kvs : list (string * json)) : option json :=
  match kvs with
  | [] => None
  | (k', v) :: rest => if String.eqb k k' then Some v else dict_lookup k rest
  end.

(** [d.get(k, default)]: only a dict has the method. *)
Definition py_get (d : json) (k : string) (default : json) : result json :=
  match d with
  | JObj kvs =>
      match dict_lookup k kvs with
      | Some v => Ok v
      | None => Ok default
      end
  | _ => Raise AttributeError
  end.

(** [d[k]] with a string key: [KeyError] on a dict without the key,
    [TypeError] on a list, a string or a value that is not subscriptable. *)
Definition py_getitem (d : json) (k : string) : result json :=
  match d with
  | JObj kvs =>
      match dict_lookup k kvs with
      | Some v => Ok v
      | None => Raise (KeyError k)
      end
  | _ => Raise TypeError
  end.

Definition chars (s : string) : list json :=
  map (fun c => JStr (String c EmptyString)) (list_ascii_of_string s).

(** Iteration ([for x in v], a comprehension, [list.extend(v)]): a list
    yields its elements, a string its characters, a dict its keys. *)
Definition py_iter (v : json) : result (list json) :=
  match v with
  | JArr l => Ok l
  | JStr s => Ok (chars s)
  | JObj kvs => Ok (map (fun kv => JStr (fst kv)) kvs)
  | _ => Raise TypeError
  end.

(** [v[:n]]: lists and strings can be sliced; anything else raises (a
    dict with [TypeError] up to Python 3.11 and [KeyError] from 3.12 on,
    a difference nothing below depends on). *)
Definition py_slice_to (n : nat) (v : json) : result json :=
  match v with
  | JArr l => Ok (JArr (firstn n l))
  | JStr s => Ok (JStr (substring 0 n s))
  | _ => Raise TypeError
  end.

(** [v == s] for a string literal [s]. *)
Definition py_eq_str (v : json) (s : string) : bool :=
  match v with
  | JStr s' => String.eqb s' s
  | _ => false
  end.

Fixpoint is_substring (p s : string) : bool :=
  if prefix p s then true
  else match s with
       | EmptyString => false
       | String _ s' => is_substring p s'
       end.

(** ['k' in v]: key test on a dict, element test on a list, substring
    test on a string, [TypeError] otherwise. *)
Definition py_in (k : string) (v : json) : result bool :=
  match v with
  | JObj kvs => Ok (match dict_lookup k kvs with Some _ => true | None => false end)
  | JArr l => Ok (existsb (fun x => py_eq_str x k) l)
  | JStr s => Ok (is_substring k s)
  | _ => Raise TypeError
  end.

(** [sep.join(l)]: every element must be a string. *)
Fixpoint py_join (sep : string) (l : list json) : result string :=
  match l with
  | [] => Ok ""
  | [JStr s] => Ok s
  | JStr s :: l' => t <-? py_join sep l' ;; Ok (s ++ sep ++ t)
  | _ :: _ => Raise TypeError
  end.

(** The decimal text of a Python [int]. *)
Definition dec (z : Z) : string := NilZero.string_of_int (Z.to_int z).

(** The numeric value of an operand of [<], [<=] and [min] against an
    [int]: ints, floats and bools are ordered together; any other type
    raises [TypeError]. *)
Definition num_of (v : json) : result Q :=
  match v with
  | JInt z => Ok (inject_Z z)
  | JFloat q => Ok q
  | JBool b => Ok (if b then 1%Q else 0%Q)
  | _ => Raise TypeError
  end.

(** ** [datetime.strptime(s, '%Y-%m-%d')] *)

(** [_strptime] compiles the format to the regular expression
    [(?P<Y>\d\d\d\d)-(?P<m>1[0-2]|0[1-9]|[1-9])-(?P<d>3[0-1]|[1-2]\d|0[1-9]|[1-9]| [1-9])],
    matches it at the start of the string, rejects the string when text
    remains after the match, and builds a date, which rejects year 0 and
    a day the month does not have.  Each directive below returns its
    matches in the order the regex engine tries them.  (Python's [\d]
    also accepts decimal digits outside ASCII; the 8-bit strings of the
    model have none.) *)
Definition between (lo hi c : ascii) : bool :=
  ((nat_of_ascii lo <=? nat_of_ascii c) && (nat_of_ascii c <=? nat_of_ascii hi))%nat.

Definition is_digit (c : ascii) : bool := between "0" "9" c.

Definition digit (c : ascii) : Z := Z.of_nat (nat_of_ascii c) - 48.

Definition re_lit (x : ascii) (cs : list ascii) : list (list ascii) :=
  match cs with
  | c :: rest => if Ascii.eqb c x then [rest] else []
  | [] => []
  end.

(** [int] of four decimal digits. *)
Definition year4 (a b c d : ascii) : Z :=
  1000 * digit a + 100 * digit b + 10 * digit c + digit d.

Definition re_Y (cs : list ascii) : list (Z * list ascii) :=
  match cs with
  | a :: b :: c :: d :: rest =>
      if is_digit a && is_digit b && is_digit c && is_digit d
      then [(year4 a b c d, rest)]
      else []
  | _ => []
  end.

(** One alternative made of two character classes, or of one. *)
Definition re_two (p1 p2 : ascii -> bool) (val : ascii -> ascii -> Z)
    (cs : list ascii) : list (Z * list ascii) :=
  match cs with
  | a :: b :: rest => if p1 a && p2 b then [(val a b, rest)] else []
  | _ => []
  end.

Definition re_one (p : ascii -> bool) (cs : list ascii) : list (Z * list ascii) :=
  match cs with
  | a :: rest => if p a then [(digit a, rest)] else []
  | _ => []
  end.

Definition two_digits (a b : ascii) : Z := 10 * digit a + digit b.

Definition re_m (cs : list ascii) : list (Z * list ascii) :=
  re_two (Ascii.eqb "1") (between "0" "2") two_digits cs
  ++ re_two (Ascii.eqb "0") (between "1" "9") two_digits cs
  ++ re_one (between "1" "9") cs.

Definition re_d (cs : list ascii) : list (Z * list ascii) :=
  re_two (Ascii.eqb "3") (between "0" "1") two_digits cs
  ++ re_two (between "1" "2") is_digit two_digits cs
  ++ re_two (Ascii.eqb "0") (between "1" "9") two_digits cs
  ++ re_one (between "1" "9") cs
  ++ re_two (Ascii.eqb " ") (between "1" "9") (fun _ b => digit b) cs.

Definition re_date (cs : list ascii) : list (Z * Z * Z * list ascii) :=
  flat_map (fun yr =>
    flat_map (fun r1 =>
      flat_map (fun mr =>
        flat_map (fun r2 =>
          map (fun dr => (fst yr, fst mr, fst dr, snd dr)) (re_d r2))
          (re_lit "-" (snd mr)))
        (re_m r1))
      (re_lit "-" (snd yr)))
    (re_Y cs).

Definition is_leap (y : Z) : bool :=
  (y mod 4 =? 0) && (negb (y mod 100 =? 0) || (y mod 400 =? 0)).

Definition days_in_month (y m : Z) : Z :=
  if m =? 2 then (if is_leap y then 29 else 28)
  else if (m =? 4) || (m =? 6) || (m =? 9) || (m =? 11) then 30
  else 31.

Definition valid_date (y m d : Z) : bool :=
  (1 <=? y) && (y <=? 9999) && (1 <=? m) && (m <=? 12)
  && (1 <=? d) && (d <=? days_in_month y m).

Definition strptime_ymd (s : string) : result (Z * Z * Z) :=
  match re_date (list_ascii_of_string s) with
  | [] => Raise ValueError
  | (y, m, d, rest) :: _ =>
      match rest with
      | _ :: _ => Raise ValueError
      | [] => if valid_date y m d then Ok (y, m, d) else Raise ValueError
      end
  end.

(** [datetime.strptime(v, '%Y-%m-%d').year]: the first argument must be a [str]. *)
Definition strptime_year (v : json) : result json :=
  match v with
  | JStr s => ymd <-? strptime_ymd s ;; Ok (JInt (fst (fst ymd)))
  | _ => Raise TypeError
  end.

(** ** Configuration (lines 17-29 and 36) *)

Definition MAX_PAGES_PER_TYPE : Z := 500.
Definition REQUESTS_PER_10_SEC : Q := 40.
Definition DELAY_BETWEEN_REQUESTS : Q := 10 / REQUESTS_PER_10_SEC.
Definition START_YEAR : Z := 2024.
Definition START_MONTH : Z := 2.
Definition MIN_VOTES : Z := 1.
Definition MIN_RATING : Q := 6.
Definition API_BASE : string := "https://api.themoviedb.org/3".
(** [datetime(START_YEAR, START_MONTH, 1).strftime('%Y-%m-%d')] *)
Definition START_DATE_STR : string := "2024-02-01".
Definition IMAGE_BASE : string := "https://image.tmdb.org/t/p/original".
Definition EXCLUDED_GENRES : list string :=
  ["Animation"; "Music"; "Documentary"; "Kids"; "Reality"].

(** ** The world outside the script *)

(** What [requests.get] hands back: a status code and the body as
    [response.json()] would decode it ([None] when the body is not JSON). *)
Record http_response : Type := {
  status_code : Z;
  body : option json
}.

Inductive http_outcome : Type :=
| Responded (r : http_response)
| TransportFailure.

(** What becomes of [open('data.json', 'w')] followed by [json.dump]
    (lines 290-291).  [open] may be refused (the file is then as it was);
    once it has succeeded the file has been truncated, and [json.dump]
    either writes the whole document or raises on the way, on a string
    that the UTF-8 encoder refuses (a lone surrogate, which
    [response.json()] decodes from an escape such as [\ud800]), leaving
    the part written so far. *)
Inductive dump_outcome : Type :=
| Dumped
| OpenRefused
| DumpRaised.

(** Everything the run reads from outside and does not control.
    [server k url] answers the GET for [url] handed to [requests.get]
    after [k] earlier ones.

    Timestamps are binary64 numbers, each represented by its exact
    rational value.  [elapse n] is the change of the clock reading,
    beyond what was asked for, at the [n]-th clock event (a
    [time.time()], a [time.sleep] or a GET): the time that really
    passes, the rounding of the reading to a binary64 number, and any
    adjustment of the system clock; it may be negative.  [fsub a b] is
    the binary64 subtraction [a - b]: it is rounded, so it need not be
    the exact difference, but a rounded difference never has the wrong
    sign ([fsub_nonneg]).

    [repr_other] is [str(v)] for the floats, lists and dicts, whose text
    the model does not compute.  [dump doc] is the fate of the final
    write of [doc]: the 8-bit strings of the model do not show which
    strings the encoder refuses, and the file system is outside the
    script. *)
Record environment : Type := {
  TMDB_TOKEN : option string;
  server : nat -> string -> http_outcome;
  elapse : nat -> Q;
  fsub : Q -> Q -> Q;
  fsub_nonneg : forall a b, (b <= a)%Q -> (0 <= fsub a b)%Q;
  repr_other : json -> string;
  end_date_str : string;
  generated_at : string;
  dump : json -> dump_outcome
}.

(** The mutable world: the clock, the global [last_request_time], the
    URLs handed to [requests.get] so far (oldest first, each with the
    value of [last_request_time] under which it was handed over) and the
    file [data.json]: [data_json] is the document it holds when it holds
    a complete one, and [data_json_torn] tells that it was truncated and
    holds only the beginning of a document. *)
Record state : Type := {
  clock : Q;
  ticks : nat;
  last_request_time : Q;
  sent : list (Q * string);
  data_json : option json;
  data_json_torn : bool
}.

(** ** The state-and-exception monad *)

Definition M (A : Type) : Type := state -> result A * state.

Definition ret {A} (a : A) : M A := fun s => (Ok a, s).

Definition raise {A} (e : exn) : M A := fun s => (Raise e, s).

Definition bind {A B} (m : M A) (k : A -> M B) : M B :=
  fun s =>
    match m s with
    | (Ok a, s') => k a s'
    | (Raise e, s') => (Raise e, s')
    end.

Definition lift {A} (r : result A) : M A := fun s => (r, s).

Notation "x <- m ;; k" := (bind m (fun x => k))
  (at level 61, m at next level, right associativity) : py_scope.
Notation "m ;;; k" := (bind m (fun _ => k))
  (at level 61, right associativity) : py_scope.

Section Program.

Variable E : environment.

(** The text an f-string inserts for [{v}]. *)
Definition py_format (v : json) : string :=
  match v with
  | JStr s => s
  | JNull => "None"
  | JBool true => "True"
  | JBool false => "False"
  | JInt z => dec z
  | _ => repr_other E v
  end.

(** ** Field extraction from a detail payload *)

(** Lines 118-122.  [next(...)] stops at the first match: the entries
    behind it are not looked at. *)
Fixpoint find_director (crew : list json) : result (option json) :=
  match crew with
  | [] => Ok None
  | p :: rest =>
      job <-? py_get p "job" JNull ;;
      if py_eq_str job "Director" then Ok (Some p) else find_director rest
  end.

Definition extract_director (details : json) : result json :=
  credits <-? py_get details "credits" JNull ;;
  if truthy credits then
    credits <-? py_getitem details "credits" ;;
    crew <-? py_get credits "crew" JNull ;;
    if truthy crew then
      credits <-? py_getitem details "credits" ;;
      crew <-? py_getitem credits "crew" ;;
      people <-? py_iter crew ;;
      director_person <-? find_director people ;;
      match director_person with
      | Some p => if truthy p then py_getitem p "name" else Ok (JStr "N/A")
      | None => Ok (JStr "N/A")
      end
    else Ok (JStr "N/A")
  else Ok (JStr "N/A").

(** Lines 125-129, and the same text at lines 197-201. *)
Definition extract_actors (details : json) : result json :=
  credits <-? py_get details "credits" JNull ;;
  if truthy credits then
    credits <-? py_getitem details "credits" ;;
    cast <-? py_get credits "cast" JNull ;;
    if truthy cast then
      credits <-? py_getitem details "credits" ;;
      cast <-? py_getitem credits "cast" ;;
      top <-? py_slice_to 3 cast ;;
      entries <-? py_iter top ;;
      top_actors <-? rmap (fun actor => py_getitem actor "name") entries ;;
      match top_actors with
      | [] => Ok (JStr "N/A")
      | _ :: _ => joined <-? py_join ", " top_actors ;; Ok (JStr joined)
      end
    else Ok (JStr "N/A")
  else Ok (JStr "N/A").

(** Lines 132-141, and the same text at lines 204-213. *)
Definition provider_entry (p : json) : result json :=
  name <-? py_getitem p "provider_name" ;;
  logo_path <-? py_getitem p "logo_path" ;;
  Ok (JObj [("name", name); ("logo", JStr (IMAGE_BASE ++ py_format logo_path))]).

Definition extract_streaming (details : json) : result (list json) :=
  wp <-? py_get details "watch/providers" (JObj []) ;;
  results <-? py_get wp "results" (JObj []) ;;
  providers <-? py_get results "US" (JObj []) ;;
  flatrate <-? py_get providers "flatrate" JNull ;;
  if truthy flatrate then
    flatrate <-? py_getitem providers "flatrate" ;;
    entries <-? py_iter flatrate ;;
    rmap provider_entry entries
  else Ok [].

(** Lines 144-149, and the same text at lines 216-221: the joined
    string and the unjoined list. *)
Definition extract_genres (details : json) : result (json * list json) :=
  g <-? py_get details "genres" JNull ;;
  if truthy g then
    g <-? py_getitem details "genres" ;;
    entries <-? py_iter g ;;
    genre_list <-? rmap (fun g => py_getitem g "name") entries ;;
    match genre_list with
    | [] => Ok (JStr "N/A", [])
    | _ :: _ => joined <-? py_join ", " genre_list ;; Ok (JStr joined, genre_list)
    end
  else Ok (JStr "N/A", []).

(** Lines 152 and 224: [any(g in [...] for g in genre_list)]. *)
Definition is_excluded (genre_list : list json) : bool :=
  existsb (fun g => existsb (py_eq_str g) EXCLUDED_GENRES) genre_list.

(** The [year] entry of a record (lines 161 and 259). *)
Definition year_of (item : json) (date_key : string) : result json :=
  d <-? py_get item date_key JNull ;;
  if truthy d then
    d <-? py_getitem item date_key ;;
    strptime_year d
  else Ok JNull.

(** ** Record construction *)

(** Lines 155-169: the dict literal, its entries evaluated top to bottom. *)
Definition movie_entry (movie director actors genres : json) (streaming : list json)
    : result json :=
  id <-? py_getitem movie "id" ;;
  title <-? py_getitem movie "title" ;;
  overview <-? py_get movie "overview" (JStr "") ;;
  poster_path <-? py_get movie "poster_path" JNull ;;
  release_date <-? py_get movie "release_date" JNull ;;
  year <-? year_of movie "release_date" ;;
  vote_average <-? py_getitem movie "vote_average" ;;
  vote_count <-? py_getitem movie "vote_count" ;;
  Ok (JObj [
    ("id", id);
    ("title", title);
    ("overview", overview);
    ("poster_path", poster_path);
    ("release_date", release_date);
    ("year", year);
    ("vote_average", vote_average);
    ("vote_count", vote_count);
    ("director", director);
    ("actors", actors);
    ("genres", genres);
    ("providers", JObj [("streaming", JArr streaming)]);
    ("type", JStr "movie")]).

(** One iteration of the movie loop after the detail request (lines
    117-169).  [None] is the [continue] of line 153. *)
Definition movie_record (movie details : json) : result (option json) :=
  director <-? extract_director details ;;
  actors <-? extract_actors details ;;
  streaming <-? extract_streaming details ;;
  gs <-? extract_genres details ;;
  if is_excluded (snd gs) then Ok None
  else
    record <-? movie_entry movie director actors (fst gs) streaming ;;
    Ok (Some record).

(** Lines 235-251: the summary of an episode. *)
Definition episode_summary (details : json) (key : string) : result json :=
  e <-? py_get details key JNull ;;
  if truthy e then
    ep <-? py_getitem details key ;;
    season <-? py_get ep "season_number" JNull ;;
    episode <-? py_get ep "episode_number" JNull ;;
    air_date <-? py_get ep "air_date" JNull ;;
    name <-? py_get ep "name" JNull ;;
    Ok (JObj [("season", season); ("episode", episode);
              ("air_date", air_date); ("name", name)])
  else Ok JNull.

(** Lines 228-251. *)
Definition tv_status_info (details : json) : result json :=
  status <-? py_get details "status" (JStr "N/A") ;;
  in_production <-? py_get details "in_production" (JBool false) ;;
  last_episode <-? episode_summary details "last_episode_to_air" ;;
  next_episode <-? episode_summary details "next_episode_to_air" ;;
  Ok (JObj [("status", status); ("in_production", in_production);
            ("last_episode", last_episode); ("next_episode", next_episode)]).

(** Lines 253-267. *)
Definition tv_entry (show actors genres tv_status : json) (streaming : list json)
    : result json :=
  id <-? py_getitem show "id" ;;
  title <-? py_getitem show "name" ;;
  overview <-? py_get show "overview" (JStr "") ;;
  poster_path <-? py_get show "poster_path" JNull ;;
  first_air_date <-? py_get show "first_air_date" JNull ;;
  year <-? year_of show "first_air_date" ;;
  vote_average <-? py_getitem show "vote_average" ;;
  vote_count <-? py_getitem show "vote_count" ;;
  Ok (JObj [
    ("id", id);
    ("title", title);
    ("overview", overview);
    ("poster_path", poster_path);
    ("first_air_date", first_air_date);
    ("year", year);
    ("vote_average", vote_average);
    ("vote_count", vote_count);
    ("actors", actors);
    ("genres", genres);
    ("tv_status", tv_status);
    ("providers", JObj [("streaming", JArr streaming)]);
    ("type", JStr "tv")]).

(** One iteration of the TV loop after the detail request (lines 196-267). *)
Definition tv_record (show details : json) : result (option json) :=
  actors <-? extract_actors details ;;
  streaming <-? extract_streaming details ;;
  gs <-? extract_genres details ;;
  if is_excluded (snd gs) then Ok None
  else
    tv_status <-? tv_status_info details ;;
    record <-? tv_entry show actors (fst gs) tv_status streaming ;;
    Ok (Some record).

(** ** The clock *)

Definition Qltb (x y : Q) : bool := negb (Qle_bool y x).

(** The clock moves: by [asked] seconds and by what the environment adds. *)
Definition pass (asked : Q) (s : state) : state :=
  {| clock := clock s + asked + elapse E (ticks s);
     ticks := S (ticks s);
     last_request_time := last_request_time s;
     sent := sent s;
     data_json := data_json s;
     data_json_torn := data_json_torn s |}.

Definition time_time : M Q :=
  fun s => let s' := pass 0 s in (Ok (clock s'), s').

(** [time.sleep(secs)]: a negative argument is a [ValueError]; otherwise
    the clock moves by [secs] and by what the environment adds. *)
Definition time_sleep (secs : Q) : M unit :=
  fun s => if Qltb secs 0 then (Raise ValueError, s) else (Ok tt, pass secs s).

Definition get_last_request_time : M Q :=
  fun s => (Ok (last_request_time s), s).

Definition set_last_request_time (t : Q) : M unit :=
  fun s =>
    (Ok tt,
     {| clock := clock s; ticks := ticks s; last_request_time := t;
        sent := sent s; data_json := data_json s;
        data_json_torn := data_json_torn s |}).

(** ** HTTP *)

(** [requests.get(url, headers=HEADERS)]: the call is recorded with the
    URL text it was given, and the environment answers it; a transport
    failure raises.  What the library does below the call (the URL it
    puts on the wire after normalising the path, the redirects it
    follows) is part of the environment's answer and is not recorded. *)
Definition requests_get (url : string) : M http_response :=
  fun s =>
    let s' :=
      {| clock := clock s + elapse E (ticks s);
         ticks := S (ticks s);
         last_request_time := last_request_time s;
         sent := (sent s ++ [(last_request_time s, url)])%list;
         data_json := data_json s;
         data_json_torn := data_json_torn s |} in
    match server E (List.length (sent s)) url with
    | Responded r => (Ok r, s')
    | TransportFailure => (Raise ConnectionError, s')
    end.

(** [Response.raise_for_status()] raises for the statuses 400 to 599. *)
Definition is_error_status (code : Z) : bool := (400 <=? code) && (code <? 600).

Definition raise_for_status (r : http_response) : M unit :=
  if is_error_status (status_code r) then raise (HTTPError (status_code r))
  else ret tt.

Definition response_json (r : http_response) : M json :=
  match body r with
  | Some j => ret j
  | None => raise JSONDecodeError
  end.

(** Lines 55-66.  The two subtractions are binary64 subtractions. *)
Definition rate_limited_get (url : string) : M json :=
  now <- time_time ;;
  last <- get_last_request_time ;;
  let elapsed := fsub E now last in
  (if Qltb elapsed DELAY_BETWEEN_REQUESTS
   then time_sleep (fsub E DELAY_BETWEEN_REQUESTS elapsed)
   else ret tt) ;;;
  now' <- time_time ;;
  set_last_request_time now' ;;;
  response <- requests_get url ;;
  raise_for_status response ;;;
  response_json response.

(** ** Pagination (lines 69-86) *)

(** The loop test [page <= min(total_pages, max_pages)].  [min(a, b)] is
    [b] when [b < a] and [a] otherwise. *)
Definition page_in_range (page : Z) (total_pages : json) (max_pages : Z)
    : result bool :=
  tp <-? num_of total_pages ;;
  let bound := if Qltb (inject_Z max_pages) tp then inject_Z max_pages else tp in
  Ok (Qle_bool (inject_Z page) bound).

(** The body of the loop after the GET (lines 80-84): the new
    accumulator and the new [total_pages]. *)
Definition absorb_page (data : json) (all_results : list json) (total_pages : json)
    : result (list json * json) :=
  has_results <-? py_in "results" data ;;
  if has_results then
    results <-? py_getitem data "results" ;;
    items <-? py_iter results ;;
    total_pages' <-? py_get data "total_pages" (JInt 1) ;;
    Ok ((all_results ++ items)%list, total_pages')
  else Ok (all_results, total_pages).

(** Line 75. *)
Definition page_url (url : string) (page : Z) : string :=
  url ++ "&page=" ++ dec page.

(** The [while] loop.  [page] grows by one per iteration and an iteration
    needs [page <= max_pages], so [max_pages] iterations are the most the
    loop can make from page 1; [fuel] counts them down, and the loop never
    runs out of it when started by [fetch_all_pages] (lemma
    [fetch_all_pages_fuel]). *)
Fixpoint fetch_loop (fuel : nat) (url : string) (max_pages : Z)
    (all_results : list json) (page : Z) (total_pages : json) : M (list json) :=
  continue <- lift (page_in_range page total_pages max_pages) ;;
  if continue then
    match fuel with
    | O => raise LoopFuelExhausted
    | S fuel' =>
        data <- rate_limited_get (page_url url page) ;;
        st <- lift (absorb_page data all_results total_pages) ;;
        fetch_loop fuel' url max_pages (fst st) (page + 1) (snd st)
    end
  else ret all_results.

Definition fetch_all_pages (url : string) (max_pages : Z) : M (list json) :=
  fetch_loop (Z.to_nat max_pages) url max_pages [] 1 (JInt 1).

(** ** Detail request (lines 89-92) *)

Definition detail_url (item_id : json) (media_type : string) : string :=
  API_BASE ++ "/" ++ media_type ++ "/" ++ py_format item_id
  ++ "?append_to_response=credits,watch/providers".

Definition fetch_item_details (item_id : json) (media_type : string) : M json :=
  rate_limited_get (detail_url item_id media_type).

(** ** The two enrichment loops (lines 110-169 and 189-267) *)

Definition append_record (data : list json) (r : option json) : list json :=
  match r with
  | Some record => (data ++ [record])%list
  | None => data
  end.

Definition movie_iteration (movie : json) (movies_data : list json) : M (list json) :=
  id <- lift (py_getitem movie "id") ;;
  details <- fetch_item_details id "movie" ;;
  r <- lift (movie_record movie details) ;;
  ret (append_record movies_data r).

Fixpoint movies_loop (movies : list json) (movies_data : list json) : M (list json) :=
  match movies with
  | [] => ret movies_data
  | movie :: rest =>
      movies_data' <- movie_iteration movie movies_data ;;
      movies_loop rest movies_data'
  end.

Definition tv_iteration (show : json) (tv_data : list json) : M (list json) :=
  id <- lift (py_getitem show "id") ;;
  details <- fetch_item_details id "tv" ;;
  r <- lift (tv_record show details) ;;
  ret (append_record tv_data r).

Fixpoint tv_loop (tv_shows : list json) (tv_data : list json) : M (list json) :=
  match tv_shows with
  | [] => ret tv_data
  | show :: rest =>
      tv_data' <- tv_iteration show tv_data ;;
      tv_loop rest tv_data'
  end.

(** ** The output document (lines 272-291) *)

Definition len (l : list json) : Z := Z.of_nat (List.length l).

Definition output_data (movies_data tv_data : list json) : json :=
  JObj [
    ("movies", JArr movies_data);
    ("tv_shows", JArr tv_data);
    ("metadata", JObj [
      ("generated_at", JStr (generated_at E));
      ("start_date", JStr START_DATE_STR);
      ("end_date", JStr (end_date_str E));
      ("start_year", JInt START_YEAR);
      ("start_month", JInt START_MONTH);
      ("min_votes", JInt MIN_VOTES);
      ("min_rating", JFloat MIN_RATING);
      ("total_movies", JInt (len movies_data));
      ("total_tv", JInt (len tv_data));
      ("total_items", JInt (len movies_data + len tv_data))])].

(** The file after [open('data.json', 'w')] and what [json.dump] then
    put into it. *)
Definition set_data_json (f : option json) (torn : bool) (s : state) : state :=
  {| clock := clock s; ticks := ticks s;
     last_request_time := last_request_time s;
     sent := sent s; data_json := f; data_json_torn := torn |}.

(** Lines 290-291.  [open(..., 'w')] truncates the file before anything
    is written; [json.dump] then writes the document piece by piece, and
    an exception on the way leaves the pieces written so far. *)
Definition write_data_json (doc : json) : M unit :=
  fun s =>
    match dump E doc with
    | OpenRefused => (Raise OSError, s)
    | DumpRaised => (Raise UnicodeEncodeError, set_data_json None true s)
    | Dumped => (Ok tt, set_data_json (Some doc) false s)
    end.

Definition movies_url : string :=
  API_BASE ++ "/discover/movie"
  ++ "?sort_by=popularity.desc"
  ++ "&primary_release_date.gte=" ++ START_DATE_STR
  ++ "&vote_count.gte=" ++ dec MIN_VOTES
  ++ "&vote_average.gte=" ++ "6.0".

Definition tv_url : string :=
  API_BASE ++ "/discover/tv"
  ++ "?sort_by=popularity.desc"
  ++ "&first_air_date.gte=" ++ START_DATE_STR
  ++ "&vote_count.gte=" ++ dec MIN_VOTES
  ++ "&vote_average.gte=" ++ "6.0".

(** ** The script, top to bottom.  The [print] calls are left out: they
    read no state that matters here and change none. *)
Definition check_token : M unit :=
  match TMDB_TOKEN E with
  | None => raise ValueError
  | Some tok => if String.eqb tok "" then raise ValueError else ret tt
  end.

Definition run : M unit :=
  check_token ;;;
  set_last_request_time 0 ;;;
  movies <- fetch_all_pages movies_url MAX_PAGES_PER_TYPE ;;
  movies_data <- movies_loop movies [] ;;
  tv_shows <- fetch_all_pages tv_url MAX_PAGES_PER_TYPE ;;
  tv_data <- tv_loop tv_shows [] ;;
  write_data_json (output_data movies_data tv_data).

End Program.

(** The state a run starts from: the clock reads [t0], nothing has been
    sent, and [data.json] holds whatever an earlier run left. *)
Definition initial_state (t0 : Q) (file : option json) : state :=
  {| clock := t0; ticks := 0; last_request_time := 0; sent := [];
     data_json := file; data_json_torn := false |}.

(** ** Concrete environments, for running the model: the clock stands
    still between the sleeps, the subtractions are exact and the final
    write goes through *)

Definition ok_response (j : json) : http_outcome :=
  Responded {| status_code := 200; body := Some j |}.

Definition make_env (srv : nat -> string -> http_outcome) : environment :=
  {| TMDB_TOKEN := Some "token";
     server := srv;
     elapse := fun _ => 0%Q;
     fsub := Qminus;
     fsub_nonneg := fun a b H => proj1 (Qle_minus_iff b a) H;
     repr_other := fun _ => "";
     end_date_str := "2026-01-01";
     generated_at := "2026-01-01T00:00:00";
     dump := fun _ => Dumped |}.

(** * Properties *)

(** ** Pre- and postconditions for the monad *)

(** From a state in [P], [m] ends in [Q a] when it returns [a] and in [Qe]
    when it raises. *)
Definition triple {A} (P : state -> Prop) (m : M A)
    (Q : A -> state -> Prop) (Qe : state -> Prop) : Prop :=
  forall s, P s ->
    match m s with
    | (Ok a, s') => Q a s'
    | (Raise _, s') => Qe s'
    end.

(** ** What a GET returns, as a function of the server's answer *)

Definition decode (o : http_outcome) : result json :=
  match o with
  | TransportFailure => Raise ConnectionError
  | Responded r =>
      if is_error_status (status_code r) then Raise (HTTPError (status_code r))
      else match body r with
           | Some j => Ok j
           | None => Raise JSONDecodeError
           end
  end.

(** Consecutive elements of [ts] are at least [d] apart. *)
Fixpoint spaced (d : Q) (ts : list Q) : Prop :=
  match ts with
  | [] => True
  | t :: rest =>
      match rest with
      | [] => True
      | t' :: _ => (t + d <= t')%Q
      end /\ spaced d rest
  end.

Definition grant_times (s : state) : list Q := map fst (sent s).

(** The limiter's invariant for the spacing [d]: the grants so far are
    spaced, and the latest of them is [last_request_time]. *)
Definition limiter_inv (d : Q) (s : state) : Prop :=
  spaced d (grant_times s)
  /\ (grant_times s = [] \/ List.last (grant_times s) 0%Q = last_request_time s).

(** [eps] bounds what the environment takes from the limiter: no clock
    event moves the reading back by more than [eps] (a reading is rounded
    to a binary64 number, and the system clock may be adjusted), and no
    subtraction is off by more than [eps]. *)
Definition within_tolerance (E : environment) (eps : Q) : Prop :=
  (forall n, (- eps <= elapse E n)%Q)
  /\ (forall a b, (a - b - eps <= fsub E a b)%Q /\ (fsub E a b <= a - b + eps)%Q).

(** The exact value of a finite binary64 number. *)
Definition Q_of_float (f : float) : Q :=
  match Prim2SF f with
  | S754_finite sg m e =>
      ((if sg then -1 else 1) * inject_Z (Zpos m) * Qpower 2 e)%Q
  | _ => 0%Q
  end.

(** A stretch of a run on binary64 timestamps.  The previous grant was
    at the number written [0.1]; the reading of line 59 is the number
    written [0.3]; the call sleeps for [0.25 - (0.3 - 0.1)], and the
    sleep lasts exactly as long as asked; the reading of line 63 is the
    binary64 number nearest to the time then reached, which is the
    binary64 sum. *)
Definition sample_last_grant : float := 0.1%float.
Definition sample_reading : float := 0.3%float.
Definition sample_sleep : float := (0.25 - (sample_reading - sample_last_grant))%float.
Definition sample_next_reading : float := (sample_reading + sample_sleep)%float.

Definition binary64_env : environment :=
  {| TMDB_TOKEN := Some "token";
     server := fun _ _ => Responded {| status_code := 200; body := Some JNull |};
     elapse := fun n =>
       match n with
       | 2%nat => (Q_of_float sample_next_reading
                   - (Q_of_float sample_reading + Q_of_float sample_sleep))%Q
       | _ => 0%Q
       end;
     fsub := Qminus;
     fsub_nonneg := fun a b H => proj1 (Qle_minus_iff b a) H;
     repr_other := fun _ => "";
     end_date_str := "2026-01-01";
     generated_at := "2026-01-01T00:00:00";
     dump := fun _ => Dumped |}.

Definition binary64_state : state :=
  {| clock := Q_of_float sample_reading; ticks := 0;
     last_request_time := Q_of_float sample_last_grant;
     sent := [(Q_of_float sample_last_grant, "u0")];
     data_json := None; data_json_torn := false |}.

(** The answer the [k]-th request of the run received. *)
Definition answer (E : environment) (s : state) (k : nat) : option http_outcome :=
  match nth_error (sent s) k with
  | Some (_, url) => Some (server E k url)
  | None => None
  end.

(** A transport failure or a status on which [raise_for_status] raises. *)
Definition http_failure (o : http_outcome) : bool :=
  match o with
  | TransportFailure => true
  | Responded r => is_error_status (status_code r)
  end.

(** The answer makes the GET raise: an [http_failure], or a body that
    is not JSON. *)
Definition aborting (o : http_outcome) : bool :=
  match decode o with
  | Ok _ => false
  | Raise _ => true
  end.

(** A response whose status is outside 200-299. *)
Definition non_2xx (o : http_outcome) : bool :=
  match o with
  | Responded r => negb ((200 <=? status_code r) && (status_code r <? 300))
  | TransportFailure => false
  end.

Definition all_answered (E : environment) (s : state) : Prop :=
  forall k o, answer E s k = Some o -> aborting o = false.

Definition only_last_failed (E : environment) (s : state) : Prop :=
  forall k o, answer E s k = Some o -> aborting o = true ->
    S k = List.length (sent s).

(** [v[k]] as a partial function, for reading records. *)
Definition field (k : string) (v : json) : option json :=
  match v with
  | JObj kvs => dict_lookup k kvs
  | _ => None
  end.

(** Shapes of the entries of a detail payload. *)
Definition has_job (e : json) (job : string) : Prop :=
  exists kvs, e = JObj kvs /\ dict_lookup "job" kvs = Some (JStr job).

Definition other_job (e : json) : Prop :=
  exists kvs, e = JObj kvs /\ dict_lookup "job" kvs <> Some (JStr "Director").

Definition named (e : json) (name : json) : Prop :=
  exists kvs, e = JObj kvs /\ dict_lookup "name" kvs = Some name.

(** A [flatrate] entry and the provider object made from it: the logo is
    the image base path followed by the text of the entry's logo path
    (for a string, the string itself). *)
Definition provider_of (E : environment) (e : json) (out : json) : Prop :=
  exists kvs name logo_path,
    e = JObj kvs
    /\ dict_lookup "provider_name" kvs = Some name
    /\ dict_lookup "logo_path" kvs = Some logo_path
    /\ out = JObj [("name", name);
                   ("logo", JStr (IMAGE_BASE ++ py_format E logo_path))].

(** [d.get(k, default)] on the bindings of a dict. *)
Definition default_to (o : option json) (default : json) : json :=
  match o with
  | Some v => v
  | None => default
  end.

(** A discovery item that cannot become a record: a key the record
    builder indexes is missing, or its date is a non-empty string that
    [strptime] rejects. *)
Definition incomplete (kvs : list (string * json)) (title_key date_key : string)
    : Prop :=
  dict_lookup "id" kvs = None
  \/ dict_lookup title_key kvs = None
  \/ dict_lookup "vote_average" kvs = None
  \/ dict_lookup "vote_count" kvs = None
  \/ exists s, dict_lookup date_key kvs = Some (JStr s) /\ s <> ""
               /\ strptime_ymd s = Raise ValueError.



(** The page numbers [p], [p+1], ..., [n] of them. *)
Fixpoint pages_from (p : Z) (n : nat) : list Z :=
  match n with
  | O => []
  | S n' => p :: pages_from (p + 1) n'
  end.

(** What a decoded page contributes to the accumulator, and the
    [total_pages] in force once it is absorbed. *)
Definition page_items (data : json) : list json :=
  match absorb_page data [] JNull with
  | Ok st => fst st
  | Raise _ => []
  end.

Definition total_after (tp : json) (data : json) : json :=
  match absorb_page data [] tp with
  | Ok st => snd st
  | Raise _ => tp
  end.

Definition total_pages_after (tp : json) (ds : list json) : json :=
  fold_left total_after ds tp.

(** Servers for the pagination examples.  Each ignores the URL; the
    first two report the same total on every page, the third reports 3
    pages and then 1, the fourth sends a page with neither key between
    pages that report 3, the last sends a total but no results. *)
Definition page_of (items : list json) (total : Z) : http_outcome :=
  ok_response (JObj [("results", JArr items); ("total_pages", JInt total)]).

Definition two_pages_server (k : nat) (url : string) : http_outcome :=
  page_of [JStr "item"] 2.

Definition results_only_server (k : nat) (url : string) : http_outcome :=
  ok_response (JObj [("results", JArr [JInt 1])]).

Definition zero_pages_server (k : nat) (url : string) : http_outcome :=
  page_of [] 0.

Definition shrinking_server (k : nat) (url : string) : http_outcome :=
  match k with
  | O => page_of [JInt 10] 3
  | _ => page_of [JInt 11] 1
  end.

Definition keyless_page_server (k : nat) (url : string) : http_outcome :=
  match k with
  | 1%nat => ok_response (JObj [])
  | _ => page_of [JInt (Z.of_nat k)] 3
  end.

Definition total_only_server (k : nat) (url : string) : http_outcome :=
  ok_response (JObj [("total_pages", JInt 5)]).

(** A movie as the discovery endpoint lists it, and a detail payload with
    credits, providers and a genre that is not excluded. *)
Definition sample_movie : json :=
  JObj [("id", JInt 7); ("title", JStr "A");
        ("release_date", JStr "2024-03-15");
        ("vote_average", JFloat 7); ("vote_count", JInt 3)].

Definition sample_credits : list (string * json) :=
  [("crew", JArr [JObj [("job", JStr "Writer"); ("name", JStr "W")];
                  JObj [("job", JStr "Director"); ("name", JStr "D")];
                  JObj [("job", JStr "Director"); ("name", JStr "D2")]]);
   ("cast", JArr [JObj [("name", JStr "a1")]; JObj [("name", JStr "a2")];
                  JObj [("name", JStr "a3")]; JObj [("name", JStr "a4")]])].

Definition sample_details_kvs : list (string * json) :=
  [("genres", JArr [JObj [("name", JStr "Action")]]);
   ("credits", JObj sample_credits);
   ("watch/providers",
    JObj [("results",
           JObj [("US",
                  JObj [("flatrate",
                         JArr [JObj [("provider_name", JStr "NF");
                                     ("logo_path", JStr "/x.png")]])])])])].

Definition sample_details : json := JObj sample_details_kvs.

Definition documentary_details : json :=
  JObj [("genres", JArr [JObj [("name", JStr "Drama")];
                         JObj [("name", JStr "Documentary")]])].

(** One page with [sample_movie] and an item without a title; the first
    gets [sample_details], the second a documentary; no TV shows. *)
Definition sample_server (k : nat) (url : string) : http_outcome :=
  match k with
  | O => page_of [sample_movie; JObj [("id", JInt 8)]] 1
  | 1%nat => ok_response sample_details
  | 2%nat => ok_response documentary_details
  | _ => page_of [] 1
  end.

Definition sample_details_server (k : nat) (url : string) : http_outcome :=
  ok_response sample_details.

Definition documentary_server (k : nat) (url : string) : http_outcome :=
  ok_response documentary_details.

(** One page with one item, then status 503 on the detail request. *)
Definition failing_server (k : nat) (url : string) : http_outcome :=
  match k with
  | O => page_of [sample_movie] 1
  | _ => Responded {| status_code := 503; body := None |}
  end.

(** The record [sample_movie] becomes under [sample_details]. *)
Definition sample_record : json :=
  JObj [("id", JInt 7); ("title", JStr "A"); ("overview", JStr "");
        ("poster_path", JNull); ("release_date", JStr "2024-03-15");
        ("year", JInt 2024); ("vote_average", JFloat 7);
        ("vote_count", JInt 3); ("director", JStr "D");
        ("actors", JStr "a1, a2, a3"); ("genres", JStr "Action");
        ("providers",
         JObj [("streaming",
                JArr [JObj [("name", JStr "NF");
                            ("logo",
                             JStr "https://image.tmdb.org/t/p/original/x.png")]])]);
        ("type", JStr "movie")].

(** A discovery page with one item that has an [id] and nothing else,
    whose detail payload is a documentary; the TV query finds nothing. *)
Definition untitled_documentary_server (k : nat) (url : string) : http_outcome :=
  match k with
  | O => page_of [JObj [("id", JInt 8)]] 1
  | 1%nat => ok_response
               (JObj [("genres", JArr [JObj [("name", JStr "Documentary")]])])
  | _ => page_of [] 1
  end.

(** A server that answers every request with status 300 and an empty
    page of results. *)
Definition multiple_choices_server (k : nat) (url : string) : http_outcome :=
  Responded {| status_code := 300;
               body := Some (JObj [("results", JArr [])]) |}.

(** ** Vocabulary for the further properties *)

(** The records of the iterations that kept their item, in order. *)
Definition kept_records (os : list (option json)) : list json :=
  flat_map (fun o => match o with Some record => [record] | None => [] end) os.

(** A date written as [strftime('%Y-%m-%d')] writes it: four, two and two
    decimal digits. *)
Definition digit_char (n : Z) : ascii := ascii_of_nat (48 + Z.to_nat n).

Definition pad2 (n : Z) : string :=
  String (digit_char (n / 10)) (String (digit_char (n mod 10)) "").

Definition pad4 (n : Z) : string :=
  String (digit_char (n / 1000))
    (String (digit_char (n / 100 mod 10))
       (String (digit_char (n / 10 mod 10))
          (String (digit_char (n mod 10)) ""))).

Definition iso_date (y m d : Z) : string :=
  pad4 y ++ "-" ++ pad2 m ++ "-" ++ pad2 d.

(** Every request sent so far went to a URL under [API_BASE]. *)
Definition under_api (s : state) : Prop :=
  Forall (fun x => prefix API_BASE (snd x) = true) (sent s).

(** The summary the TV loop makes of an episode entry (lines 235-251). *)
Definition summary_of (entry : option json) : json :=
  match entry with
  | Some (JObj (kv :: ekvs)) =>
      JObj [("season", default_to (dict_lookup "season_number" (kv :: ekvs)) JNull);
            ("episode", default_to (dict_lookup "episode_number" (kv :: ekvs)) JNull);
            ("air_date", default_to (dict_lookup "air_date" (kv :: ekvs)) JNull);
            ("name", default_to (dict_lookup "name" (kv :: ekvs)) JNull)]
  | _ => JNull
  end.

(** An entry a [.get] chain can pass through or stop at: missing, falsy,
    or a dict. *)
Definition falsy_or_dict (entry : option json) : Prop :=
  match entry with
  | None => True
  | Some (JObj _) => True
  | Some v => truthy v = false
  end.

(** A show as the discovery endpoint lists it. *)
Definition sample_show : json :=
  JObj [("id", JInt 9); ("name", JStr "S");
        ("first_air_date", JStr "2024-05-01");
        ("vote_average", JFloat 8); ("vote_count", JInt 5)].

(** Detail answers: [sample_details] first, documentaries afterwards. *)
Definition details_then_documentary_server (k : nat) (url : string)
    : http_outcome :=
  match k with
  | O => ok_response sample_details
  | _ => ok_response documentary_details
  end.

(** A payload with the given cast. *)
Definition cast_details_kvs (cast : list json) : list (string * json) :=
  [("credits", JObj [("cast", JArr cast)])].

(** A payload whose second flatrate entry has no logo path. *)
Definition broken_provider_kvs : list (string * json) :=
  [("genres", JArr [JObj [("name", JStr "Documentary")]]);
   ("watch/providers",
    JObj [("results",
           JObj [("US",
                  JObj [("flatrate",
                         JArr [JObj [("provider_name", JStr "NF");
                                     ("logo_path", JStr "/x.png")];
                               JObj [("provider_name", JStr "HB")]])])])])].

(** The time at which a call started in [s] is granted: the reading taken
    at line 63, after the reading of line 59 and the sleep, if any. *)
Definition grant_of (E : environment) (s : state) : Q :=
  let now := (clock s + 0 + elapse E (ticks s))%Q in
  let elapsed := fsub E now (last_request_time s) in
  if Qltb elapsed DELAY_BETWEEN_REQUESTS
  then (now + fsub E DELAY_BETWEEN_REQUESTS elapsed + elapse E (S (ticks s))
        + 0 + elapse E (S (S (ticks s))))%Q
  else (now + 0 + elapse E (S (ticks s)))%Q.

(** The script up to the final write (lines 32 to 268): the token check,
    and both categories discovered and processed.  It returns the two
    lists that go into the document. *)
Definition gather (E : environment) : M (list json * list json) :=
  check_token E ;;;
  set_last_request_time 0 ;;;
  movies <- fetch_all_pages E movies_url MAX_PAGES_PER_TYPE ;;
  movies_data <- movies_loop E movies [] ;;
  tv_shows <- fetch_all_pages E tv_url MAX_PAGES_PER_TYPE ;;
  tv_data <- tv_loop E tv_shows [] ;;
  ret (movies_data, tv_data).

(** The state [s] with another file in the place of [data.json]: the
    document it holds, if it holds a complete one, and whether it is
    torn. *)
Definition with_file (f : option json * bool) (s : state) : state :=
  {| clock := clock s; ticks := ticks s;
     last_request_time := last_request_time s;
     sent := sent s; data_json := fst f; data_json_torn := snd f |}.

(** [m] neither reads nor writes the file: run with another file, it does
    the same and leaves that file in place. *)
Definition frames {A} (m : M A) : Prop :=
  forall f s, m (with_file f s) = (fst (m s), with_file f (snd (m s))).

(** [m] does not read the file: it replaces it when it returns, and
    when it raises it has either left it in place or left something that
    does not depend on what was there. *)
Definition overwrites {A} (m : M A) : Prop :=
  forall f s,
    fst (m (with_file f s)) = fst (m s)
    /\ match fst (m s) with
       | Ok _ => snd (m (with_file f s)) = snd (m s)
       | Raise _ =>
           snd (m (with_file f s)) = snd (m s)
           \/ snd (m (with_file f s)) = with_file f (snd (m s))
       end.

(** A server whose first page has results and a total that is no number. *)
Definition null_total_server (k : nat) (url : string) : http_outcome :=
  ok_response (JObj [("results", JArr [JInt 1]); ("total_pages", JNull)]).

(** An environment in which [json.dump] raises. *)
Definition failing_dump_env : environment :=
  {| TMDB_TOKEN := Some "token";
     server := sample_server;
     elapse := fun _ => 0%Q;
     fsub := Qminus;
     fsub_nonneg := fun a b H => proj1 (Qle_minus_iff b a) H;
     repr_other := fun _ => "";
     end_date_str := "2026-01-01";
     generated_at := "2026-01-01T00:00:00";
     dump := fun _ => DumpRaised |}.

(** An environment without a token. *)
Definition no_token_env : environment :=
  {| TMDB_TOKEN := None;
     server := sample_server;
     elapse := fun _ => 0%Q;
     fsub := Qminus;
     fsub_nonneg := fun a b H => proj1 (Qle_minus_iff b a) H;
     repr_other := fun _ => "";
     end_date_str := "2026-01-01";
     generated_at := "2026-01-01T00:00:00";
     dump := fun _ => Dumped |}.

Section Properties.

Variable E : environment.

Lemma Qltb_true x y : Qltb x y = true -> (x < y)%Q.
Proof.
  unfold Qltb. intro H. apply negb_true_iff in H.
  apply Qnot_le_lt. intro Hle. apply Qle_bool_iff in Hle. congruence.
Qed.

Lemma Qltb_false x y : Qltb x y = false -> (y <= x)%Q.
Proof.
  unfold Qltb. intro H. apply negb_false_iff in H. now apply Qle_bool_iff.
Qed.

(** The GET hands exactly one URL to [requests.get], under the reading of
    line 63, never fails in [time.sleep], leaves the file alone, and
    returns what the server's answer decodes to. *)
Lemma rate_limited_get_spec url s :
  exists s1,
    rate_limited_get E url s = (decode (server E (List.length (sent s)) url), s1)
    /\ sent s1 = (sent s ++ [(last_request_time s1, url)])%list
    /\ data_json s1 = data_json s
    /\ data_json_torn s1 = data_json_torn s
    /\ last_request_time s1 = grant_of E s.
Proof.
  assert (Hfin : forall t c n,
    exists s1,
      (let (r, s') := requests_get E url
           {| clock := c; ticks := n; last_request_time := t;
              sent := sent s; data_json := data_json s;
              data_json_torn := data_json_torn s |} in
       match r with
       | Ok a =>
           let (r0, s'0) := raise_for_status a s' in
           match r0 with
           | Ok _ => response_json a s'0
           | Raise e => (Raise e, s'0)
           end
       | Raise e => (Raise e, s')
       end) = (decode (server E (List.length (sent s)) url), s1)
      /\ sent s1 = (sent s ++ [(last_request_time s1, url)])%list
      /\ data_json s1 = data_json s
      /\ data_json_torn s1 = data_json_torn s
      /\ last_request_time s1 = t).
  { intros t c n.
    unfold requests_get, decode, raise_for_status. cbn.
    destruct (server E _ url) as [r|]; cbn.
    - destruct (is_error_status (status_code r)); cbn.
      + eexists. split; [reflexivity|]. cbn. auto.
      + unfold response_json. destruct (body r); cbn;
          (eexists; split; [reflexivity|]; cbn; auto).
    - eexists. split; [reflexivity|]. cbn. auto. }
  unfold grant_of.
  unfold rate_limited_get, bind, time_time, get_last_request_time. cbn.
  destruct (Qltb _ DELAY_BETWEEN_REQUESTS) eqn:Hlt.
  - unfold time_sleep.
    destruct (Qltb (fsub E DELAY_BETWEEN_REQUESTS _) 0) eqn:Hneg.
    + apply Qltb_true in Hlt, Hneg. exfalso.
      apply Qlt_le_weak in Hlt. apply (fsub_nonneg E) in Hlt. lra.
    + cbn. apply Hfin.
  - cbn. apply Hfin.
Qed.

(** The clock reading when the call returns: one clock event after the
    grant. *)
Lemma rate_limited_get_clock url s :
  let s1 := snd (rate_limited_get E url s) in
  exists n, clock s1 = (last_request_time s1 + elapse E n)%Q.
Proof.
  unfold rate_limited_get, bind, time_time, get_last_request_time. cbn.
  assert (Hfin : forall t n,
    exists m,
      clock (snd (let (r, s') := requests_get E url
           {| clock := t; ticks := n; last_request_time := t;
              sent := sent s; data_json := data_json s;
              data_json_torn := data_json_torn s |} in
       match r with
       | Ok a =>
           let (r0, s'0) := raise_for_status a s' in
           match r0 with
           | Ok _ => response_json a s'0
           | Raise e => (Raise e, s'0)
           end
       | Raise e => (Raise e, s')
       end)) = (last_request_time (snd (let (r, s') := requests_get E url
           {| clock := t; ticks := n; last_request_time := t;
              sent := sent s; data_json := data_json s;
              data_json_torn := data_json_torn s |} in
       match r with
       | Ok a =>
           let (r0, s'0) := raise_for_status a s' in
           match r0 with
           | Ok _ => response_json a s'0
           | Raise e => (Raise e, s'0)
           end
       | Raise e => (Raise e, s')
       end)) + elapse E m)%Q).
  { intros t n. exists n.
    unfold requests_get, raise_for_status. cbn.
    destruct (server E _ url) as [r|]; cbn; [|reflexivity].
    destruct (is_error_status (status_code r)); cbn; [reflexivity|].
    unfold response_json. destruct (body r); reflexivity. }
  destruct (Qltb _ DELAY_BETWEEN_REQUESTS) eqn:Hlt.
  - unfold time_sleep.
    destruct (Qltb (fsub E DELAY_BETWEEN_REQUESTS _) 0) eqn:Hneg.
    + apply Qltb_true in Hlt, Hneg. exfalso.
      apply Qlt_le_weak in Hlt. apply (fsub_nonneg E) in Hlt. lra.
    + cbn. apply Hfin.
  - cbn. apply Hfin.
Qed.

(** The final write makes no request. *)
Lemma write_data_json_sent doc s :
  sent (snd (write_data_json E doc s)) = sent s.
Proof. unfold write_data_json. now destruct (dump E doc). Qed.

(** ** The pagination loop, one iteration at a time *)

Lemma fetch_loop_step fuel url max_pages acc page tp s :
  fetch_loop E (S fuel) url max_pages acc page tp s =
    match page_in_range page tp max_pages with
    | Raise e => (Raise e, s)
    | Ok false => (Ok acc, s)
    | Ok true =>
        match rate_limited_get E (page_url url page) s with
        | (Raise e, s1) => (Raise e, s1)
        | (Ok data, s1) =>
            match absorb_page data acc tp with
            | Raise e => (Raise e, s1)
            | Ok st => fetch_loop E fuel url max_pages (fst st) (page + 1) (snd st) s1
            end
        end
    end.
Proof.
  cbn [fetch_loop]. unfold bind at 1. unfold lift at 1.
  destruct (page_in_range page tp max_pages) as [[|]|e]; reflexivity.
Qed.

Lemma fetch_loop_stop fuel url max_pages acc page tp s :
  page_in_range page tp max_pages = Ok false ->
  fetch_loop E fuel url max_pages acc page tp s = (Ok acc, s).
Proof.
  intro H. destruct fuel; cbn [fetch_loop]; unfold bind, lift; now rewrite H.
Qed.

Lemma page_in_range_int page T max_pages :
  page_in_range page (JInt T) max_pages = Ok (page <=? Z.min T max_pages).
Proof.
  unfold page_in_range. cbn. f_equal.
  destruct (Qltb (inject_Z max_pages) (inject_Z T)) eqn:Hlt.
  - apply Qltb_true in Hlt. rewrite <- Zlt_Qlt in Hlt.
    rewrite Z.min_r by lia.
    destruct (Z.leb_spec page max_pages) as [Hle|Hgt].
    + apply Qle_bool_iff. now rewrite <- Zle_Qle.
    + destruct (Qle_bool _ _) eqn:Hb; [|reflexivity].
      apply Qle_bool_iff in Hb. rewrite <- Zle_Qle in Hb. lia.
  - apply Qltb_false in Hlt. rewrite <- Zle_Qle in Hlt.
    rewrite Z.min_l by lia.
    destruct (Z.leb_spec page T) as [Hle|Hgt].
    + apply Qle_bool_iff. now rewrite <- Zle_Qle.
    + destruct (Qle_bool _ _) eqn:Hb; [|reflexivity].
      apply Qle_bool_iff in Hb. rewrite <- Zle_Qle in Hb. lia.
Qed.

Lemma page_in_range_le page tp max_pages :
  page_in_range page tp max_pages = Ok true -> page <= max_pages.
Proof.
  unfold page_in_range. destruct (num_of tp) as [q|e]; cbn; [|discriminate].
  intro H. injection H as H. apply Qle_bool_iff in H.
  destruct (Qltb (inject_Z max_pages) q) eqn:Hlt.
  - now rewrite <- Zle_Qle in H.
  - apply Qltb_false in Hlt. rewrite Zle_Qle. lra.
Qed.

Lemma absorb_page_acc data acc tp st :
  absorb_page data acc tp = Ok st ->
  fst st = (acc ++ page_items data)%list /\ snd st = total_after tp data.
Proof.
  unfold page_items, total_after, absorb_page.
  destruct (py_in "results" data) as [[|]|e]; cbn; try discriminate.
  - destruct (py_getitem data "results") as [r|e]; cbn; [|discriminate].
    destruct (py_iter r) as [items|e]; cbn; [|discriminate].
    destruct (py_get data "total_pages" (JInt 1)) as [t|e]; cbn; [|discriminate].
    intro H. injection H as <-. cbn. auto.
  - intro H. injection H as <-. cbn. now rewrite app_nil_r.
Qed.

Lemma page_in_range_exn page tp max_pages :
  page_in_range page tp max_pages <> Raise LoopFuelExhausted.
Proof. unfold page_in_range. destruct tp; cbn; discriminate. Qed.

Lemma decode_exn o : decode o <> Raise LoopFuelExhausted.
Proof.
  unfold decode. destruct o as [r|]; [|discriminate].
  destruct (is_error_status _); [discriminate|]. destruct (body r); discriminate.
Qed.

Lemma absorb_page_exn data acc tp :
  absorb_page data acc tp <> Raise LoopFuelExhausted.
Proof.
  unfold absorb_page, py_in, py_getitem.
  destruct data as [| | | | |l|kvs]; cbn; try discriminate.
  - destruct (is_substring _ _); discriminate.
  - destruct (existsb _ l); discriminate.
  - destruct (dict_lookup "results" kvs) as [r|]; cbn; [|discriminate].
    destruct (py_iter r) as [items|e] eqn:Hit; cbn.
    + destruct (dict_lookup "total_pages" kvs); discriminate.
    + destruct r; cbn in Hit; congruence.
Qed.

(** The trace of the loop from any iteration on: which pages it requests,
    and, when it returns, from which answers its result is built. *)
Lemma fetch_loop_trace url max_pages :
  forall fuel acc page tp s,
    max_pages < page + Z.of_nat fuel ->
    let out := fetch_loop E fuel url max_pages acc page tp s in
    exists n : nat,
      map snd (sent (snd out))
        = (map snd (sent s) ++ map (page_url url) (pages_from page n))%list
      /\ (n = 0%nat \/ page + Z.of_nat n - 1 <= max_pages)
      /\ (page_in_range page tp max_pages = Ok true -> (1 <= n)%nat)
      /\ fst out <> Raise LoopFuelExhausted
      /\ (forall l, fst out = Ok l ->
            exists ds,
              List.length ds = n
              /\ (forall j, (j < n)%nat ->
                    decode (server E (List.length (sent s) + j)
                              (page_url url (page + Z.of_nat j)))
                    = Ok (nth j ds JNull))
              /\ l = (acc ++ List.concat (map page_items ds))%list
              /\ (forall j, (j < n)%nat ->
                    page_in_range (page + Z.of_nat j)
                      (total_pages_after tp (firstn j ds)) max_pages = Ok true)
              /\ page_in_range (page + Z.of_nat n) (total_pages_after tp ds)
                    max_pages = Ok false).
Proof.
  induction fuel as [|fuel IH]; intros acc page tp s Hfuel out.
  - subst out. cbn [fetch_loop]. unfold bind, lift.
    destruct (page_in_range page tp max_pages) as [[|]|e] eqn:Hg.
    + apply page_in_range_le in Hg. lia.
    + exists 0%nat. cbn. rewrite app_nil_r.
      repeat split; auto; try discriminate.
      intros l Hl. injection Hl as <-. exists []. cbn.
      rewrite app_nil_r, Z.add_0_r. repeat split; auto; intros j Hj; lia.
    + exists 0%nat. cbn. rewrite app_nil_r.
      repeat split; auto; try discriminate.
      intro He. injection He as ->. now apply page_in_range_exn in Hg.
  - subst out. rewrite fetch_loop_step.
    destruct (page_in_range page tp max_pages) as [[|]|e] eqn:Hg.
    + destruct (rate_limited_get_spec (page_url url page) s)
        as (s1 & Heq & Hsent & _ & _ & _).
      rewrite Heq.
      assert (Hurls : map snd (sent s1)
                = (map snd (sent s) ++ [page_url url page])%list).
      { rewrite Hsent, map_app. reflexivity. }
      assert (Hlen : List.length (sent s1) = S (List.length (sent s))).
      { rewrite Hsent, length_app. cbn. lia. }
      pose proof (page_in_range_le _ _ _ Hg) as Hle.
      destruct (decode _) as [data|e] eqn:Hdec.
      * destruct (absorb_page data acc tp) as [st|e] eqn:Hab.
        -- destruct (absorb_page_acc _ _ _ _ Hab) as [Hacc Htp].
           destruct (IH (fst st) (page + 1) (snd st) s1 ltac:(lia))
             as (n & Hu & Hb & _ & Hx & Hok).
           exists (S n). split; [|split; [|split; [|split]]].
           ++ rewrite Hu, Hurls, <- app_assoc. reflexivity.
           ++ right. destruct Hb as [->|Hb]; lia.
           ++ intros _. lia.
           ++ exact Hx.
           ++ intros l Hl. destruct (Hok l Hl) as (ds & Hn & Hd & Hl' & Hgs & Hend).
              exists (data :: ds). split; [cbn; lia|]. split; [|split; [|split]].
              ** intros [|j] Hj.
                 --- rewrite Nat.add_0_r, Z.add_0_r. exact Hdec.
                 --- cbn [nth]. rewrite <- (Hd j) by lia. rewrite Hlen.
                     replace (List.length (sent s) + S j)%nat
                       with (S (List.length (sent s)) + j)%nat by lia.
                     replace (page + Z.of_nat (S j)) with (page + 1 + Z.of_nat j)
                       by lia.
                     reflexivity.
              ** rewrite Hl', Hacc. cbn. now rewrite <- app_assoc.
              ** intros [|j] Hj.
                 --- cbn. rewrite Z.add_0_r. exact Hg.
                 --- cbn [firstn]. unfold total_pages_after. cbn [fold_left].
                     rewrite <- Htp.
                     replace (page + Z.of_nat (S j)) with (page + 1 + Z.of_nat j)
                       by lia.
                     apply Hgs. lia.
              ** unfold total_pages_after. cbn [fold_left]. rewrite <- Htp.
                 replace (page + Z.of_nat (S n)) with (page + 1 + Z.of_nat n)
                   by lia.
                 exact Hend.
        -- exists 1%nat. cbn. rewrite Hurls.
           repeat split; auto; try discriminate; try lia.
           intro He. injection He as ->. now apply absorb_page_exn in Hab.
      * exists 1%nat. cbn. rewrite Hurls.
        repeat split; auto; try discriminate; try lia.
        intro He. injection He as ->. now apply decode_exn in Hdec.
    + exists 0%nat. cbn. rewrite app_nil_r.
      repeat split; auto; try discriminate.
      intros l Hl. injection Hl as <-. exists []. cbn.
      rewrite app_nil_r, Z.add_0_r. repeat split; auto; intros j Hj; lia.
    + exists 0%nat. cbn. rewrite app_nil_r.
      repeat split; auto; try discriminate.
      intro He. injection He as ->. now apply page_in_range_exn in Hg.
Qed.

(** [fetch_all_pages] gives its loop enough fuel, whatever [max_pages]. *)
Lemma fetch_all_pages_fuel url max_pages s :
  fst (fetch_all_pages E url max_pages s) <> Raise LoopFuelExhausted.
Proof.
  unfold fetch_all_pages.
  destruct (fetch_loop_trace url max_pages (Z.to_nat max_pages) [] 1 (JInt 1) s
              ltac:(lia)) as (n & _ & _ & _ & Hx & _).
  exact Hx.
Qed.

(** When every page carries a [results] list and the same total [T], the
    loop runs from [page] up to [min(T, max_pages)]. *)
Lemma fetch_loop_uniform url max_pages T (items : Z -> list json) :
  (forall k p, exists kvs,
      decode (server E k (page_url url p)) = Ok (JObj kvs)
      /\ dict_lookup "results" kvs = Some (JArr (items p))
      /\ dict_lookup "total_pages" kvs = Some (JInt T)) ->
  forall m fuel acc page s,
    (m <= fuel)%nat ->
    page + Z.of_nat m = Z.min T max_pages + 1 ->
    let out := fetch_loop E fuel url max_pages acc page (JInt T) s in
    fst out = Ok (acc ++ List.concat (map items (pages_from page m)))%list
    /\ map snd (sent (snd out))
       = (map snd (sent s) ++ map (page_url url) (pages_from page m))%list.
Proof.
  intros Hsrv. induction m as [|m IH]; intros fuel acc page s Hfuel Hm out.
  - subst out. rewrite fetch_loop_stop.
    + cbn. now rewrite !app_nil_r.
    + rewrite page_in_range_int. f_equal. apply Z.leb_gt. lia.
  - subst out. destruct fuel as [|fuel]; [lia|].
    rewrite fetch_loop_step, page_in_range_int.
    replace (page <=? Z.min T max_pages) with true
      by (symmetry; apply Z.leb_le; lia).
    destruct (rate_limited_get_spec (page_url url page) s)
      as (s1 & Heq & Hsent & _ & _ & _).
    destruct (Hsrv (List.length (sent s)) page) as (kvs & Hdec & Hres & Htot).
    rewrite Heq, Hdec.
    assert (Hab : absorb_page (JObj kvs) acc (JInt T)
                  = Ok ((acc ++ items page)%list, JInt T)).
    { unfold absorb_page. cbn. rewrite Hres. cbn. now rewrite Htot. }
    rewrite Hab. cbn [fst snd].
    destruct (IH fuel (acc ++ items page)%list (page + 1) s1 ltac:(lia) ltac:(lia))
      as [Hr Hu].
    split.
    + rewrite Hr. cbn. now rewrite <- app_assoc.
    + rewrite Hu, Hsent, map_app, <- app_assoc. reflexivity.
Qed.

(** ** Rules for pre- and postconditions *)

Lemma triple_ret {A} (P : state -> Prop) (a : A) Q Qe :
  (forall s, P s -> Q a s) -> triple P (ret a) Q Qe.
Proof. intros H s Hs. cbn. auto. Qed.

Lemma triple_lift {A} (P : state -> Prop) (r : result A) Q Qe :
  (forall a s, r = Ok a -> P s -> Q a s) -> (forall s, P s -> Qe s) ->
  triple P (lift r) Q Qe.
Proof. intros H He s Hs. unfold lift. destruct r; auto. Qed.

Lemma triple_bind {A B} P (m : M A) (k : A -> M B) Q1 Q2 Qe :
  triple P m Q1 Qe -> (forall a, triple (Q1 a) (k a) Q2 Qe) ->
  triple P (bind m k) Q2 Qe.
Proof.
  intros Hm Hk s Hs. unfold bind. specialize (Hm s Hs).
  destruct (m s) as [[a|e] s1]; [exact (Hk a s1 Hm)|exact Hm].
Qed.

(** *** Invariants of everything built from the GET *)

Section GetInvariant.

Variables I Ie : state -> Prop.
Hypothesis I_Ie : forall s, I s -> Ie s.
Hypothesis I_get : forall url, triple I (rate_limited_get E url) (fun _ => I) Ie.

Lemma inv_lift {A} (r : result A) : triple I (lift r) (fun _ => I) Ie.
Proof. apply triple_lift; auto. Qed.

Lemma inv_fetch_loop fuel url max_pages :
  forall acc page tp,
    triple I (fetch_loop E fuel url max_pages acc page tp) (fun _ => I) Ie.
Proof.
  induction fuel as [|fuel IH]; intros acc page tp; cbn [fetch_loop].
  - eapply triple_bind; [apply inv_lift|]. intros [|].
    + intros s Hs. cbn. auto.
    + apply triple_ret; auto.
  - eapply triple_bind; [apply inv_lift|]. intros [|].
    + eapply triple_bind; [apply I_get|]. intros data.
      eapply triple_bind; [apply inv_lift|]. intros st. apply IH.
    + apply triple_ret; auto.
Qed.

Lemma inv_fetch_all_pages url max_pages :
  triple I (fetch_all_pages E url max_pages) (fun _ => I) Ie.
Proof. apply inv_fetch_loop. Qed.

Lemma inv_movie_iteration movie data :
  triple I (movie_iteration E movie data) (fun _ => I) Ie.
Proof.
  unfold movie_iteration.
  eapply triple_bind; [apply inv_lift|]. intros id.
  eapply triple_bind; [apply I_get|]. intros details.
  eapply triple_bind; [apply inv_lift|]. intros r.
  apply triple_ret; auto.
Qed.

Lemma inv_movies_loop movies :
  forall data, triple I (movies_loop E movies data) (fun _ => I) Ie.
Proof.
  induction movies as [|movie rest IH]; intros data; cbn [movies_loop].
  - apply triple_ret; auto.
  - eapply triple_bind; [apply inv_movie_iteration|]. intros data'. apply IH.
Qed.

Lemma inv_tv_iteration show data :
  triple I (tv_iteration E show data) (fun _ => I) Ie.
Proof.
  unfold tv_iteration.
  eapply triple_bind; [apply inv_lift|]. intros id.
  eapply triple_bind; [apply I_get|]. intros details.
  eapply triple_bind; [apply inv_lift|]. intros r.
  apply triple_ret; auto.
Qed.

Lemma inv_tv_loop shows :
  forall data, triple I (tv_loop E shows data) (fun _ => I) Ie.
Proof.
  induction shows as [|show rest IH]; intros data; cbn [tv_loop].
  - apply triple_ret; auto.
  - eapply triple_bind; [apply inv_tv_iteration|]. intros data'. apply IH.
Qed.

(** The whole script: [I] must hold once the token is checked and
    [last_request_time] is reset, and the final write takes [I] to [Qw]. *)
Lemma inv_run (P : state -> Prop) (Qw : state -> Prop) :
  (forall s, P s -> Ie s) ->
  triple P (set_last_request_time 0) (fun _ => I) Ie ->
  (forall movies_data tv_data,
      triple I (write_data_json E (output_data E movies_data tv_data))
        (fun _ => Qw) Ie) ->
  triple P (run E) (fun _ => Qw) Ie.
Proof.
  intros HP Hset Hw. unfold run.
  eapply triple_bind with (Q1 := fun _ => P).
  { intros s Hs. unfold check_token.
    destruct (TMDB_TOKEN E) as [tok|]; cbn; auto.
    destruct (String.eqb tok ""); cbn; auto. }
  intros ?. cbn beta. eapply triple_bind; [apply Hset|]. intros ?. cbn beta.
  eapply triple_bind; [apply inv_fetch_all_pages|]. intros movies.
  eapply triple_bind; [apply inv_movies_loop|]. intros movies_data.
  eapply triple_bind; [apply inv_fetch_all_pages|]. intros tv_shows.
  eapply triple_bind; [apply inv_tv_loop|]. intros tv_data.
  apply Hw.
Qed.

End GetInvariant.

(** ** Pagination *)

(** C1 (amended): for every URL and every [max_pages >= 1] the requests
    of [fetch_all_pages] are for the pages 1, 2, ..., n in this order,
    with [1 <= n <= max_pages]; the loop never exhausts its fuel; when it
    returns, every page was requested while it was within
    [min(total_pages, max_pages)] for the total in force after the
    answers before it, the loop stopped because page [n+1] was not, and
    the list returned is the concatenation, in page order, of what the
    answers carried.  When every answer carries a results list and the
    same total [T >= 1], [n] is [min(T, max_pages)]. *)
Theorem C1_pages_requested (url : string) (max_pages : Z) (s : state) :
  1 <= max_pages ->
  let out := fetch_all_pages E url max_pages s in
  (exists n : nat,
      (1 <= n)%nat /\ Z.of_nat n <= max_pages
      /\ map snd (sent (snd out))
         = (map snd (sent s) ++ map (page_url url) (pages_from 1 n))%list
      /\ fst out <> Raise LoopFuelExhausted
      /\ (forall l, fst out = Ok l ->
            exists ds,
              List.length ds = n
              /\ (forall j, (j < n)%nat ->
                    decode (server E (List.length (sent s) + j)
                              (page_url url (1 + Z.of_nat j)))
                    = Ok (nth j ds JNull))
              /\ l = List.concat (map page_items ds)
              /\ (forall j, (j < n)%nat ->
                    page_in_range (1 + Z.of_nat j)
                      (total_pages_after (JInt 1) (firstn j ds)) max_pages
                    = Ok true)
              /\ page_in_range (1 + Z.of_nat n)
                    (total_pages_after (JInt 1) ds) max_pages = Ok false))
  /\ (forall (T : Z) (items : Z -> list json),
        1 <= T ->
        (forall k p, exists kvs,
            decode (server E k (page_url url p)) = Ok (JObj kvs)
            /\ dict_lookup "results" kvs = Some (JArr (items p))
            /\ dict_lookup "total_pages" kvs = Some (JInt T)) ->
        fst out
          = Ok (List.concat
                  (map items (pages_from 1 (Z.to_nat (Z.min T max_pages)))))
        /\ map snd (sent (snd out))
           = (map snd (sent s)
              ++ map (page_url url)
                   (pages_from 1 (Z.to_nat (Z.min T max_pages))))%list).
Proof.
  intros Hmax out. subst out. unfold fetch_all_pages. split.
  - destruct (fetch_loop_trace url max_pages (Z.to_nat max_pages) [] 1 (JInt 1) s
                ltac:(lia)) as (n & Hu & Hb & Hn & Hx & Hok).
    assert (Hn1 : (1 <= n)%nat).
    { apply Hn. rewrite page_in_range_int. f_equal. apply Z.leb_le. lia. }
    exists n. repeat split; auto; try lia.
  - intros T items HT Hsrv.
    remember (Z.to_nat max_pages) as fuel eqn:Hfuel.
    destruct fuel as [|fuel]; [lia|].
    rewrite fetch_loop_step, page_in_range_int.
    replace (1 <=? Z.min 1 max_pages) with true
      by (symmetry; apply Z.leb_le; lia).
    destruct (rate_limited_get_spec (page_url url 1) s)
      as (s1 & Heq & Hsent & _ & _ & _).
    destruct (Hsrv (List.length (sent s)) 1) as (kvs & Hdec & Hres & Htot).
    rewrite Heq, Hdec.
    assert (Hab : absorb_page (JObj kvs) [] (JInt 1) = Ok (items 1, JInt T)).
    { unfold absorb_page. cbn. rewrite Hres. cbn. now rewrite Htot. }
    rewrite Hab. cbn [fst snd].
    destruct (Z.to_nat (Z.min T max_pages)) as [|m] eqn:Hm; [lia|].
    destruct (fetch_loop_uniform url max_pages T items Hsrv m fuel (items 1)
                (1 + 1) s1 ltac:(lia) ltac:(lia)) as [Hr Hu].
    split.
    + rewrite Hr. reflexivity.
    + rewrite Hu, Hsent, map_app, <- app_assoc. reflexivity.
Qed.

(** C2 (amended): a page without a [results] key appends nothing and
    leaves [total_pages] as it was, and the loop goes on to the next page
    under that unchanged bound; a page with a [results] key is appended
    and sets [total_pages] to the page's value, or to 1 when the page has
    none, and in that case the loop ends with the current page. *)
Theorem C2_page_absorption (kvs : list (string * json)) (acc : list json)
    (tp : json) :
  (dict_lookup "results" kvs = None ->
     absorb_page (JObj kvs) acc tp = Ok (acc, tp)
     /\ forall fuel url max_pages page s s1,
          page_in_range page tp max_pages = Ok true ->
          rate_limited_get E (page_url url page) s = (Ok (JObj kvs), s1) ->
          fetch_loop E (S fuel) url max_pages acc page tp s
          = fetch_loop E fuel url max_pages acc (page + 1) tp s1)
  /\ (forall items,
        dict_lookup "results" kvs = Some (JArr items) ->
        absorb_page (JObj kvs) acc tp
          = Ok ((acc ++ items)%list,
                match dict_lookup "total_pages" kvs with
                | Some t => t
                | None => JInt 1
                end)
        /\ (dict_lookup "total_pages" kvs = None ->
            forall fuel url max_pages page s s1,
              1 <= page ->
              page_in_range page tp max_pages = Ok true ->
              rate_limited_get E (page_url url page) s = (Ok (JObj kvs), s1) ->
              fetch_loop E (S fuel) url max_pages acc page tp s
              = (Ok (acc ++ items)%list, s1))).
Proof.
  split.
  - intros Hres.
    assert (Hab : absorb_page (JObj kvs) acc tp = Ok (acc, tp)).
    { unfold absorb_page. cbn. now rewrite Hres. }
    split; [exact Hab|].
    intros fuel url max_pages page s s1 Hg Hget.
    now rewrite fetch_loop_step, Hg, Hget, Hab.
  - intros items Hres.
    assert (Hab : absorb_page (JObj kvs) acc tp
                  = Ok ((acc ++ items)%list,
                        match dict_lookup "total_pages" kvs with
                        | Some t => t
                        | None => JInt 1
                        end)).
    { unfold absorb_page. cbn. rewrite Hres. cbn.
      now destruct (dict_lookup "total_pages" kvs). }
    split; [exact Hab|].
    intros Htot fuel url max_pages page s s1 Hpage Hg Hget.
    rewrite fetch_loop_step, Hg, Hget, Hab, Htot. cbn [fst snd].
    apply fetch_loop_stop. rewrite page_in_range_int. f_equal.
    apply Z.leb_gt. lia.
Qed.

(** ** The genre filter and the counts *)

Lemma rbind_ok {A B} (r : result A) (k : A -> result B) b :
  rbind r k = Ok b -> exists a, r = Ok a /\ k a = Ok b.
Proof. destruct r as [a|e]; cbn; [eauto|discriminate]. Qed.

Lemma movie_record_inv item details o :
  movie_record E item details = Ok o ->
  exists director actors streaming gs,
    extract_director details = Ok director
    /\ extract_actors details = Ok actors
    /\ extract_streaming E details = Ok streaming
    /\ extract_genres details = Ok gs
    /\ if is_excluded (snd gs) then o = None
       else exists record,
              movie_entry item director actors (fst gs) streaming = Ok record
              /\ o = Some record.
Proof.
  unfold movie_record. intro H.
  apply rbind_ok in H as (director & Hd & H).
  apply rbind_ok in H as (actors & Ha & H).
  apply rbind_ok in H as (streaming & Hs & H).
  apply rbind_ok in H as (gs & Hg & H).
  exists director, actors, streaming, gs. repeat (split; [assumption|]).
  destruct (is_excluded (snd gs)).
  - congruence.
  - apply rbind_ok in H as (record & Hr & H). exists record. split; congruence.
Qed.

Lemma tv_record_inv show details o :
  tv_record E show details = Ok o ->
  exists actors streaming gs,
    extract_actors details = Ok actors
    /\ extract_streaming E details = Ok streaming
    /\ extract_genres details = Ok gs
    /\ if is_excluded (snd gs) then o = None
       else exists tv_status record,
              tv_status_info details = Ok tv_status
              /\ tv_entry show actors (fst gs) tv_status streaming = Ok record
              /\ o = Some record.
Proof.
  unfold tv_record. intro H.
  apply rbind_ok in H as (actors & Ha & H).
  apply rbind_ok in H as (streaming & Hs & H).
  apply rbind_ok in H as (gs & Hg & H).
  exists actors, streaming, gs. repeat (split; [assumption|]).
  destruct (is_excluded (snd gs)).
  - congruence.
  - apply rbind_ok in H as (tv_status & Ht & H).
    apply rbind_ok in H as (record & Hr & H).
    exists tv_status, record. repeat split; congruence.
Qed.

(** What one iteration of an enrichment loop does when it returns: it
    sent one detail request and appended what the record function gave. *)
Lemma movie_iteration_inv movie data s data' s' :
  movie_iteration E movie data s = (Ok data', s') ->
  exists id details o,
    py_getitem movie "id" = Ok id
    /\ decode (server E (List.length (sent s)) (detail_url E id "movie")) = Ok details
    /\ movie_record E movie details = Ok o
    /\ data' = append_record data o.
Proof.
  unfold movie_iteration, fetch_item_details, bind, lift, ret.
  destruct (py_getitem movie "id") as [id|e] eqn:Hid; [|discriminate].
  destruct (rate_limited_get_spec (detail_url E id "movie") s)
    as (s1 & Heq & _). rewrite Heq.
  destruct (decode _) as [details|e] eqn:Hdec; [|discriminate].
  destruct (movie_record E movie details) as [o|e] eqn:Ho; [|discriminate].
  intro H. injection H as <- <-. exists id, details, o. auto.
Qed.

Lemma tv_iteration_inv show data s data' s' :
  tv_iteration E show data s = (Ok data', s') ->
  exists id details o,
    py_getitem show "id" = Ok id
    /\ decode (server E (List.length (sent s)) (detail_url E id "tv")) = Ok details
    /\ tv_record E show details = Ok o
    /\ data' = append_record data o.
Proof.
  unfold tv_iteration, fetch_item_details, bind, lift, ret.
  destruct (py_getitem show "id") as [id|e] eqn:Hid; [|discriminate].
  destruct (rate_limited_get_spec (detail_url E id "tv") s)
    as (s1 & Heq & _). rewrite Heq.
  destruct (decode _) as [details|e] eqn:Hdec; [|discriminate].
  destruct (tv_record E show details) as [o|e] eqn:Ho; [|discriminate].
  intro H. injection H as <- <-. exists id, details, o. auto.
Qed.

Lemma is_excluded_In g genre_list :
  In g EXCLUDED_GENRES -> In (JStr g) genre_list -> is_excluded genre_list = true.
Proof.
  intros Hg Hin. unfold is_excluded. apply existsb_exists.
  exists (JStr g). split; [exact Hin|]. apply existsb_exists.
  exists g. split; [exact Hg|]. cbn. apply String.eqb_refl.
Qed.

(** C3: when the unjoined genre list of an item's detail payload holds one
    of the five excluded names, the item yields no record, for movies and
    for TV alike and whatever the item itself contains: the iteration
    that fetched this payload either raises or returns the output list
    unchanged, so the list, and with it every count in the metadata,
    stays as it was. *)
Theorem C3_excluded_genre_dropped (item details genres : json)
    (genre_list : list json) (g : string) :
  extract_genres details = Ok (genres, genre_list) ->
  In g EXCLUDED_GENRES ->
  In (JStr g) genre_list ->
  (forall o, movie_record E item details = Ok o -> o = None)
  /\ (forall o, tv_record E item details = Ok o -> o = None)
  /\ (forall id data s data' s',
        py_getitem item "id" = Ok id ->
        decode (server E (List.length (sent s)) (detail_url E id "movie"))
          = Ok details ->
        movie_iteration E item data s = (Ok data', s') ->
        data' = data /\ len data' = len data)
  /\ (forall id data s data' s',
        py_getitem item "id" = Ok id ->
        decode (server E (List.length (sent s)) (detail_url E id "tv"))
          = Ok details ->
        tv_iteration E item data s = (Ok data', s') ->
        data' = data /\ len data' = len data).
Proof.
  intros Hgen Hg Hin.
  pose proof (is_excluded_In g genre_list Hg Hin) as Hex.
  assert (Hm : forall o, movie_record E item details = Ok o -> o = None).
  { intros o Ho. apply movie_record_inv in Ho
      as (d & a & st & gs & _ & _ & _ & Hgs & Hif).
    rewrite Hgen in Hgs. injection Hgs as Hgs. subst gs. cbn [snd] in Hif.
    now rewrite Hex in Hif. }
  assert (Ht : forall o, tv_record E item details = Ok o -> o = None).
  { intros o Ho. apply tv_record_inv in Ho as (a & st & gs & _ & _ & Hgs & Hif).
    rewrite Hgen in Hgs. injection Hgs as Hgs. subst gs. cbn [snd] in Hif.
    now rewrite Hex in Hif. }
  split; [exact Hm|]. split; [exact Ht|]. split.
  - intros id data s data' s' Hid Hdec Hit.
    apply movie_iteration_inv in Hit as (id' & details' & o & Hid' & Hdec' & Ho & ->).
    rewrite Hid in Hid'. injection Hid' as <-.
    rewrite Hdec in Hdec'. injection Hdec' as <-.
    rewrite (Hm o Ho). cbn. auto.
  - intros id data s data' s' Hid Hdec Hit.
    apply tv_iteration_inv in Hit as (id' & details' & o & Hid' & Hdec' & Ho & ->).
    rewrite Hid in Hid'. injection Hid' as <-.
    rewrite Hdec in Hdec'. injection Hdec' as <-.
    rewrite (Ht o Ho). cbn. auto.
Qed.







(** ** Field extraction *)

Lemma other_job_get e :
  other_job e ->
  exists j, py_get e "job" JNull = Ok j /\ py_eq_str j "Director" = false.
Proof.
  intros (kvs & -> & Hj). cbn.
  destruct (dict_lookup "job" kvs) as [j|]; [|exists JNull; auto].
  exists j. split; [reflexivity|].
  destruct j; cbn; try reflexivity.
  destruct (String.eqb_spec s "Director"); [subst; congruence|reflexivity].
Qed.

Lemma find_director_none crew :
  Forall other_job crew -> find_director crew = Ok None.
Proof.
  induction 1 as [|e rest He _ IH]; cbn; [reflexivity|].
  destruct (other_job_get e He) as (j & -> & Hj). cbn. now rewrite Hj.
Qed.

Lemma find_director_first pre p post :
  Forall other_job pre -> has_job p "Director" ->
  find_director (pre ++ p :: post) = Ok (Some p).
Proof.
  intros Hpre (kvs & -> & Hj).
  induction Hpre as [|e rest He _ IH]; cbn.
  - now rewrite Hj.
  - destruct (other_job_get e He) as (j & -> & Hj'). cbn. now rewrite Hj'.
Qed.

Lemma rmap_names entries names :
  Forall2 named entries names ->
  rmap (fun e => py_getitem e "name") entries = Ok names.
Proof.
  induction 1 as [|e n es ns (kvs & -> & Hn) _ IH]; cbn; [reflexivity|].
  rewrite Hn. cbn. now rewrite IH.
Qed.

Lemma py_join_strings sep names :
  py_join sep (map JStr names) = Ok (String.concat sep names).
Proof.
  induction names as [|n rest IH]; cbn; [reflexivity|].
  destruct rest as [|n' rest']; [reflexivity|].
  cbn [map] in IH |- *. now rewrite IH.
Qed.

Lemma movie_entry_fields item director actors genres streaming record :
  movie_entry item director actors genres streaming = Ok record ->
  exists release_date year,
    py_get item "release_date" JNull = Ok release_date
    /\ year_of item "release_date" = Ok year
    /\ field "release_date" record = Some release_date
    /\ field "year" record = Some year
    /\ field "director" record = Some director
    /\ field "actors" record = Some actors
    /\ field "genres" record = Some genres
    /\ field "providers" record = Some (JObj [("streaming", JArr streaming)]).
Proof.
  unfold movie_entry. intro H.
  apply rbind_ok in H as (id & _ & H).
  apply rbind_ok in H as (title & _ & H).
  apply rbind_ok in H as (overview & _ & H).
  apply rbind_ok in H as (poster & _ & H).
  apply rbind_ok in H as (rd & Hrd & H).
  apply rbind_ok in H as (year & Hy & H).
  apply rbind_ok in H as (va & _ & H).
  apply rbind_ok in H as (vc & _ & H).
  injection H as <-. exists rd, year. cbn. auto 10.
Qed.

Lemma tv_entry_fields show actors genres tv_status streaming record :
  tv_entry show actors genres tv_status streaming = Ok record ->
  exists first_air_date year,
    py_get show "first_air_date" JNull = Ok first_air_date
    /\ year_of show "first_air_date" = Ok year
    /\ field "first_air_date" record = Some first_air_date
    /\ field "year" record = Some year
    /\ field "actors" record = Some actors
    /\ field "genres" record = Some genres
    /\ field "providers" record = Some (JObj [("streaming", JArr streaming)]).
Proof.
  unfold tv_entry. intro H.
  apply rbind_ok in H as (id & _ & H).
  apply rbind_ok in H as (title & _ & H).
  apply rbind_ok in H as (overview & _ & H).
  apply rbind_ok in H as (poster & _ & H).
  apply rbind_ok in H as (rd & Hrd & H).
  apply rbind_ok in H as (year & Hy & H).
  apply rbind_ok in H as (va & _ & H).
  apply rbind_ok in H as (vc & _ & H).
  injection H as <-. exists rd, year. cbn. auto 10.
Qed.

Lemma movie_record_some item details record :
  movie_record E item details = Ok (Some record) ->
  exists director actors streaming gs,
    extract_director details = Ok director
    /\ extract_actors details = Ok actors
    /\ extract_streaming E details = Ok streaming
    /\ extract_genres details = Ok gs
    /\ movie_entry item director actors (fst gs) streaming = Ok record.
Proof.
  intro H. apply movie_record_inv in H as (d & a & st & gs & Hd & Ha & Hs & Hg & Hif).
  exists d, a, st, gs. repeat (split; [assumption|]).
  destruct (is_excluded (snd gs)); [discriminate|].
  destruct Hif as (r & Hr & Heq). congruence.
Qed.

Lemma tv_record_some show details record :
  tv_record E show details = Ok (Some record) ->
  exists actors streaming gs tv_status,
    extract_actors details = Ok actors
    /\ extract_streaming E details = Ok streaming
    /\ extract_genres details = Ok gs
    /\ tv_entry show actors (fst gs) tv_status streaming = Ok record.
Proof.
  intro H. apply tv_record_inv in H as (a & st & gs & Ha & Hs & Hg & Hif).
  destruct (is_excluded (snd gs)); [discriminate|].
  destruct Hif as (ts & r & _ & Hr & Heq).
  exists a, st, gs, ts. repeat (split; [assumption|]). congruence.
Qed.

(** C6: the director is the name of the first crew entry whose job is
    exactly "Director", and "N/A" when the payload has no credits (none,
    null or empty), no crew, or no such entry; the actors are the names
    of the first three cast entries joined by ", ", and "N/A" when the
    payload has no credits or its cast is missing or empty; the records
    carry these two values (TV records the actors only). *)
Theorem C6_director_and_actors (kvs : list (string * json)) :
  let details := JObj kvs in
  (truthy (default_to (dict_lookup "credits" kvs) JNull) = false ->
     extract_director details = Ok (JStr "N/A")
     /\ extract_actors details = Ok (JStr "N/A"))
  /\ (forall ckvs,
        dict_lookup "credits" kvs = Some (JObj ckvs) ->
        (forall pre p post name,
            dict_lookup "crew" ckvs = Some (JArr (pre ++ p :: post)) ->
            Forall other_job pre -> has_job p "Director" -> named p name ->
            extract_director details = Ok name)
        /\ (forall crew,
              dict_lookup "crew" ckvs = Some (JArr crew) ->
              Forall other_job crew ->
              extract_director details = Ok (JStr "N/A"))
        /\ (truthy (default_to (dict_lookup "crew" ckvs) JNull) = false ->
            extract_director details = Ok (JStr "N/A"))
        /\ (forall cast names,
              dict_lookup "cast" ckvs = Some (JArr cast) ->
              cast <> [] ->
              Forall2 named (firstn 3 cast) (map JStr names) ->
              extract_actors details = Ok (JStr (String.concat ", " names)))
        /\ (truthy (default_to (dict_lookup "cast" ckvs) JNull) = false ->
            extract_actors details = Ok (JStr "N/A")))
  /\ (forall item record,
        movie_record E item details = Ok (Some record) ->
        exists director actors,
          extract_director details = Ok director
          /\ extract_actors details = Ok actors
          /\ field "director" record = Some director
          /\ field "actors" record = Some actors)
  /\ (forall show record,
        tv_record E show details = Ok (Some record) ->
        exists actors,
          extract_actors details = Ok actors
          /\ field "actors" record = Some actors).
Proof.
  cbv zeta. split; [|split; [|split]].
  - intro Hc. unfold extract_director, extract_actors, py_get.
    destruct (dict_lookup "credits" kvs) as [c|]; cbn in Hc |- *.
    + rewrite Hc. auto.
    + auto.
  - intros ckvs Hc.
    assert (Hdir : forall crew,
      dict_lookup "crew" ckvs = Some (JArr crew) -> crew <> [] ->
      extract_director (JObj kvs) =
        (director_person <-? find_director crew ;;
         match director_person with
         | Some p => if truthy p then py_getitem p "name" else Ok (JStr "N/A")
         | None => Ok (JStr "N/A")
         end)).
    { intros crew Hcrew Hne. unfold extract_director. cbn. rewrite Hc. cbn.
      destruct ckvs as [|kv ckvs']; [discriminate|].
      cbn [truthy]. rewrite Hcrew. cbn.
      destruct crew; [congruence|reflexivity]. }
    split; [|split; [|split; [|split]]].
    + intros pre p post name Hcrew Hpre Hp (pkvs & -> & Hname).
      rewrite (Hdir _ Hcrew) by (now destruct pre).
      rewrite (find_director_first pre (JObj pkvs) post Hpre Hp). cbn.
      destruct pkvs; [discriminate|]. cbn [truthy]. now rewrite Hname.
    + intros crew Hcrew Hall.
      destruct crew as [|e crew'].
      * unfold extract_director. cbn. rewrite Hc. cbn.
        destruct ckvs; [discriminate|]. cbn [truthy]. now rewrite Hcrew.
      * rewrite (Hdir _ Hcrew) by discriminate.
        now rewrite (find_director_none _ Hall).
    + intros Hcrew. unfold extract_director. cbn. rewrite Hc. cbn.
      destruct ckvs; [reflexivity|]. cbn [truthy].
      destruct (dict_lookup "crew" _) as [c|]; cbn in Hcrew |- *;
        [now rewrite Hcrew|reflexivity].
    + intros cast names Hcast Hne Hnames.
      assert (Hact : extract_actors (JObj kvs) =
        (top_actors <-? rmap (fun actor => py_getitem actor "name") (firstn 3 cast) ;;
         match top_actors with
         | [] => Ok (JStr "N/A")
         | _ :: _ => joined <-? py_join ", " top_actors ;; Ok (JStr joined)
         end)).
      { unfold extract_actors. cbn. rewrite Hc. cbn.
        destruct ckvs; [discriminate|]. cbn [truthy]. rewrite Hcast. cbn.
        destruct cast; [congruence|reflexivity]. }
      rewrite Hact, (rmap_names _ _ Hnames). cbn [rbind].
      destruct names as [|n names'].
      { destruct cast; [congruence|inversion Hnames]. }
      cbn [map]. change (JStr n :: map JStr names') with (map JStr (n :: names')).
      now rewrite py_join_strings.
    + intros Hcast. unfold extract_actors. cbn. rewrite Hc. cbn.
      destruct ckvs; [reflexivity|]. cbn [truthy].
      destruct (dict_lookup "cast" _) as [c|]; cbn in Hcast |- *;
        [now rewrite Hcast|reflexivity].
  - intros item record Hr.
    apply movie_record_some in Hr as (d & a & st & gs & Hd & Ha & _ & _ & He).
    apply movie_entry_fields in He as (rd & y & _ & _ & _ & _ & Hfd & Hfa & _).
    exists d, a. auto.
  - intros show record Hr.
    apply tv_record_some in Hr as (a & st & gs & ts & Ha & _ & _ & He).
    apply tv_entry_fields in He as (rd & y & _ & _ & _ & _ & Hfa & _).
    exists a. auto.
Qed.

(** C7: the streaming list is read from [watch/providers.results.US.flatrate];
    each entry becomes an object with the provider's name and, as logo, the
    image base path followed by the entry's logo path (as the f-string
    writes it: a string unchanged); the list is empty
    when [watch/providers], [results], the [US] entry or the [flatrate]
    key is missing; the records carry the list. *)
Theorem C7_streaming_providers (kvs : list (string * json)) :
  let details := JObj kvs in
  (dict_lookup "watch/providers" kvs = None ->
     extract_streaming E details = Ok [])
  /\ (forall wp,
        dict_lookup "watch/providers" kvs = Some (JObj wp) ->
        (dict_lookup "results" wp = None -> extract_streaming E details = Ok [])
        /\ (forall rs,
              dict_lookup "results" wp = Some (JObj rs) ->
              (dict_lookup "US" rs = None -> extract_streaming E details = Ok [])
              /\ (forall us,
                    dict_lookup "US" rs = Some (JObj us) ->
                    (dict_lookup "flatrate" us = None ->
                       extract_streaming E details = Ok [])
                    /\ (forall entries outs,
                          dict_lookup "flatrate" us = Some (JArr entries) ->
                          Forall2 (provider_of E) entries outs ->
                          extract_streaming E details = Ok outs))))
  /\ (forall item record,
        movie_record E item details = Ok (Some record) ->
        exists streaming,
          extract_streaming E details = Ok streaming
          /\ field "providers" record
             = Some (JObj [("streaming", JArr streaming)]))
  /\ (forall show record,
        tv_record E show details = Ok (Some record) ->
        exists streaming,
          extract_streaming E details = Ok streaming
          /\ field "providers" record
             = Some (JObj [("streaming", JArr streaming)])).
Proof.
  cbv zeta. split; [|split; [|split]].
  - intro H. unfold extract_streaming. cbn. now rewrite H.
  - intros wp Hwp. split.
    { intro H. unfold extract_streaming. cbn. rewrite Hwp. cbn. now rewrite H. }
    intros rs Hrs. split.
    { intro H. unfold extract_streaming. cbn. rewrite Hwp. cbn. rewrite Hrs. cbn.
      now rewrite H. }
    intros us Hus. split.
    { intro H. unfold extract_streaming. cbn. rewrite Hwp. cbn. rewrite Hrs. cbn.
      rewrite Hus. cbn. now rewrite H. }
    intros entries outs Hfl Hall.
    unfold extract_streaming. cbn. rewrite Hwp. cbn. rewrite Hrs. cbn.
    rewrite Hus. cbn. rewrite Hfl. cbn.
    destruct entries as [|e entries'].
    { inversion Hall. reflexivity. }
    clear Hfl. induction Hall as [|x o xs os (ekvs & n & path & -> & Hn & Hp & ->) _ IH].
    + reflexivity.
    + cbn [rmap]. unfold provider_entry at 1. cbn. rewrite Hn. cbn. rewrite Hp. cbn.
      now rewrite IH.
  - intros item record Hr.
    apply movie_record_some in Hr as (d & a & st & gs & _ & _ & Hs & _ & He).
    apply movie_entry_fields in He as (rd & y & _ & _ & _ & _ & _ & _ & _ & Hp).
    exists st. auto.
  - intros show record Hr.
    apply tv_record_some in Hr as (a & st & gs & ts & _ & Hs & _ & He).
    apply tv_entry_fields in He as (rd & y & _ & _ & _ & _ & _ & _ & Hp).
    exists st. auto.
Qed.

(** ** The year of a record *)

Lemma year_of_obj kvs key :
  year_of (JObj kvs) key =
    match dict_lookup key kvs with
    | None => Ok JNull
    | Some v => if truthy v then strptime_year v else Ok JNull
    end.
Proof.
  unfold year_of. cbn. destruct (dict_lookup key kvs) as [v|]; cbn.
  - now destruct (truthy v).
  - reflexivity.
Qed.

Lemma year_of_is_obj item key y :
  year_of item key = Ok y -> exists kvs, item = JObj kvs.
Proof. destruct item; cbn; try discriminate. eauto. Qed.

Lemma re_date_year cs y m d rest :
  In (y, m, d, rest) (re_date cs) -> exists r, In (y, r) (re_Y cs).
Proof.
  unfold re_date. intro H.
  apply in_flat_map in H as ([y0 r0] & Hy & H).
  apply in_flat_map in H as (r1 & _ & H).
  apply in_flat_map in H as (mr & _ & H).
  apply in_flat_map in H as (r2 & _ & H).
  apply in_map_iff in H as (dr & Heq & _).
  injection Heq as <- _ _ _. eauto.
Qed.

Lemma strptime_ymd_year s y m d :
  strptime_ymd s = Ok (y, m, d) ->
  exists a b c e rest,
    s = String a (String b (String c (String e rest)))
    /\ is_digit a && is_digit b && is_digit c && is_digit e = true
    /\ y = year4 a b c e.
Proof.
  unfold strptime_ymd.
  destruct (re_date (list_ascii_of_string s)) as [|[[[y' m'] d'] rest'] tl] eqn:Hre;
    [discriminate|].
  destruct rest'; [|discriminate].
  destruct (valid_date y' m' d'); [|discriminate].
  intro H. injection H as <- <- <-.
  assert (Hin : In (y', m', d', []) (re_date (list_ascii_of_string s)))
    by (rewrite Hre; now left).
  apply re_date_year in Hin as (r & Hin).
  destruct s as [|a [|b [|c [|e rest]]]]; cbn in Hin; try contradiction.
  exists a, b, c, e, rest. split; [reflexivity|].
  destruct (is_digit a && is_digit b && is_digit c && is_digit e);
    [|contradiction].
  split; [reflexivity|].
  destruct Hin as [Heq|[]]. now injection Heq.
Qed.

Lemma year_of_cases kvs key y :
  year_of (JObj kvs) key = Ok y ->
  (dict_lookup key kvs = None -> y = JNull)
  /\ (forall s, dict_lookup key kvs = Some (JStr s) -> s <> "" ->
        exists a b c d rest m dd,
          s = String a (String b (String c (String d rest)))
          /\ is_digit a && is_digit b && is_digit c && is_digit d = true
          /\ strptime_ymd s = Ok (year4 a b c d, m, dd)
          /\ y = JInt (year4 a b c d))
  /\ (dict_lookup key kvs = Some (JStr "2024-03-15") -> y = JInt 2024)
  /\ (forall v, dict_lookup key kvs = Some v -> truthy v = false -> y = JNull).
Proof.
  rewrite year_of_obj. intro H. split; [|split; [|split]].
  - intros Hk. rewrite Hk in H. congruence.
  - intros s Hk Hne. rewrite Hk in H. cbn in H.
    destruct (String.eqb_spec s ""); [contradiction|]. cbn in H.
    destruct (strptime_ymd s) as [[[yy m] dd]|e] eqn:Hp; [|discriminate].
    cbn in H. injection H as <-.
    destruct (strptime_ymd_year s yy m dd Hp) as (a & b & c & d & rest & Hs & Hd & ->).
    exists a, b, c, d, rest, m, dd. auto.
  - intros Hk. rewrite Hk in H. vm_compute in H. congruence.
  - intros v Hk Hv. rewrite Hk, Hv in H. congruence.
Qed.

(** C9: the [year] of a record is read off the item's date ([release_date]
    for a movie, [first_air_date] for a show): for a non-empty date
    string it is the number written by the string's first four
    characters, which are digits, the string being one that [strptime]
    accepts; "2024-03-15" gives 2024; and it is null when the item has no
    date entry (or an empty or null one). *)
Theorem C9_year_field (item details record : json) (key : string) :
  (key = "release_date" /\ movie_record E item details = Ok (Some record))
  \/ (key = "first_air_date" /\ tv_record E item details = Ok (Some record)) ->
  exists kvs,
    item = JObj kvs
    /\ field key record = Some (default_to (dict_lookup key kvs) JNull)
    /\ (dict_lookup key kvs = None -> field "year" record = Some JNull)
    /\ (forall s, dict_lookup key kvs = Some (JStr s) -> s <> "" ->
          exists a b c d rest m dd,
            s = String a (String b (String c (String d rest)))
            /\ is_digit a && is_digit b && is_digit c && is_digit d = true
            /\ strptime_ymd s = Ok (year4 a b c d, m, dd)
            /\ field "year" record = Some (JInt (year4 a b c d)))
    /\ (dict_lookup key kvs = Some (JStr "2024-03-15") ->
        field "year" record = Some (JInt 2024))
    /\ (forall v, dict_lookup key kvs = Some v -> truthy v = false ->
          field "year" record = Some JNull).
Proof.
  intros H.
  assert (Hy : exists date year,
             py_get item key JNull = Ok date /\ year_of item key = Ok year
             /\ field key record = Some date /\ field "year" record = Some year).
  { destruct H as [[-> Hr]|[-> Hr]].
    - apply movie_record_some in Hr as (d & a & st & gs & _ & _ & _ & _ & He).
      apply movie_entry_fields in He as (rd & y & Hrd & Hy & Hfd & Hfy & _).
      exists rd, y. auto.
    - apply tv_record_some in Hr as (a & st & gs & ts & _ & _ & _ & He).
      apply tv_entry_fields in He as (rd & y & Hrd & Hy & Hfd & Hfy & _).
      exists rd, y. auto. }
  destruct Hy as (date & year & Hdate & Hyear & Hfd & Hfy).
  destruct (year_of_is_obj _ _ _ Hyear) as (kvs & ->).
  exists kvs. split; [reflexivity|]. split.
  { rewrite Hfd. f_equal. cbn in Hdate.
    destruct (dict_lookup key kvs); cbn; congruence. }
  rewrite Hfy.
  destruct (year_of_cases kvs key year Hyear) as (H1 & H2 & H3 & H4).
  split; [|split; [|split]].
  - intros Hk. now rewrite (H1 Hk).
  - intros s Hk Hne.
    destruct (H2 s Hk Hne) as (a & b & c & d & rest & m & dd & Hs & Hd & Hp & ->).
    exists a, b, c, d, rest, m, dd. auto.
  - intros Hk. now rewrite (H3 Hk).
  - intros v Hk Hv. now rewrite (H4 v Hk Hv).
Qed.

(** ** Required and defaulted fields of a discovery item *)

Lemma incomplete_year_raises kvs title_key date_key y :
  incomplete kvs title_key date_key ->
  year_of (JObj kvs) date_key = Ok y ->
  dict_lookup "id" kvs = None
  \/ dict_lookup title_key kvs = None
  \/ dict_lookup "vote_average" kvs = None
  \/ dict_lookup "vote_count" kvs = None.
Proof.
  intros [H|[H|[H|[H|(s & Hk & Hne & Hp)]]]] Hy; auto.
  rewrite year_of_obj, Hk in Hy. cbn in Hy.
  destruct (String.eqb_spec s ""); [contradiction|]. cbn in Hy.
  rewrite Hp in Hy. discriminate.
Qed.

Lemma movie_entry_incomplete kvs director actors genres streaming :
  incomplete kvs "title" "release_date" ->
  exists e, movie_entry (JObj kvs) director actors genres streaming = Raise e.
Proof.
  intro Hinc. unfold movie_entry.
  destruct (year_of (JObj kvs) "release_date") as [y|e] eqn:Hy.
  - pose proof (incomplete_year_raises _ _ _ _ Hinc Hy) as H. cbn.
    destruct (dict_lookup "id" kvs); cbn; [|eauto].
    destruct (dict_lookup "title" kvs); cbn; [|eauto].
    destruct (dict_lookup "overview" kvs); cbn;
      (destruct (dict_lookup "poster_path" kvs); cbn);
      (destruct (dict_lookup "release_date" kvs); cbn);
      (destruct (dict_lookup "vote_average" kvs); cbn; [|eauto]);
      (destruct (dict_lookup "vote_count" kvs); cbn; [|eauto]);
      exfalso; intuition discriminate.
  - cbn.
    destruct (dict_lookup "id" kvs); cbn; [|eauto].
    destruct (dict_lookup "title" kvs); cbn; [|eauto].
    destruct (dict_lookup "overview" kvs); cbn;
      (destruct (dict_lookup "poster_path" kvs); cbn);
      (destruct (dict_lookup "release_date" kvs); cbn); eauto.
Qed.

Lemma tv_entry_incomplete kvs actors genres tv_status streaming :
  incomplete kvs "name" "first_air_date" ->
  exists e, tv_entry (JObj kvs) actors genres tv_status streaming = Raise e.
Proof.
  intro Hinc. unfold tv_entry.
  destruct (year_of (JObj kvs) "first_air_date") as [y|e] eqn:Hy.
  - pose proof (incomplete_year_raises _ _ _ _ Hinc Hy) as H. cbn.
    destruct (dict_lookup "id" kvs); cbn; [|eauto].
    destruct (dict_lookup "name" kvs); cbn; [|eauto].
    destruct (dict_lookup "overview" kvs); cbn;
      (destruct (dict_lookup "poster_path" kvs); cbn);
      (destruct (dict_lookup "first_air_date" kvs); cbn);
      (destruct (dict_lookup "vote_average" kvs); cbn; [|eauto]);
      (destruct (dict_lookup "vote_count" kvs); cbn; [|eauto]);
      exfalso; intuition discriminate.
  - cbn.
    destruct (dict_lookup "id" kvs); cbn; [|eauto].
    destruct (dict_lookup "name" kvs); cbn; [|eauto].
    destruct (dict_lookup "overview" kvs); cbn;
      (destruct (dict_lookup "poster_path" kvs); cbn);
      (destruct (dict_lookup "first_air_date" kvs); cbn); eauto.
Qed.

Lemma movie_record_incomplete kvs details :
  incomplete kvs "title" "release_date" ->
  (exists e, movie_record E (JObj kvs) details = Raise e)
  \/ (movie_record E (JObj kvs) details = Ok None
      /\ exists gs, extract_genres details = Ok gs /\ is_excluded (snd gs) = true).
Proof.
  intro Hinc. unfold movie_record.
  destruct (extract_director details) as [d|e]; cbn; [|eauto].
  destruct (extract_actors details) as [a|e]; cbn; [|eauto].
  destruct (extract_streaming E details) as [st|e]; cbn; [|eauto].
  destruct (extract_genres details) as [gs|e]; cbn; [|eauto].
  destruct (is_excluded (snd gs)) eqn:Hex; [right; eauto|].
  destruct (movie_entry_incomplete kvs d a (fst gs) st Hinc) as (e & ->).
  cbn. eauto.
Qed.

Lemma tv_record_incomplete kvs details :
  incomplete kvs "name" "first_air_date" ->
  (exists e, tv_record E (JObj kvs) details = Raise e)
  \/ (tv_record E (JObj kvs) details = Ok None
      /\ exists gs, extract_genres details = Ok gs /\ is_excluded (snd gs) = true).
Proof.
  intro Hinc. unfold tv_record.
  destruct (extract_actors details) as [a|e]; cbn; [|eauto].
  destruct (extract_streaming E details) as [st|e]; cbn; [|eauto].
  destruct (extract_genres details) as [gs|e]; cbn; [|eauto].
  destruct (is_excluded (snd gs)) eqn:Hex; [right; eauto|].
  destruct (tv_status_info details) as [ts|e]; cbn; [|eauto].
  destruct (tv_entry_incomplete kvs a (fst gs) ts st Hinc) as (e & ->).
  cbn. eauto.
Qed.

(** C10 (amended): an item without ['id'] raises before its detail
    request is made, whatever its genres.  An item that lacks ['title']
    (['name'] for TV), ['vote_average'] or ['vote_count'], or whose date is
    a non-empty string that [strptime] rejects, makes the record builder
    raise; so such an item never yields a record, and the iteration, the
    loop and the run stop there with the exception unless the genre filter
    rejected the item first.  ['overview'], ['poster_path'] and the date
    are read with a default: an item that has the four indexed keys and no
    date, or an empty or null one, yields a record with year null. *)
Theorem C10_required_and_defaulted_fields (kvs : list (string * json)) :
  let item := JObj kvs in
  (dict_lookup "id" kvs = None ->
     forall data s,
       movie_iteration E item data s = (Raise (KeyError "id"), s)
       /\ tv_iteration E item data s = (Raise (KeyError "id"), s))
  /\ (incomplete kvs "title" "release_date" ->
      (forall director actors genres streaming,
          exists e, movie_entry item director actors genres streaming = Raise e)
      /\ (forall details record,
            movie_record E item details <> Ok (Some record))
      /\ (forall id details gs rest data s,
            py_getitem item "id" = Ok id ->
            decode (server E (List.length (sent s)) (detail_url E id "movie"))
              = Ok details ->
            extract_genres details = Ok gs ->
            is_excluded (snd gs) = false ->
            exists e s',
              movie_iteration E item data s = (Raise e, s')
              /\ movies_loop E (item :: rest) data s = (Raise e, s')))
  /\ (incomplete kvs "name" "first_air_date" ->
      (forall actors genres tv_status streaming,
          exists e, tv_entry item actors genres tv_status streaming = Raise e)
      /\ (forall details record,
            tv_record E item details <> Ok (Some record))
      /\ (forall id details gs rest data s,
            py_getitem item "id" = Ok id ->
            decode (server E (List.length (sent s)) (detail_url E id "tv"))
              = Ok details ->
            extract_genres details = Ok gs ->
            is_excluded (snd gs) = false ->
            exists e s',
              tv_iteration E item data s = (Raise e, s')
              /\ tv_loop E (item :: rest) data s = (Raise e, s')))
  /\ (forall id vote_average vote_count,
        dict_lookup "id" kvs = Some id ->
        dict_lookup "vote_average" kvs = Some vote_average ->
        dict_lookup "vote_count" kvs = Some vote_count ->
        (forall title director actors genres streaming,
            dict_lookup "title" kvs = Some title ->
            (forall v, dict_lookup "release_date" kvs = Some v -> truthy v = false) ->
            movie_entry item director actors genres streaming
            = Ok (JObj [
                ("id", id);
                ("title", title);
                ("overview", default_to (dict_lookup "overview" kvs) (JStr ""));
                ("poster_path", default_to (dict_lookup "poster_path" kvs) JNull);
                ("release_date", default_to (dict_lookup "release_date" kvs) JNull);
                ("year", JNull);
                ("vote_average", vote_average);
                ("vote_count", vote_count);
                ("director", director);
                ("actors", actors);
                ("genres", genres);
                ("providers", JObj [("streaming", JArr streaming)]);
                ("type", JStr "movie")]))
        /\ (forall title actors genres tv_status streaming,
              dict_lookup "name" kvs = Some title ->
              (forall v, dict_lookup "first_air_date" kvs = Some v ->
                         truthy v = false) ->
              tv_entry item actors genres tv_status streaming
              = Ok (JObj [
                  ("id", id);
                  ("title", title);
                  ("overview", default_to (dict_lookup "overview" kvs) (JStr ""));
                  ("poster_path", default_to (dict_lookup "poster_path" kvs) JNull);
                  ("first_air_date",
                   default_to (dict_lookup "first_air_date" kvs) JNull);
                  ("year", JNull);
                  ("vote_average", vote_average);
                  ("vote_count", vote_count);
                  ("actors", actors);
                  ("genres", genres);
                  ("tv_status", tv_status);
                  ("providers", JObj [("streaming", JArr streaming)]);
                  ("type", JStr "tv")]))).
Proof.
  cbv zeta. split; [|split; [|split]].
  - intros Hid data s.
    unfold movie_iteration, tv_iteration, bind, lift. cbn. now rewrite Hid.
  - intros Hinc. split; [|split].
    + intros d a g st. now apply movie_entry_incomplete.
    + intros details record Hr.
      destruct (movie_record_incomplete kvs details Hinc) as [(e & He)|[He _]];
        congruence.
    + intros id details gs rest data s Hid Hdec Hgs Hex.
      assert (Hit : exists e s', movie_iteration E (JObj kvs) data s = (Raise e, s')).
      { unfold movie_iteration, fetch_item_details, bind, lift. rewrite Hid.
        destruct (rate_limited_get_spec (detail_url E id "movie") s)
          as (s1 & Heq & _). rewrite Heq, Hdec.
        destruct (movie_record_incomplete kvs details Hinc)
          as [(e & ->)|[_ (gs' & Hgs' & Hex')]]; [eauto|].
        rewrite Hgs in Hgs'. injection Hgs' as <-. congruence. }
      destruct Hit as (e & s' & Hit). exists e, s'. split; [exact Hit|].
      cbn [movies_loop]. unfold bind. now rewrite Hit.
  - intros Hinc. split; [|split].
    + intros a g ts st. now apply tv_entry_incomplete.
    + intros details record Hr.
      destruct (tv_record_incomplete kvs details Hinc) as [(e & He)|[He _]];
        congruence.
    + intros id details gs rest data s Hid Hdec Hgs Hex.
      assert (Hit : exists e s', tv_iteration E (JObj kvs) data s = (Raise e, s')).
      { unfold tv_iteration, fetch_item_details, bind, lift. rewrite Hid.
        destruct (rate_limited_get_spec (detail_url E id "tv") s)
          as (s1 & Heq & _). rewrite Heq, Hdec.
        destruct (tv_record_incomplete kvs details Hinc)
          as [(e & ->)|[_ (gs' & Hgs' & Hex')]]; [eauto|].
        rewrite Hgs in Hgs'. injection Hgs' as <-. congruence. }
      destruct Hit as (e & s' & Hit). exists e, s'. split; [exact Hit|].
      cbn [tv_loop]. unfold bind. now rewrite Hit.
  - intros id va vc Hid Hva Hvc. split.
    + intros title d a g st Htitle Hdate.
      unfold movie_entry. rewrite year_of_obj. cbn [py_getitem py_get].
      rewrite Hid, Htitle, Hva, Hvc. cbn [rbind].
      destruct (dict_lookup "overview" kvs); cbn [rbind];
        (destruct (dict_lookup "poster_path" kvs); cbn [rbind]);
        (destruct (dict_lookup "release_date" kvs) as [v|]; cbn [rbind];
         [rewrite (Hdate v eq_refl)|]); reflexivity.
    + intros title a g ts st Htitle Hdate.
      unfold tv_entry. rewrite year_of_obj. cbn [py_getitem py_get].
      rewrite Hid, Htitle, Hva, Hvc. cbn [rbind].
      destruct (dict_lookup "overview" kvs); cbn [rbind];
        (destruct (dict_lookup "poster_path" kvs); cbn [rbind]);
        (destruct (dict_lookup "first_air_date" kvs) as [v|]; cbn [rbind];
         [rewrite (Hdate v eq_refl)|]); reflexivity.
Qed.

(** ** The rate limiter *)

Lemma spaced_snoc d ts x :
  spaced d ts -> (ts = [] \/ (List.last ts 0 + d <= x)%Q) -> spaced d (ts ++ [x]).
Proof.
  induction ts as [|t rest IH]; intros Hs Hlast; cbn.
  - auto.
  - destruct Hs as [Hhd Htl]. destruct Hlast as [Hnil|Hlast]; [discriminate|].
    destruct rest as [|t' rest'].
    + cbn in *. auto.
    + split; [exact Hhd|]. apply IH; [exact Htl|]. right. exact Hlast.
Qed.

(** The grant of a call against the previous one, when the environment
    stays within [eps]. *)
Lemma grant_of_gap eps s :
  within_tolerance E eps ->
  (last_request_time s + DELAY_BETWEEN_REQUESTS - 4 * eps <= grant_of E s)%Q.
Proof.
  intros [Hel Hsub]. unfold grant_of. cbv zeta.
  set (now := (clock s + 0 + elapse E (ticks s))%Q).
  pose proof (Hsub now (last_request_time s)) as [Hs1 Hs2].
  pose proof (Hel (S (ticks s))) as He1.
  pose proof (Hel (S (S (ticks s)))) as He2.
  destruct (Qltb _ DELAY_BETWEEN_REQUESTS) eqn:Hlt.
  - pose proof (Hsub DELAY_BETWEEN_REQUESTS (fsub E now (last_request_time s)))
      as [Hd1 Hd2].
    lra.
  - apply Qltb_false in Hlt. lra.
Qed.

Lemma limiter_inv_get d url :
  (forall s, (last_request_time s + d <= grant_of E s)%Q) ->
  triple (limiter_inv d) (rate_limited_get E url)
    (fun _ => limiter_inv d) (limiter_inv d).
Proof.
  intros Hgap s [Hsp Hlast].
  destruct (rate_limited_get_spec url s) as (s1 & Heq & Hsent & _ & _ & Hgrant).
  rewrite Heq. specialize (Hgap s). rewrite <- Hgrant in Hgap.
  assert (Hinv : limiter_inv d s1).
  { unfold limiter_inv, grant_times in *. rewrite Hsent, map_app. cbn. split.
    - apply spaced_snoc; [exact Hsp|].
      destruct Hlast as [Hnil|Hlast]; [left; exact Hnil|right].
      rewrite Hlast. exact Hgap.
    - right. apply last_last. }
  destruct (decode _); exact Hinv.
Qed.

(** C8 (amended): the spacing is [10 / 40] seconds.  When no clock event
    moves the reading back by more than [eps] and neither subtraction is
    off by more than [eps], each call of [rate_limited_get] is granted no
    earlier than [DELAY_BETWEEN_REQUESTS - 4 eps] after the previous
    grant, stores the grant in [last_request_time] before it hands the
    URL over, and returns one clock event later; hence consecutive
    grants of a whole run, however many, are at least that far apart.
    With [eps = 0], exact subtractions over a clock that never reads
    less than the time that has passed, the gap is the full spacing. *)
Theorem C8_rate_limiter_spacing (eps : Q) :
  within_tolerance E eps ->
  (DELAY_BETWEEN_REQUESTS == 10 / 40)%Q
  /\ (forall url s,
        let s' := snd (rate_limited_get E url s) in
        (last_request_time s + DELAY_BETWEEN_REQUESTS - 4 * eps
         <= last_request_time s')%Q
        /\ (last_request_time s' - eps <= clock s')%Q
        /\ sent s' = (sent s ++ [(last_request_time s', url)])%list)
  /\ (forall t0 file,
        spaced (DELAY_BETWEEN_REQUESTS - 4 * eps)
          (grant_times (snd (run E (initial_state t0 file))))).
Proof.
  intros Htol. split; [reflexivity|]. split.
  - intros url s. cbv zeta.
    destruct (rate_limited_get_clock url s) as (n & Hclk). cbv zeta in Hclk.
    destruct (rate_limited_get_spec url s) as (s1 & Heq & Hsent & _ & _ & Hgrant).
    rewrite Heq in *. cbn [snd] in *. split; [|split; [|exact Hsent]].
    + rewrite Hgrant. now apply grant_of_gap.
    + rewrite Hclk. pose proof (proj1 Htol n). lra.
  - intros t0 file.
    set (d := (DELAY_BETWEEN_REQUESTS - 4 * eps)%Q).
    assert (Hgap : forall s, (last_request_time s + d <= grant_of E s)%Q).
    { intros s. pose proof (grant_of_gap eps s Htol). unfold d. lra. }
    assert (Hrun : triple (fun s => sent s = []) (run E)
                     (fun _ => limiter_inv d) (limiter_inv d)).
    { apply inv_run with (I := limiter_inv d).
      - auto.
      - intros url. now apply limiter_inv_get.
      - intros s Hs. unfold limiter_inv, grant_times. rewrite Hs. cbn. auto.
      - intros s Hs. cbn. unfold limiter_inv, grant_times. cbn. rewrite Hs. cbn. auto.
      - intros md td s Hs. unfold write_data_json.
        destruct (dump E _); cbn; exact Hs. }
    specialize (Hrun (initial_state t0 file) eq_refl).
    destruct (run E (initial_state t0 file)) as [[u|e] s']; cbn; apply Hrun.
Qed.

(** ** Fail-fast, and the single write *)

Lemma answer_snoc s s1 t url k :
  sent s1 = (sent s ++ [(t, url)])%list ->
  answer E s1 k =
    if (k <? List.length (sent s))%nat then answer E s k
    else if (k =? List.length (sent s))%nat then Some (server E k url)
    else None.
Proof.
  intro Hsent. unfold answer. rewrite Hsent.
  destruct (k <? List.length (sent s))%nat eqn:Hlt.
  - apply Nat.ltb_lt in Hlt. now rewrite nth_error_app1.
  - apply Nat.ltb_ge in Hlt. rewrite nth_error_app2 by exact Hlt.
    destruct (k =? List.length (sent s))%nat eqn:Heq.
    + apply Nat.eqb_eq in Heq. subst k. now rewrite Nat.sub_diag.
    + apply Nat.eqb_neq in Heq.
      destruct (k - List.length (sent s))%nat as [|n] eqn:Hk; [lia|].
      cbn. now destruct n.
Qed.

Lemma fail_fast_get (F : state -> Prop) url :
  (forall s s1, data_json s1 = data_json s ->
     data_json_torn s1 = data_json_torn s -> F s -> F s1) ->
  triple (fun s => F s /\ all_answered E s)
    (rate_limited_get E url)
    (fun _ s => F s /\ all_answered E s)
    (fun s => F s /\ only_last_failed E s).
Proof.
  intros HF s [Hfile Hall].
  destruct (rate_limited_get_spec url s) as (s1 & Heq & Hsent & Hfile1 & Htorn1 & _).
  rewrite Heq.
  assert (Hlen : List.length (sent s1) = S (List.length (sent s))).
  { rewrite Hsent, length_app. cbn. lia. }
  destruct (decode _) as [j|e] eqn:Hdec; (split; [eapply HF; eassumption|]).
  - intros k o Hk. rewrite (answer_snoc s s1 _ url k Hsent) in Hk.
    destruct (k <? _)%nat; [eauto|].
    destruct (k =? _)%nat eqn:Hkeq; [|discriminate].
    apply Nat.eqb_eq in Hkeq. subst k. injection Hk as <-.
    unfold aborting. now rewrite Hdec.
  - intros k o Hk Hab. rewrite (answer_snoc s s1 _ url k Hsent) in Hk.
    destruct (k <? _)%nat.
    + specialize (Hall k o Hk). congruence.
    + destruct (k =? _)%nat eqn:Hkeq; [|discriminate].
      apply Nat.eqb_eq in Hkeq. lia.
Qed.

Lemma http_failure_aborting o : http_failure o = true -> aborting o = true.
Proof.
  unfold http_failure, aborting, decode. destruct o as [r|]; [|reflexivity].
  now intros ->.
Qed.

(** A run is [gather] followed by the write of what it returned. *)
Lemma run_gather s :
  run E s =
    match gather E s with
    | (Ok p, s5) => write_data_json E (output_data E (fst p) (snd p)) s5
    | (Raise e, s5) => (Raise e, s5)
    end.
Proof.
  unfold run, gather, bind, ret.
  destruct (check_token E s) as [[u|e] s0]; [|reflexivity].
  destruct (set_last_request_time 0 s0) as [[u1|e] s1]; [|reflexivity].
  destruct (fetch_all_pages E movies_url MAX_PAGES_PER_TYPE s1)
    as [[movies|e] s2]; [|reflexivity].
  destruct (movies_loop E movies [] s2) as [[movies_data|e] s3]; [|reflexivity].
  destruct (fetch_all_pages E tv_url MAX_PAGES_PER_TYPE s3)
    as [[tv_shows|e] s4]; [|reflexivity].
  destruct (tv_loop E tv_shows [] s4) as [[tv_data|e] s5]; reflexivity.
Qed.

(** Up to the write the file is not touched; every request is answered
    and decoded when [gather] returns, and when it raises only the last
    one may have failed. *)
Lemma gather_fail_fast t0 file :
  match gather E (initial_state t0 file) with
  | (Ok _, s5) =>
      (data_json s5 = file /\ data_json_torn s5 = false) /\ all_answered E s5
  | (Raise _, s5) =>
      (data_json s5 = file /\ data_json_torn s5 = false) /\ only_last_failed E s5
  end.
Proof.
  pose (F := fun s => data_json s = file /\ data_json_torn s = false).
  assert (HF : forall s s1, data_json s1 = data_json s ->
            data_json_torn s1 = data_json_torn s -> F s -> F s1).
  { intros s s1 H1 H2 [H3 H4]. split; congruence. }
  pose (I := fun s => F s /\ all_answered E s).
  pose (Ie := fun s => F s /\ only_last_failed E s).
  assert (HIe : forall s, I s -> Ie s).
  { intros s [Hf Hall]. split; [exact Hf|]. intros k o Hk Hab.
    specialize (Hall k o Hk). congruence. }
  assert (Hpre : triple (fun s => F s /\ sent s = []) (gather E) (fun _ => I) Ie).
  { unfold gather.
    eapply triple_bind with (Q1 := fun _ s => F s /\ sent s = []).
    { intros s Hs. unfold check_token.
      assert (Ie s).
      { destruct Hs as [Hf Hs]. split; [exact Hf|]. intros k o Hk.
        unfold answer in Hk. rewrite Hs in Hk. now destruct k. }
      destruct (TMDB_TOKEN E) as [tok|]; cbn; auto.
      destruct (String.eqb tok ""); cbn; auto. }
    intros ?. cbn beta.
    eapply triple_bind with (Q1 := fun _ => I).
    { intros s [Hf Hs]. cbn. split; [exact Hf|]. intros k o Hk.
      unfold answer in Hk. cbn in Hk. rewrite Hs in Hk. now destruct k. }
    intros ?. cbn beta.
    pose proof (fun url => fail_fast_get F url HF) as Hget.
    eapply triple_bind; [apply (inv_fetch_all_pages I Ie HIe Hget)|]. intros movies.
    eapply triple_bind; [apply (inv_movies_loop I Ie HIe Hget)|]. intros movies_data.
    eapply triple_bind; [apply (inv_fetch_all_pages I Ie HIe Hget)|]. intros tv_shows.
    eapply triple_bind; [apply (inv_tv_loop I Ie HIe Hget)|]. intros tv_data.
    apply triple_ret. auto. }
  exact (Hpre (initial_state t0 file) (conj (conj eq_refl eq_refl) eq_refl)).
Qed.

(** C4 (amended): if any request of the run meets a transport failure or
    a status from 400 to 599, the run raises at that request, which is
    the last one it makes, and [data.json] is what it was before the
    run, neither written nor truncated.  The file is touched only at the
    final write, after both categories: if it is no longer what it was,
    the script got through both categories to the write, every request
    of the run having been answered and decoded, and the run either
    completed, with the document made of the two lists in the file, or
    raised inside [json.dump]; a run that completes has written that
    document. *)
Theorem C4_fail_fast_no_partial_write (t0 : Q) (file : option json) :
  let r := fst (run E (initial_state t0 file)) in
  let s' := snd (run E (initial_state t0 file)) in
  (forall k o, answer E s' k = Some o -> http_failure o = true ->
     (exists e, r = Raise e)
     /\ data_json s' = file /\ data_json_torn s' = false
     /\ S k = List.length (sent s'))
  /\ (data_json s' <> file \/ data_json_torn s' = true ->
       all_answered E s'
       /\ exists movies_data tv_data s5,
            gather E (initial_state t0 file) = (Ok (movies_data, tv_data), s5)
            /\ ((r = Ok tt
                 /\ data_json s' = Some (output_data E movies_data tv_data))
                \/ (r = Raise UnicodeEncodeError
                    /\ data_json s' = None /\ data_json_torn s' = true)))
  /\ (r = Ok tt ->
       exists movies_data tv_data s5,
         gather E (initial_state t0 file) = (Ok (movies_data, tv_data), s5)
         /\ data_json s' = Some (output_data E movies_data tv_data)
         /\ data_json_torn s' = false).
Proof.
  cbv zeta. rewrite run_gather.
  pose proof (gather_fail_fast t0 file) as H.
  destruct (gather E (initial_state t0 file)) as [[[md td]|e] s5].
  - destruct H as [[Hf Htorn] Hall]. cbn [fst snd].
    pose proof (write_data_json_sent (output_data E md td) s5) as Hsent.
    assert (Hall' : all_answered E
                      (snd (write_data_json E (output_data E md td) s5))).
    { intros k o Hk. apply (Hall k o). unfold answer in *.
      now rewrite Hsent in Hk. }
    unfold write_data_json in *.
    destruct (dump E (output_data E md td)); cbn [fst snd] in *.
    + split; [|split].
      * intros k o Hk Hfail. apply http_failure_aborting in Hfail.
        specialize (Hall' k o Hk). congruence.
      * intros _. split; [exact Hall'|]. exists md, td, s5.
        split; [reflexivity|]. left. auto.
      * intros _. exists md, td, s5. auto.
    + split; [|split].
      * intros k o Hk Hfail. apply http_failure_aborting in Hfail.
        specialize (Hall' k o Hk). congruence.
      * intros [Hne|Ht]; [contradiction|congruence].
      * discriminate.
    + split; [|split].
      * intros k o Hk Hfail. apply http_failure_aborting in Hfail.
        specialize (Hall' k o Hk). congruence.
      * intros _. split; [exact Hall'|]. exists md, td, s5.
        split; [reflexivity|]. right. auto.
      * discriminate.
  - destruct H as [[Hf Htorn] Hlast]. cbn [fst snd]. split; [|split].
    + intros k o Hk Hfail. split; [eauto|]. split; [exact Hf|].
      split; [exact Htorn|].
      apply (Hlast k o Hk). now apply http_failure_aborting.
    + intros [Hne|Ht]; [contradiction|congruence].
    + discriminate.
Qed.

End Properties.

(** * The theorems at concrete inputs *)

(** C1 at a server that reports two pages: pages 1 and 2 are requested
    and their items returned in order. *)
Lemma C1_witness :
  let E := make_env two_pages_server in
  let out := fetch_all_pages E "u" 500 (initial_state 0 None) in
  1 <= 500
  /\ fst out = Ok [JStr "item"; JStr "item"]
  /\ map snd (sent (snd out)) = ["u&page=1"; "u&page=2"].
Proof.
  cbv zeta. split; [lia|].
  exact (proj2 (C1_pages_requested (make_env two_pages_server) "u" 500
                  (initial_state 0 None) ltac:(lia))
           2 (fun _ => [JStr "item"]) ltac:(lia)
           (fun k p => ex_intro _ _ (conj eq_refl (conj eq_refl eq_refl)))).
Defined.

(** C2 at a page with [total_pages] and no [results], and at a page with
    [results] and no [total_pages], which ends the loop. *)
Lemma C2_witness :
  let E := make_env results_only_server in
  let s0 := initial_state 0 None in
  absorb_page (JObj [("total_pages", JInt 5)]) [JInt 0] (JInt 3)
    = Ok ([JInt 0], JInt 3)
  /\ absorb_page (JObj [("results", JArr [JInt 1])]) [JInt 0] (JInt 3)
     = Ok ([JInt 0; JInt 1], JInt 1)
  /\ fetch_loop E 500 "u" 500 [JInt 0] 1 (JInt 3) s0
     = (Ok [JInt 0; JInt 1], snd (rate_limited_get E (page_url "u" 1) s0)).
Proof.
  cbv zeta. split; [|split].
  - exact (proj1 (proj1 (C2_page_absorption (make_env results_only_server)
                           [("total_pages", JInt 5)] [JInt 0] (JInt 3)) eq_refl)).
  - exact (proj1 (proj2 (C2_page_absorption (make_env results_only_server)
                           [("results", JArr [JInt 1])] [JInt 0] (JInt 3))
                    [JInt 1] eq_refl)).
  - apply (proj2 (proj2 (C2_page_absorption (make_env results_only_server)
                           [("results", JArr [JInt 1])] [JInt 0] (JInt 3))
                    [JInt 1] eq_refl) eq_refl).
    + lia.
    + reflexivity.
    + vm_compute. reflexivity.
Defined.

(** C3 at a documentary: the iteration returns the list it was given. *)
Lemma C3_witness :
  let E := make_env documentary_server in
  let item := JObj [("id", JInt 8); ("vote_average", JFloat 9)] in
  let s0 := initial_state 0 None in
  extract_genres documentary_details
    = Ok (JStr "Drama, Documentary", [JStr "Drama"; JStr "Documentary"])
  /\ In "Documentary" EXCLUDED_GENRES
  /\ In (JStr "Documentary") [JStr "Drama"; JStr "Documentary"]
  /\ exists data',
       movie_iteration E item [sample_record] s0
         = (Ok data', snd (movie_iteration E item [sample_record] s0))
       /\ data' = [sample_record] /\ len data' = len [sample_record].
Proof.
  cbv zeta. split; [reflexivity|]. split; [cbn; auto|]. split; [cbn; auto|].
  exists [sample_record].
  assert (H : movie_iteration (make_env documentary_server)
                (JObj [("id", JInt 8); ("vote_average", JFloat 9)])
                [sample_record] (initial_state 0 None)
              = (Ok [sample_record],
                 snd (movie_iteration (make_env documentary_server)
                        (JObj [("id", JInt 8); ("vote_average", JFloat 9)])
                        [sample_record] (initial_state 0 None))))
    by (vm_compute; reflexivity).
  split; [exact H|].
  exact (proj1 (proj2 (proj2
           (C3_excluded_genre_dropped (make_env documentary_server)
              (JObj [("id", JInt 8); ("vote_average", JFloat 9)])
              documentary_details (JStr "Drama, Documentary")
              [JStr "Drama"; JStr "Documentary"] "Documentary"
              eq_refl
              (or_intror (or_intror (or_introl eq_refl)))
              (or_intror (or_introl eq_refl)))))
         (JInt 8) [sample_record] (initial_state 0 None) [sample_record] _
         eq_refl eq_refl H).
Defined.

(** C4 at a run whose second request is answered with status 503: the
    run raises there and the old file stays. *)
Lemma C4_witness :
  let E := make_env failing_server in
  let out := run E (initial_state 0 (Some (JStr "old"))) in
  answer E (snd out) 1
    = Some (Responded {| status_code := 503; body := None |})
  /\ (exists e, fst out = Raise e)
  /\ data_json (snd out) = Some (JStr "old")
  /\ data_json_torn (snd out) = false
  /\ 2%nat = List.length (sent (snd out)).
Proof.
  cbv zeta. split; [vm_compute; reflexivity|].
  apply (proj1 (C4_fail_fast_no_partial_write (make_env failing_server) 0
                  (Some (JStr "old")))
           1%nat (Responded {| status_code := 503; body := None |})).
  - vm_compute. reflexivity.
  - reflexivity.
Defined.


(** C6 at a payload with a writer, two directors and four actors. *)
Lemma C6_witness :
  extract_director sample_details = Ok (JStr "D")
  /\ extract_actors sample_details = Ok (JStr "a1, a2, a3").
Proof.
  pose proof (proj1 (proj2 (C6_director_and_actors
                              (make_env sample_server) sample_details_kvs))
                sample_credits eq_refl) as (Hdir & _ & _ & Hact & _).
  split.
  - apply (Hdir [JObj [("job", JStr "Writer"); ("name", JStr "W")]]
                (JObj [("job", JStr "Director"); ("name", JStr "D")])
                [JObj [("job", JStr "Director"); ("name", JStr "D2")]]).
    + reflexivity.
    + constructor; [|constructor]. eexists. split; [reflexivity|]. discriminate.
    + eexists. split; reflexivity.
    + eexists. split; reflexivity.
  - apply (Hact _ ["a1"; "a2"; "a3"] eq_refl).
    + discriminate.
    + repeat constructor; eexists; split; reflexivity.
Defined.

(** C7 at a payload with one flatrate provider in the US. *)
Lemma C7_witness :
  extract_streaming (make_env sample_server) sample_details
  = Ok [JObj [("name", JStr "NF");
              ("logo", JStr "https://image.tmdb.org/t/p/original/x.png")]].
Proof.
  pose proof (proj1 (proj2 (C7_streaming_providers
                              (make_env sample_server) sample_details_kvs))
                _ eq_refl) as [_ H].
  specialize (H _ eq_refl) as [_ H].
  specialize (H _ eq_refl) as [_ H].
  apply (H _ _ eq_refl).
  constructor; [|constructor].
  exists [("provider_name", JStr "NF"); ("logo_path", JStr "/x.png")],
    (JStr "NF"), (JStr "/x.png").
  repeat split; reflexivity.
Defined.

(** C8 on binary64 timestamps: the previous grant at [0.1], a call that
    reads [0.3], sleeps, and reads the number nearest to the time
    reached.  No reading falls short by more than [2^-55]. *)
Lemma C8_witness :
  let eps := (1 # 36028797018963968)%Q in
  let s := binary64_state in
  let s' := snd (rate_limited_get binary64_env "u" s) in
  within_tolerance binary64_env eps
  /\ (last_request_time s + DELAY_BETWEEN_REQUESTS - 4 * eps
      <= last_request_time s')%Q
  /\ (last_request_time s' - eps <= clock s')%Q
  /\ sent s' = (sent s ++ [(last_request_time s', "u")])%list.
Proof.
  cbv zeta.
  assert (H : within_tolerance binary64_env (1 # 36028797018963968)).
  { split.
    - intros [|[|[|n]]]; vm_compute; discriminate.
    - intros a b. cbn [fsub binary64_env]. split; lra. }
  split; [exact H|].
  exact (proj1 (proj2 (C8_rate_limiter_spacing binary64_env
                         (1 # 36028797018963968) H)) "u" binary64_state).
Defined.

(** C9 at a movie released on 2024-03-15. *)
Lemma C9_witness :
  let E := make_env sample_server in
  movie_record E sample_movie sample_details = Ok (Some sample_record)
  /\ field "year" sample_record = Some (JInt 2024).
Proof.
  cbv zeta.
  assert (H : movie_record (make_env sample_server) sample_movie sample_details
              = Ok (Some sample_record)) by (vm_compute; reflexivity).
  split; [exact H|].
  destruct (C9_year_field (make_env sample_server) sample_movie sample_details
              sample_record "release_date" (or_introl (conj eq_refl H)))
    as (kvs & Hitem & _ & _ & _ & H2024 & _).
  injection Hitem as <-. apply H2024. reflexivity.
Defined.

(** C10 at an item without a title whose payload passes the genre
    filter: the iteration and the loop raise. *)
Lemma C10_witness :
  let E := make_env sample_details_server in
  let kvs := [("id", JInt 8); ("vote_average", JFloat 9)] in
  let s0 := initial_state 0 None in
  incomplete kvs "title" "release_date"
  /\ exists e s',
       movie_iteration E (JObj kvs) [] s0 = (Raise e, s')
       /\ movies_loop E [JObj kvs; sample_movie] [] s0 = (Raise e, s').
Proof.
  cbv zeta.
  assert (Hinc : incomplete [("id", JInt 8); ("vote_average", JFloat 9)]
                   "title" "release_date") by (right; left; reflexivity).
  split; [exact Hinc|].
  apply (proj2 (proj2 (proj1 (proj2
           (C10_required_and_defaulted_fields (make_env sample_details_server)
              [("id", JInt 8); ("vote_average", JFloat 9)])) Hinc))
         (JInt 8) sample_details (JStr "Action", [JStr "Action"])).
  - reflexivity.
  - vm_compute. reflexivity.
  - reflexivity.
  - reflexivity.
Defined.

(** * Where the specification and the script part ways *)

(** C1 as stated fails.  A server that reports [total_pages = 0] on every
    page still gets the request for page 1, which is beyond
    [min(0, 500) = 0]; and when the reported total shrinks from 3 to 1,
    pages 1 and 2 have been requested although the bound learned is 1. *)
Lemma C1_counterexample :
  let s0 := initial_state 0 None in
  let out0 := fetch_all_pages (make_env zero_pages_server) "u" 500 s0 in
  let out1 := fetch_all_pages (make_env shrinking_server) "u" 500 s0 in
  (fst out0 = Ok []
   /\ map snd (sent (snd out0)) = ["u&page=1"]
   /\ map snd (sent (snd out0))
      <> map (page_url "u") (pages_from 1 (Z.to_nat (Z.min 0 500))))
  /\ (fst out1 = Ok [JInt 10; JInt 11]
      /\ map snd (sent (snd out1)) = ["u&page=1"; "u&page=2"]
      /\ map snd (sent (snd out1))
         <> map (page_url "u") (pages_from 1 (Z.to_nat (Z.min 1 500)))).
Proof.
  cbv zeta. split; (split; [vm_compute; reflexivity|]);
    (split; [vm_compute; reflexivity|]); vm_compute; discriminate.
Qed.

(** C2 as stated fails.  A page that has [total_pages = 5] and no
    [results] key does not update the bound: it stays 1, and the loop
    stops after page 1.  And a page with neither key, received while the
    bound is 3, does not reset the bound to 1: page 3 is still requested. *)
Lemma C2_counterexample :
  let s0 := initial_state 0 None in
  let data := JObj [("total_pages", JInt 5)] in
  py_get data "total_pages" (JInt 1) = Ok (JInt 5)
  /\ absorb_page data [] (JInt 1) = Ok ([], JInt 1)
  /\ map snd (sent (snd (fetch_all_pages (make_env total_only_server) "u" 500 s0)))
     = ["u&page=1"]
  /\ map snd (sent (snd (fetch_all_pages (make_env keyless_page_server) "u" 500 s0)))
     = ["u&page=1"; "u&page=2"; "u&page=3"].
Proof.
  cbv zeta. repeat split; vm_compute; reflexivity.
Qed.

(** C10 as stated fails.  The only movie discovered has no ['title'],
    no ['vote_average'] and no ['vote_count'], and the run completes: the
    item's detail payload is a documentary, so the item is dropped before
    the record builder indexes it.  And the date "2024-3-5", which is not
    of the form YYYY-MM-DD, is parsed. *)
Lemma C10_counterexample :
  let E := make_env untitled_documentary_server in
  let item := [("id", JInt 8)] in
  let out := run E (initial_state 0 None) in
  decode (server E 0 (page_url movies_url 1))
    = Ok (JObj [("results", JArr [JObj item]); ("total_pages", JInt 1)])
  /\ dict_lookup "title" item = None
  /\ dict_lookup "vote_average" item = None
  /\ dict_lookup "vote_count" item = None
  /\ fst out = Ok tt
  /\ List.length (sent (snd out)) = 3%nat
  /\ strptime_ymd "2024-3-5" = Ok (2024, 3, 5).
Proof.
  cbv zeta. repeat split; vm_compute; reflexivity.
Qed.

(** C4 as stated fails.  Every request is answered with status 300, which
    is not a 2xx status, and the run completes and writes the file. *)
Lemma C4_counterexample :
  let E := make_env multiple_choices_server in
  let out := run E (initial_state 0 None) in
  (exists o, answer E (snd out) 0 = Some o /\ non_2xx o = true)
  /\ fst out = Ok tt
  /\ data_json (snd out) <> None.
Proof.
  cbv zeta. split; [|split].
  - eexists. split; vm_compute; reflexivity.
  - vm_compute. reflexivity.
  - vm_compute. discriminate.
Qed.

(** The file when [json.dump] raises: the run raises and what an
    earlier run had written is gone. *)
Lemma failed_dump_example :
  let out := run failing_dump_env (initial_state 0 (Some (JStr "old"))) in
  fst out = Raise UnicodeEncodeError
  /\ List.length (sent (snd out)) = 4%nat
  /\ data_json (snd out) = None
  /\ data_json_torn (snd out) = true.
Proof. cbv zeta. repeat split; vm_compute; reflexivity. Qed.

(** C8 as stated fails on binary64 timestamps.  The previous grant was at
    [0.1] and the call reads [0.3]: the binary64 difference is below
    [0.25], so the call sleeps, for [0.25 - (0.3 - 0.1)]; both
    subtractions are exact at these operands.  The sleep lasts exactly
    as long as asked, and the time then reached, [0.1 + 0.25], lies
    halfway between two binary64 numbers: the reading of line 63 is the
    lower one, [2^-55] short.  The grant is less than
    [DELAY_BETWEEN_REQUESTS] after the previous one, also as binary64
    arithmetic measures it. *)
Lemma C8_counterexample :
  let s := binary64_state in
  let s' := snd (rate_limited_get binary64_env "u" s) in
  (sample_reading - sample_last_grant <? 0.25)%float = true
  /\ (Q_of_float (sample_reading - sample_last_grant)
      == Q_of_float sample_reading - Q_of_float sample_last_grant)%Q
  /\ (Q_of_float sample_sleep
      == DELAY_BETWEEN_REQUESTS
         - (Q_of_float sample_reading - Q_of_float sample_last_grant))%Q
  /\ (last_request_time s' == Q_of_float sample_next_reading)%Q
  /\ (last_request_time s' - last_request_time s
      == DELAY_BETWEEN_REQUESTS - (1 # 36028797018963968))%Q
  /\ (sample_next_reading - sample_last_grant <? 0.25)%float = true
  /\ ~ (last_request_time s + DELAY_BETWEEN_REQUESTS <= last_request_time s')%Q
  /\ ~ spaced DELAY_BETWEEN_REQUESTS (grant_times s').
Proof.
  cbv zeta. repeat split; try (vm_compute; reflexivity).
  - intro H. vm_compute in H. apply H. reflexivity.
  - intros [H _]. vm_compute in H. apply H. reflexivity.
Qed.

(** * Further properties of the script *)

Section Further.

Variable E : environment.

(** ** The GET *)

(** X1: a call of [rate_limited_get] sends its request exactly once,
    whether it returns or raises (there is no retry), and what it returns
    is decided first by the transport, then by the status, then by the
    body: a transport failure raises [ConnectionError], a status from 400
    to 599 raises [HTTPError] whatever the body, and otherwise the decoded
    body is returned, or [JSONDecodeError] raised when there is none. *)
Theorem X1_get_sends_once (url : string) (s : state) :
  let out := rate_limited_get E url s in
  List.length (sent (snd out)) = S (List.length (sent s))
  /\ nth_error (map snd (sent (snd out))) (List.length (sent s)) = Some url
  /\ data_json (snd out) = data_json s
  /\ fst out =
       match server E (List.length (sent s)) url with
       | TransportFailure => Raise ConnectionError
       | Responded r =>
           if (400 <=? status_code r) && (status_code r <? 600)
           then Raise (HTTPError (status_code r))
           else match body r with
                | Some j => Ok j
                | None => Raise JSONDecodeError
                end
       end.
Proof.
  cbv zeta.
  destruct (rate_limited_get_spec E url s) as (s1 & Heq & Hsent & Hfile & _).
  rewrite Heq. cbn [fst snd]. rewrite Hsent, length_app, map_app. cbn.
  split; [lia|]. split; [|split; [exact Hfile|reflexivity]].
  rewrite nth_error_app2 by (rewrite length_map; lia).
  rewrite length_map, Nat.sub_diag. reflexivity.
Qed.

(** ** Pagination at its edges *)

(** X3: with a page cap below 1 the loop body never runs: no request is
    sent and the result is the empty list. *)
Theorem X3_page_cap_below_one (url : string) (max_pages : Z) (s : state) :
  max_pages < 1 ->
  fetch_all_pages E url max_pages s = (Ok [], s).
Proof.
  intro Hmax. unfold fetch_all_pages. apply fetch_loop_stop.
  rewrite page_in_range_int. f_equal. apply Z.leb_gt. lia.
Qed.

(** X4: a first page that carries results and a [total_pages] that is no
    number (null, a string, a list, a dict) is absorbed, and the next loop
    test raises [TypeError]: the call ends after this one request without
    returning the results it had gathered. *)
Theorem X4_total_pages_not_a_number (url : string) (max_pages : Z) (s : state)
    (kvs : list (string * json)) (results v : json) (items : list json) :
  1 <= max_pages ->
  decode (server E (List.length (sent s)) (page_url url 1)) = Ok (JObj kvs) ->
  dict_lookup "results" kvs = Some results ->
  py_iter results = Ok items ->
  dict_lookup "total_pages" kvs = Some v ->
  num_of v = Raise TypeError ->
  fst (fetch_all_pages E url max_pages s) = Raise TypeError
  /\ List.length (sent (snd (fetch_all_pages E url max_pages s)))
     = S (List.length (sent s)).
Proof.
  intros Hmax Hdec Hres Hit Htot Hnum. unfold fetch_all_pages.
  destruct (Z.to_nat max_pages) as [|fuel] eqn:Hfuel; [lia|].
  rewrite fetch_loop_step, page_in_range_int.
  replace (1 <=? Z.min 1 max_pages) with true by (symmetry; apply Z.leb_le; lia).
  destruct (rate_limited_get_spec E (page_url url 1) s)
    as (s1 & Heq & Hsent & _ & _ & _).
  rewrite Heq, Hdec.
  assert (Hab : absorb_page (JObj kvs) [] (JInt 1) = Ok (items, v)).
  { unfold absorb_page. cbn. rewrite Hres. cbn. rewrite Hit. cbn.
    now rewrite Htot. }
  rewrite Hab. cbn [fst snd].
  assert (Hstop : forall f acc,
            fetch_loop E f url max_pages acc (1 + 1) v s1 = (Raise TypeError, s1)).
  { intros f acc. destruct f; cbn [fetch_loop]; unfold bind, lift, page_in_range;
      now rewrite Hnum. }
  rewrite Hstop. cbn [fst snd]. split; [reflexivity|].
  rewrite Hsent, length_app. cbn. lia.
Qed.

(** ** The credential *)

Lemma sent_grows_get (base : list string) url :
  triple (fun s => exists rest, map snd (sent s) = (base ++ rest)%list)
    (rate_limited_get E url)
    (fun _ s => exists rest, map snd (sent s) = (base ++ rest)%list)
    (fun s => exists rest, map snd (sent s) = (base ++ rest)%list).
Proof.
  intros s (rest & Hs).
  destruct (rate_limited_get_spec E url s) as (s1 & Heq & Hsent & _).
  rewrite Heq.
  assert (H1 : exists rest', map snd (sent s1) = (base ++ rest')%list).
  { exists (rest ++ [url])%list. rewrite Hsent, map_app, Hs, app_assoc.
    reflexivity. }
  destruct (decode _); exact H1.
Qed.

(** X5: without a token (unset, or empty) the script raises [ValueError]
    before anything else happens: nothing is sent and the state is
    untouched.  With a token the first thing it sends is the request for
    page 1 of the movie discovery query. *)
Theorem X5_token_gates_the_network (s : state) :
  (TMDB_TOKEN E = None \/ TMDB_TOKEN E = Some "" ->
     run E s = (Raise ValueError, s))
  /\ (forall tok,
        TMDB_TOKEN E = Some tok -> tok <> "" ->
        nth_error (map snd (sent (snd (run E s)))) (List.length (sent s))
        = Some (page_url movies_url 1)).
Proof.
  split.
  - intros [H|H]; unfold run, bind, check_token; rewrite H; reflexivity.
  - intros tok Htok Hne.
    set (base := (map snd (sent s) ++ [page_url movies_url 1])%list).
    assert (Hgoal : exists rest,
              map snd (sent (snd (run E s))) = (base ++ rest)%list).
    { unfold run. unfold bind at 1. unfold check_token. rewrite Htok.
      destruct (String.eqb_spec tok "") as [Hemp|Hnemp]; [contradiction|].
      unfold ret at 1. unfold bind at 1. unfold set_last_request_time at 1.
      set (s1 := {| clock := clock s; ticks := ticks s; last_request_time := 0;
                    sent := sent s; data_json := data_json s;
                    data_json_torn := data_json_torn s |}).
      destruct (fetch_loop_trace E movies_url MAX_PAGES_PER_TYPE
                  (Z.to_nat MAX_PAGES_PER_TYPE) [] 1 (JInt 1) s1
                  ltac:(unfold MAX_PAGES_PER_TYPE; lia))
        as (n & Hu & _ & Hn & _).
      assert (Hn1 : (1 <= n)%nat) by (apply Hn; reflexivity).
      assert (H2 : exists rest,
                map snd (sent (snd (fetch_all_pages E movies_url
                                      MAX_PAGES_PER_TYPE s1)))
                = (base ++ rest)%list).
      { unfold fetch_all_pages. rewrite Hu. destruct n as [|n]; [lia|].
        cbn [pages_from map]. exists (map (page_url movies_url) (pages_from (1 + 1) n)).
        unfold base. rewrite <- app_assoc. reflexivity. }
      pose (I := fun st : state => exists rest, map snd (sent st) = (base ++ rest)%list).
      assert (Htail : forall movies,
        triple I
          (movies_data <- movies_loop E movies [] ;;
           tv_shows <- fetch_all_pages E tv_url MAX_PAGES_PER_TYPE ;;
           tv_data <- tv_loop E tv_shows [] ;;
           write_data_json E (output_data E movies_data tv_data))
          (fun _ => I) I).
      { intros movies.
        eapply triple_bind;
          [apply (inv_movies_loop E I I (fun _ H => H) (sent_grows_get base))|].
        intros md. eapply triple_bind;
          [apply (inv_fetch_all_pages E I I (fun _ H => H) (sent_grows_get base))|].
        intros tv. eapply triple_bind;
          [apply (inv_tv_loop E I I (fun _ H => H) (sent_grows_get base))|].
        intros td st Hst.
        pose proof (write_data_json_sent E (output_data E md td) st) as Hw.
        destruct (write_data_json E _ st) as [[u|e] s3]; cbn [snd] in Hw;
          unfold I; rewrite Hw; exact Hst. }
      unfold bind at 1.
      destruct (fetch_all_pages E movies_url MAX_PAGES_PER_TYPE s1)
        as [[movies|e] s2]; [|exact H2].
      specialize (Htail movies s2 H2).
      match goal with
      | |- context [snd ?x] => destruct x as [[u|e] s3]
      end; exact Htail. }
    destruct Hgoal as (rest & ->). unfold base.
    rewrite <- app_assoc. rewrite nth_error_app2 by (rewrite length_map; lia).
    rewrite length_map, Nat.sub_diag. reflexivity.
Qed.

(** ** Where the requests go *)

Lemma prefix_app a b : prefix a (a ++ b) = true.
Proof.
  induction a as [|c a IH]; cbn; [now destruct b|].
  destruct (ascii_dec c c); [exact IH|congruence].
Qed.

Lemma prefix_app_r a b c : prefix a b = true -> prefix a (b ++ c) = true.
Proof.
  revert b. induction a as [|x a IH]; intros b H; cbn.
  - now destruct (b ++ c).
  - destruct b as [|y b]; cbn in H |- *; [discriminate|].
    destruct (ascii_dec x y); [now apply IH|discriminate].
Qed.

Lemma under_api_get url :
  prefix API_BASE url = true ->
  triple under_api (rate_limited_get E url) (fun _ => under_api) under_api.
Proof.
  intros Hurl s Hs.
  destruct (rate_limited_get_spec E url s) as (s1 & Heq & Hsent & _).
  rewrite Heq.
  assert (H1 : under_api s1).
  { unfold under_api in *. rewrite Hsent. apply Forall_app. split; [exact Hs|].
    constructor; [exact Hurl|constructor]. }
  destruct (decode _); exact H1.
Qed.

Lemma under_api_lift {A} (r : result A) :
  triple under_api (lift r) (fun _ => under_api) under_api.
Proof. apply triple_lift; auto. Qed.

Lemma under_api_fetch_loop fuel url max_pages :
  (forall p, prefix API_BASE (page_url url p) = true) ->
  forall acc page tp,
    triple under_api (fetch_loop E fuel url max_pages acc page tp)
      (fun _ => under_api) under_api.
Proof.
  intros Hurl. induction fuel as [|fuel IH]; intros acc page tp; cbn [fetch_loop].
  - eapply triple_bind; [apply under_api_lift|]. intros [|].
    + intros s Hs. cbn. exact Hs.
    + apply triple_ret; auto.
  - eapply triple_bind; [apply under_api_lift|]. intros [|].
    + eapply triple_bind; [apply under_api_get, Hurl|]. intros data.
      eapply triple_bind; [apply under_api_lift|]. intros st. apply IH.
    + apply triple_ret; auto.
Qed.

Lemma under_api_detail id media : prefix API_BASE (detail_url E id media) = true.
Proof. unfold detail_url. apply prefix_app. Qed.

Lemma under_api_movies_loop movies :
  forall data,
    triple under_api (movies_loop E movies data) (fun _ => under_api) under_api.
Proof.
  induction movies as [|movie rest IH]; intros data; cbn [movies_loop].
  - apply triple_ret; auto.
  - eapply triple_bind; [|intros data'; apply IH].
    unfold movie_iteration, fetch_item_details.
    eapply triple_bind; [apply under_api_lift|]. intros id.
    eapply triple_bind; [apply under_api_get, under_api_detail|]. intros details.
    eapply triple_bind; [apply under_api_lift|]. intros r.
    apply triple_ret; auto.
Qed.

Lemma under_api_tv_loop shows :
  forall data,
    triple under_api (tv_loop E shows data) (fun _ => under_api) under_api.
Proof.
  induction shows as [|show rest IH]; intros data; cbn [tv_loop].
  - apply triple_ret; auto.
  - eapply triple_bind; [|intros data'; apply IH].
    unfold tv_iteration, fetch_item_details.
    eapply triple_bind; [apply under_api_lift|]. intros id.
    eapply triple_bind; [apply under_api_get, under_api_detail|]. intros details.
    eapply triple_bind; [apply under_api_lift|]. intros r.
    apply triple_ret; auto.
Qed.

(** X6: every URL text that a run hands to [requests.get] starts with
    the text of [API_BASE], "https://api.themoviedb.org/3", whatever the
    server answers and whatever ids the discovery pages carry: the query
    URLs are constants followed by the page number, and a detail URL is
    [API_BASE] followed by the media type and the text of the id.  This
    is a statement about the argument of the call, not about the address
    the library then contacts (it normalises the path and follows
    redirects). *)
Theorem X6_urls_handed_over_start_with_api_base (s : state) :
  under_api s -> under_api (snd (run E s)).
Proof.
  intro Hs.
  assert (Hrun : triple under_api (run E) (fun _ => under_api) under_api).
  { unfold run.
    eapply triple_bind with (Q1 := fun _ => under_api).
    { intros st Hst. unfold check_token.
      destruct (TMDB_TOKEN E) as [tok|]; cbn; auto.
      destruct (String.eqb tok ""); cbn; auto. }
    intros ?. cbn beta.
    eapply triple_bind with (Q1 := fun _ => under_api).
    { intros st Hst. cbn. exact Hst. }
    intros ?. cbn beta.
    eapply triple_bind.
    { apply under_api_fetch_loop. intro p. unfold page_url, movies_url.
      apply prefix_app_r, prefix_app. }
    intros movies. eapply triple_bind; [apply under_api_movies_loop|].
    intros movies_data. eapply triple_bind.
    { apply under_api_fetch_loop. intro p. unfold page_url, tv_url.
      apply prefix_app_r, prefix_app. }
    intros tv_shows. eapply triple_bind; [apply under_api_tv_loop|].
    intros tv_data st Hst.
    pose proof (write_data_json_sent E (output_data E movies_data tv_data) st) as Hw.
    destruct (write_data_json E _ st) as [[u|e] s3]; cbn [snd] in Hw;
      unfold under_api; rewrite Hw; exact Hst. }
  specialize (Hrun s Hs). destruct (run E s) as [[u|e] s']; exact Hrun.
Qed.

(** ** The enrichment loops as a whole *)

Lemma kept_records_length os :
  (List.length (kept_records os) <= List.length os)%nat.
Proof.
  unfold kept_records. induction os as [|[r|] os IH]; cbn; lia.
Qed.

Lemma append_kept data o os :
  (append_record data o ++ kept_records os)%list
  = (data ++ kept_records (o :: os))%list.
Proof. destruct o; cbn; [now rewrite <- app_assoc|reflexivity]. Qed.

Lemma movie_iteration_sent movie data s data' s' :
  movie_iteration E movie data s = (Ok data', s') ->
  exists id details o,
    py_getitem movie "id" = Ok id
    /\ decode (server E (List.length (sent s)) (detail_url E id "movie")) = Ok details
    /\ movie_record E movie details = Ok o
    /\ data' = append_record data o
    /\ map snd (sent s') = (map snd (sent s) ++ [detail_url E id "movie"])%list.
Proof.
  unfold movie_iteration, fetch_item_details, bind, lift, ret.
  destruct (py_getitem movie "id") as [id|e] eqn:Hid; [|discriminate].
  destruct (rate_limited_get_spec E (detail_url E id "movie") s)
    as (s1 & Heq & Hsent & _). rewrite Heq.
  destruct (decode _) as [details|e] eqn:Hdec; [|discriminate].
  destruct (movie_record E movie details) as [o|e] eqn:Ho; [|discriminate].
  intro H. injection H as <- <-. exists id, details, o.
  repeat split; auto. rewrite Hsent, map_app. reflexivity.
Qed.

Lemma tv_iteration_sent show data s data' s' :
  tv_iteration E show data s = (Ok data', s') ->
  exists id details o,
    py_getitem show "id" = Ok id
    /\ decode (server E (List.length (sent s)) (detail_url E id "tv")) = Ok details
    /\ tv_record E show details = Ok o
    /\ data' = append_record data o
    /\ map snd (sent s') = (map snd (sent s) ++ [detail_url E id "tv"])%list.
Proof.
  unfold tv_iteration, fetch_item_details, bind, lift, ret.
  destruct (py_getitem show "id") as [id|e] eqn:Hid; [|discriminate].
  destruct (rate_limited_get_spec E (detail_url E id "tv") s)
    as (s1 & Heq & Hsent & _). rewrite Heq.
  destruct (decode _) as [details|e] eqn:Hdec; [|discriminate].
  destruct (tv_record E show details) as [o|e] eqn:Ho; [|discriminate].
  intro H. injection H as <- <-. exists id, details, o.
  repeat split; auto. rewrite Hsent, map_app. reflexivity.
Qed.

Lemma movies_loop_requests (items : list json) :
  forall (data : list json) (s : state) (data' : list json) (s' : state),
    movies_loop E items data s = (Ok data', s') ->
    exists ids os,
      List.length ids = List.length items
      /\ List.length os = List.length items
      /\ map snd (sent s')
         = (map snd (sent s) ++ map (fun id => detail_url E id "movie") ids)%list
      /\ (forall i item,
            nth_error items i = Some item ->
            exists id details o,
              nth_error ids i = Some id
              /\ nth_error os i = Some o
              /\ py_getitem item "id" = Ok id
              /\ decode (server E (List.length (sent s) + i)
                          (detail_url E id "movie")) = Ok details
              /\ movie_record E item details = Ok o)
      /\ data' = (data ++ kept_records os)%list
      /\ len data' <= len data + len items.
Proof.
  induction items as [|item rest IH]; intros data s data' s' H; cbn [movies_loop] in H.
  - injection H as <- <-. exists [], []. cbn. rewrite !app_nil_r.
    repeat split; auto; try lia. intros [|i] x Hx; discriminate.
  - unfold bind in H.
    destruct (movie_iteration E item data s) as [[data1|e] s1] eqn:Hit;
      [|discriminate].
    apply movie_iteration_sent in Hit
      as (id & details & o & Hid & Hdec & Ho & -> & Hs1).
    apply IH in H as (ids & os & Hli & Hlo & Hu & Hnth & -> & _).
    assert (Hlen1 : List.length (sent s1) = S (List.length (sent s))).
    { apply (f_equal (@List.length string)) in Hs1.
      rewrite length_app, !length_map in Hs1. cbn in Hs1. lia. }
    exists (id :: ids), (o :: os). cbn [List.length map].
    split; [lia|]. split; [lia|]. split.
    { rewrite Hu, Hs1, <- app_assoc. reflexivity. }
    split.
    { intros [|i] x Hx; cbn [nth_error] in Hx |- *.
      - injection Hx as <-. exists id, details, o.
        rewrite Nat.add_0_r. auto.
      - destruct (Hnth i x Hx) as (id' & d' & o' & H1 & H2 & H3 & H4 & H5).
        exists id', d', o'. repeat split; auto.
        rewrite Hlen1 in H4.
        replace (List.length (sent s) + S i)%nat
          with (S (List.length (sent s)) + i)%nat by lia.
        exact H4. }
    split; [apply append_kept|].
    rewrite append_kept. unfold len. rewrite length_app.
    pose proof (kept_records_length (o :: os)) as Hk.
    cbn [List.length] in Hk |- *. lia.
Qed.

(** X7: a movie loop that returns has made exactly one detail request per
    discovered item, in discovery order and also for the items it then
    drops; the [i]-th item was judged on the answer to the [i]-th of
    these requests; and the output list is the list it started from
    followed by the records of the kept items in discovery order, so it
    grows by at most the number of items. *)
Theorem X7_movies_loop_trace (items : list json) :
  forall (data : list json) (s : state) (data' : list json) (s' : state),
    movies_loop E items data s = (Ok data', s') ->
    exists ids os,
      List.length ids = List.length items
      /\ List.length os = List.length items
      /\ map snd (sent s')
         = (map snd (sent s) ++ map (fun id => detail_url E id "movie") ids)%list
      /\ (forall i item,
            nth_error items i = Some item ->
            exists id details o,
              nth_error ids i = Some id
              /\ nth_error os i = Some o
              /\ py_getitem item "id" = Ok id
              /\ decode (server E (List.length (sent s) + i)
                          (detail_url E id "movie")) = Ok details
              /\ movie_record E item details = Ok o)
      /\ data' = (data ++ kept_records os)%list
      /\ len data' <= len data + len items.
Proof. exact (movies_loop_requests items). Qed.

Lemma tv_loop_requests (shows : list json) :
  forall (data : list json) (s : state) (data' : list json) (s' : state),
    tv_loop E shows data s = (Ok data', s') ->
    exists ids os,
      List.length ids = List.length shows
      /\ List.length os = List.length shows
      /\ map snd (sent s')
         = (map snd (sent s) ++ map (fun id => detail_url E id "tv") ids)%list
      /\ (forall i show,
            nth_error shows i = Some show ->
            exists id details o,
              nth_error ids i = Some id
              /\ nth_error os i = Some o
              /\ py_getitem show "id" = Ok id
              /\ decode (server E (List.length (sent s) + i)
                          (detail_url E id "tv")) = Ok details
              /\ tv_record E show details = Ok o)
      /\ data' = (data ++ kept_records os)%list
      /\ len data' <= len data + len shows.
Proof.
  induction shows as [|show rest IH]; intros data s data' s' H; cbn [tv_loop] in H.
  - injection H as <- <-. exists [], []. cbn. rewrite !app_nil_r.
    repeat split; auto; try lia. intros [|i] x Hx; discriminate.
  - unfold bind in H.
    destruct (tv_iteration E show data s) as [[data1|e] s1] eqn:Hit;
      [|discriminate].
    apply tv_iteration_sent in Hit
      as (id & details & o & Hid & Hdec & Ho & -> & Hs1).
    apply IH in H as (ids & os & Hli & Hlo & Hu & Hnth & -> & _).
    assert (Hlen1 : List.length (sent s1) = S (List.length (sent s))).
    { apply (f_equal (@List.length string)) in Hs1.
      rewrite length_app, !length_map in Hs1. cbn in Hs1. lia. }
    exists (id :: ids), (o :: os). cbn [List.length map].
    split; [lia|]. split; [lia|]. split.
    { rewrite Hu, Hs1, <- app_assoc. reflexivity. }
    split.
    { intros [|i] x Hx; cbn [nth_error] in Hx |- *.
      - injection Hx as <-. exists id, details, o.
        rewrite Nat.add_0_r. auto.
      - destruct (Hnth i x Hx) as (id' & d' & o' & H1 & H2 & H3 & H4 & H5).
        exists id', d', o'. repeat split; auto.
        rewrite Hlen1 in H4.
        replace (List.length (sent s) + S i)%nat
          with (S (List.length (sent s)) + i)%nat by lia.
        exact H4. }
    split; [apply append_kept|].
    rewrite append_kept. unfold len. rewrite length_app.
    pose proof (kept_records_length (o :: os)) as Hk.
    cbn [List.length] in Hk |- *. lia.
Qed.

(** X8: the same for the TV loop: one detail request per discovered show,
    in order, kept or not, and an output list that is the earlier one
    followed by the records of the kept shows in discovery order. *)
Theorem X8_tv_loop_trace (shows : list json) :
  forall (data : list json) (s : state) (data' : list json) (s' : state),
    tv_loop E shows data s = (Ok data', s') ->
    exists ids os,
      List.length ids = List.length shows
      /\ List.length os = List.length shows
      /\ map snd (sent s')
         = (map snd (sent s) ++ map (fun id => detail_url E id "tv") ids)%list
      /\ (forall i show,
            nth_error shows i = Some show ->
            exists id details o,
              nth_error ids i = Some id
              /\ nth_error os i = Some o
              /\ py_getitem show "id" = Ok id
              /\ decode (server E (List.length (sent s) + i)
                          (detail_url E id "tv")) = Ok details
              /\ tv_record E show details = Ok o)
      /\ data' = (data ++ kept_records os)%list
      /\ len data' <= len data + len shows.
Proof. exact (tv_loop_requests shows). Qed.

(** ** What a completed run has cost *)

Lemma pages_from_length p n : List.length (pages_from p n) = n.
Proof. revert p. induction n as [|n IH]; intro p; cbn; [reflexivity|now rewrite IH]. Qed.

Lemma fetch_all_pages_ok url s l s2 :
  fetch_all_pages E url MAX_PAGES_PER_TYPE s = (Ok l, s2) ->
  exists ds,
    (1 <= List.length ds <= 500)%nat
    /\ map snd (sent s2)
       = (map snd (sent s)
          ++ map (page_url url) (pages_from 1 (List.length ds)))%list
    /\ (forall j, (j < List.length ds)%nat ->
          decode (server E (List.length (sent s) + j)
                    (page_url url (1 + Z.of_nat j)))
          = Ok (nth j ds JNull))
    /\ l = List.concat (map page_items ds).
Proof.
  unfold fetch_all_pages. intro Hrun.
  destruct (fetch_loop_trace E url MAX_PAGES_PER_TYPE
              (Z.to_nat MAX_PAGES_PER_TYPE) [] 1 (JInt 1) s
              ltac:(unfold MAX_PAGES_PER_TYPE; lia))
    as (n & Hu & Hb & Hn & _ & Hok).
  rewrite Hrun in Hu, Hok. cbn [fst snd] in Hu, Hok.
  destruct (Hok l eq_refl) as (ds & Hlen & Hdec & Hl & _).
  exists ds. rewrite Hlen. split; [|split; [exact Hu|split; [exact Hdec|exact Hl]]].
  assert (1 <= n)%nat by (apply Hn; reflexivity).
  unfold MAX_PAGES_PER_TYPE in Hb. lia.
Qed.

(** X15: the whole conversation of a run that completes.  From the
    answers alone: the run asks for pages 1 to [n1] of the movie query
    ([1 <= n1 <= 500]), each answered and decoded; then, for each item
    those pages carried, in page order, for the details of its id; then
    likewise for the TV query and its items; and it makes no other
    request.  The document written holds exactly the records that the
    items' detail payloads gave and the genre filter kept, in that
    order. *)
Theorem X15_requests_of_a_completed_run (s s' : state) :
  run E s = (Ok tt, s') ->
  exists (pages1 pages2 ids1 ids2 : list json) (os1 os2 : list (option json)),
    let movies := List.concat (map page_items pages1) in
    let tv_shows := List.concat (map page_items pages2) in
    let k1 := List.length (sent s) in
    let k2 := (k1 + List.length pages1)%nat in
    let k3 := (k2 + List.length movies)%nat in
    let k4 := (k3 + List.length pages2)%nat in
    (1 <= List.length pages1 <= 500)%nat
    /\ (1 <= List.length pages2 <= 500)%nat
    /\ map snd (sent s')
       = (map snd (sent s)
          ++ map (page_url movies_url) (pages_from 1 (List.length pages1))
          ++ map (fun id => detail_url E id "movie") ids1
          ++ map (page_url tv_url) (pages_from 1 (List.length pages2))
          ++ map (fun id => detail_url E id "tv") ids2)%list
    /\ (forall j, (j < List.length pages1)%nat ->
          decode (server E (k1 + j) (page_url movies_url (1 + Z.of_nat j)))
          = Ok (nth j pages1 JNull))
    /\ List.length ids1 = List.length movies
    /\ List.length os1 = List.length movies
    /\ (forall i item,
          nth_error movies i = Some item ->
          exists id details o,
            nth_error ids1 i = Some id
            /\ nth_error os1 i = Some o
            /\ py_getitem item "id" = Ok id
            /\ decode (server E (k2 + i) (detail_url E id "movie")) = Ok details
            /\ movie_record E item details = Ok o)
    /\ (forall j, (j < List.length pages2)%nat ->
          decode (server E (k3 + j) (page_url tv_url (1 + Z.of_nat j)))
          = Ok (nth j pages2 JNull))
    /\ List.length ids2 = List.length tv_shows
    /\ List.length os2 = List.length tv_shows
    /\ (forall i show,
          nth_error tv_shows i = Some show ->
          exists id details o,
            nth_error ids2 i = Some id
            /\ nth_error os2 i = Some o
            /\ py_getitem show "id" = Ok id
            /\ decode (server E (k4 + i) (detail_url E id "tv")) = Ok details
            /\ tv_record E show details = Ok o)
    /\ data_json s'
       = Some (output_data E (kept_records os1) (kept_records os2)).
Proof.
  unfold run. unfold bind at 1. unfold check_token.
  destruct (TMDB_TOKEN E) as [tok|]; [|discriminate].
  destruct (String.eqb tok ""); [discriminate|].
  unfold ret at 1. unfold bind at 1. unfold set_last_request_time at 1.
  set (s1 := {| clock := clock s; ticks := ticks s; last_request_time := 0;
                sent := sent s; data_json := data_json s;
                data_json_torn := data_json_torn s |}).
  unfold bind at 1.
  destruct (fetch_all_pages E movies_url MAX_PAGES_PER_TYPE s1)
    as [[movies|e] s2] eqn:Hp1; [|discriminate].
  apply fetch_all_pages_ok in Hp1 as (pages1 & Hn1 & Hu1 & Hd1 & ->).
  change (sent s1) with (sent s) in Hu1, Hd1.
  unfold bind at 1.
  destruct (movies_loop E _ [] s2) as [[movies_data|e] s3] eqn:Hm;
    [|discriminate].
  apply movies_loop_requests in Hm as (ids1 & os1 & Hli1 & Hlo1 & Hu2 & Hnth1 & Hmd & _).
  unfold bind at 1.
  destruct (fetch_all_pages E tv_url MAX_PAGES_PER_TYPE s3)
    as [[tv_shows|e] s4] eqn:Hp2; [|discriminate].
  apply fetch_all_pages_ok in Hp2 as (pages2 & Hn2 & Hu3 & Hd2 & ->).
  unfold bind at 1.
  destruct (tv_loop E _ [] s4) as [[tv_data|e] s5] eqn:Ht;
    [|discriminate].
  apply tv_loop_requests in Ht as (ids2 & os2 & Hli2 & Hlo2 & Hu4 & Hnth2 & Htd & _).
  unfold write_data_json.
  destruct (dump E (output_data E movies_data tv_data)); try discriminate.
  intro H. injection H as <-.
  assert (Hl2 : List.length (sent s2)
                = (List.length (sent s) + List.length pages1)%nat).
  { apply (f_equal (@List.length string)) in Hu1.
    rewrite length_app, !length_map, pages_from_length in Hu1. exact Hu1. }
  assert (Hl3 : List.length (sent s3)
                = (List.length (sent s2)
                   + List.length (List.concat (map page_items pages1)))%nat).
  { apply (f_equal (@List.length string)) in Hu2.
    rewrite length_app, !length_map, Hli1 in Hu2. exact Hu2. }
  assert (Hl4 : List.length (sent s4)
                = (List.length (sent s3) + List.length pages2)%nat).
  { apply (f_equal (@List.length string)) in Hu3.
    rewrite length_app, !length_map, pages_from_length in Hu3. exact Hu3. }
  exists pages1, pages2, ids1, ids2, os1, os2. cbv zeta.
  cbn [sent data_json snd set_data_json].
  split; [exact Hn1|]. split; [exact Hn2|]. split.
  { rewrite Hu4, Hu3, Hu2, Hu1. rewrite <- !app_assoc. reflexivity. }
  split; [exact Hd1|]. split; [exact Hli1|]. split; [exact Hlo1|]. split.
  { rewrite <- Hl2. exact Hnth1. }
  split.
  { rewrite <- Hl2, <- Hl3. exact Hd2. }
  split; [exact Hli2|]. split; [exact Hlo2|]. split.
  { rewrite <- Hl2, <- Hl3, <- Hl4. exact Hnth2. }
  subst movies_data tv_data. reflexivity.
Qed.

(** ** The earlier output file *)

Lemma frames_ret {A} (a : A) : frames (ret a).
Proof. intros f s. reflexivity. Qed.

Lemma frames_raise {A} (e : exn) : frames (@raise A e).
Proof. intros f s. reflexivity. Qed.

Lemma frames_lift {A} (r : result A) : frames (lift r).
Proof. intros f s. reflexivity. Qed.

Lemma frames_bind {A B} (m : M A) (k : A -> M B) :
  frames m -> (forall a, frames (k a)) -> frames (bind m k).
Proof.
  intros Hm Hk f s. unfold bind. rewrite Hm.
  destruct (m s) as [[a|e] s1]; cbn [fst snd]; [apply Hk|reflexivity].
Qed.

Lemma overwrites_bind {A B} (m : M A) (k : A -> M B) :
  frames m -> (forall a, overwrites (k a)) -> overwrites (bind m k).
Proof.
  intros Hm Hk f s. unfold bind. pose proof (Hm f s) as H.
  destruct (m (with_file f s)) as [r' s1']. destruct (m s) as [[a|e] s1];
    cbn [fst snd] in H; injection H as -> ->; [apply Hk|].
  cbn. auto.
Qed.

Lemma frames_get url : frames (rate_limited_get E url).
Proof.
  unfold rate_limited_get.
  apply frames_bind; [intros f s; reflexivity|]. intros now.
  apply frames_bind; [intros f s; reflexivity|]. intros last.
  apply frames_bind.
  { destruct (Qltb _ _); [|apply frames_ret].
    intros f s. unfold time_sleep. destruct (Qltb _ 0); reflexivity. }
  intros _. apply frames_bind; [intros f s; reflexivity|]. intros now'.
  apply frames_bind; [intros f s; reflexivity|]. intros _.
  apply frames_bind.
  { intros f s. unfold requests_get. cbn [with_file sent last_request_time].
    destruct (server E _ url); reflexivity. }
  intros response. apply frames_bind.
  { unfold raise_for_status. destruct (is_error_status _);
      [apply frames_raise|apply frames_ret]. }
  intros _. unfold response_json.
  destruct (body response); [apply frames_ret|apply frames_raise].
Qed.

Lemma frames_fetch_loop fuel url max_pages :
  forall acc page tp, frames (fetch_loop E fuel url max_pages acc page tp).
Proof.
  induction fuel as [|fuel IH]; intros acc page tp; cbn [fetch_loop];
    (apply frames_bind; [apply frames_lift|]); intros [|];
    try apply frames_ret; try apply frames_raise.
  apply frames_bind; [apply frames_get|]. intros data.
  apply frames_bind; [apply frames_lift|]. intros st. apply IH.
Qed.

Lemma frames_movies_loop movies : forall data, frames (movies_loop E movies data).
Proof.
  induction movies as [|movie rest IH]; intros data; cbn [movies_loop].
  - apply frames_ret.
  - apply frames_bind; [|intros data'; apply IH].
    unfold movie_iteration, fetch_item_details.
    apply frames_bind; [apply frames_lift|]. intros id.
    apply frames_bind; [apply frames_get|]. intros details.
    apply frames_bind; [apply frames_lift|]. intros r. apply frames_ret.
Qed.

Lemma frames_tv_loop shows : forall data, frames (tv_loop E shows data).
Proof.
  induction shows as [|show rest IH]; intros data; cbn [tv_loop].
  - apply frames_ret.
  - apply frames_bind; [|intros data'; apply IH].
    unfold tv_iteration, fetch_item_details.
    apply frames_bind; [apply frames_lift|]. intros id.
    apply frames_bind; [apply frames_get|]. intros details.
    apply frames_bind; [apply frames_lift|]. intros r. apply frames_ret.
Qed.

(** X16: the script never reads [data.json].  Started with a different
    file, a run makes the same requests and returns or raises alike.
    When it completes it leaves exactly the same state, the new document
    replacing whatever the file held (nothing of the old output is merged
    in).  When it raises, the file is either the one the run was started
    with, still in place (an exception before the write, or an [open]
    that was refused), or what a failing [json.dump] left, which does not
    depend on what was there. *)
Theorem X16_output_replaces_file (f : option json * bool) (s : state) :
  fst (run E (with_file f s)) = fst (run E s)
  /\ sent (snd (run E (with_file f s))) = sent (snd (run E s))
  /\ (fst (run E s) = Ok tt -> snd (run E (with_file f s)) = snd (run E s))
  /\ (snd (run E (with_file f s)) = snd (run E s)
      \/ snd (run E (with_file f s)) = with_file f (snd (run E s))).
Proof.
  assert (Hrun : overwrites (run E)).
  { unfold run.
    apply overwrites_bind.
    { unfold check_token. destruct (TMDB_TOKEN E) as [tok|];
        [destruct (String.eqb tok ""); [apply frames_raise|apply frames_ret]
        |apply frames_raise]. }
    intros _. apply overwrites_bind; [intros f' s'; reflexivity|]. intros _.
    apply overwrites_bind; [apply frames_fetch_loop|]. intros movies.
    apply overwrites_bind; [apply frames_movies_loop|]. intros movies_data.
    apply overwrites_bind; [apply frames_fetch_loop|]. intros tv_shows.
    apply overwrites_bind; [apply frames_tv_loop|]. intros tv_data.
    intros f' s'. unfold write_data_json.
    destruct (dump E (output_data E movies_data tv_data)); cbn; auto. }
  destruct (Hrun f s) as [H1 H2]. split; [exact H1|].
  destruct (fst (run E s)) as [[]|e].
  - split; [now rewrite H2|]. split; [intros _; exact H2|left; exact H2].
  - split; [|split; [discriminate|exact H2]].
    destruct H2 as [->| ->]; reflexivity.
Qed.

(** ** Genres, cast and providers beyond the claims *)

Lemma rmap_key_error key entries :
  Forall (fun e => exists kvs, e = JObj kvs) entries ->
  Exists (fun e => exists kvs, e = JObj kvs /\ dict_lookup key kvs = None) entries ->
  rmap (fun e => py_getitem e key) entries = Raise (KeyError key).
Proof.
  intros Hall Hex. induction Hall as [|e rest (kvs & ->) _ IH]; [inversion Hex|].
  cbn. destruct (dict_lookup key kvs) as [v|] eqn:Hk; cbn; [|reflexivity].
  inversion Hex as [? ? (kvs' & Heq & Hnone)|? ? Hrest]; subst.
  - injection Heq as <-. congruence.
  - now rewrite (IH Hrest).
Qed.

(** X9: the genres of a payload are the names of its genre entries: the
    record gets them joined by ", " and the filter gets them unjoined;
    both are the sentinel ("N/A", no names) when the payload has no genres
    or an empty list; and a genre entry without a name is a [KeyError],
    not a skipped entry. *)
Theorem X9_genres (kvs : list (string * json)) :
  let details := JObj kvs in
  (truthy (default_to (dict_lookup "genres" kvs) JNull) = false ->
     extract_genres details = Ok (JStr "N/A", []))
  /\ (forall entries names,
        dict_lookup "genres" kvs = Some (JArr entries) ->
        entries <> [] ->
        Forall2 named entries (map JStr names) ->
        extract_genres details
        = Ok (JStr (String.concat ", " names), map JStr names))
  /\ (forall entries,
        dict_lookup "genres" kvs = Some (JArr entries) ->
        Forall (fun e => exists ekvs, e = JObj ekvs) entries ->
        Exists (fun e => exists ekvs, e = JObj ekvs
                                      /\ dict_lookup "name" ekvs = None) entries ->
        extract_genres details = Raise (KeyError "name"))
  /\ (forall item record,
        movie_record E item details = Ok (Some record) ->
        exists gs, extract_genres details = Ok gs
                   /\ field "genres" record = Some (fst gs))
  /\ (forall show record,
        tv_record E show details = Ok (Some record) ->
        exists gs, extract_genres details = Ok gs
                   /\ field "genres" record = Some (fst gs)).
Proof.
  cbv zeta. split; [|split; [|split; [|split]]].
  - intro H. unfold extract_genres, py_get.
    destruct (dict_lookup "genres" kvs) as [g|]; cbn in H |- *;
      [now rewrite H|reflexivity].
  - intros entries names Hg Hne Hn. unfold extract_genres. cbn. rewrite Hg. cbn.
    destruct entries as [|e entries']; [congruence|]. cbn [truthy].
    rewrite (rmap_names _ _ Hn). cbn [rbind].
    destruct names as [|n names']; [inversion Hn|].
    cbn [map]. change (JStr n :: map JStr names') with (map JStr (n :: names')).
    now rewrite py_join_strings.
  - intros entries Hg Hall Hex. unfold extract_genres. cbn. rewrite Hg. cbn.
    destruct entries as [|e entries']; [inversion Hex|]. cbn [truthy].
    now rewrite (rmap_key_error "name" _ Hall Hex).
  - intros item record Hr.
    apply movie_record_some in Hr as (d & a & st & gs & _ & _ & _ & Hg & He).
    apply movie_entry_fields in He as (rd & y & _ & _ & _ & _ & _ & _ & Hfg & _).
    exists gs. auto.
  - intros show record Hr.
    apply tv_record_some in Hr as (a & st & gs & ts & _ & _ & Hg & He).
    apply tv_entry_fields in He as (rd & y & _ & _ & _ & _ & _ & Hfg & _).
    exists gs. auto.
Qed.

(** X10: an item is dropped exactly when its genre list holds one of the
    five excluded names, compared whole and letter for letter: whenever
    an iteration gets past extraction, it skips the item if and only if
    some name of the unjoined list is one of the five. *)
Theorem X10_filter_is_exact (item details : json) (gs : json * list json) :
  extract_genres details = Ok gs ->
  (is_excluded (snd gs) = true
     <-> exists g, In g EXCLUDED_GENRES /\ In (JStr g) (snd gs))
  /\ (forall o, movie_record E item details = Ok o ->
        (o = None <-> exists g, In g EXCLUDED_GENRES /\ In (JStr g) (snd gs)))
  /\ (forall o, tv_record E item details = Ok o ->
        (o = None <-> exists g, In g EXCLUDED_GENRES /\ In (JStr g) (snd gs))).
Proof.
  intro Hg.
  assert (Hiff : is_excluded (snd gs) = true
                 <-> exists g, In g EXCLUDED_GENRES /\ In (JStr g) (snd gs)).
  { split.
    - unfold is_excluded. intro H. apply existsb_exists in H as (x & Hx & H).
      apply existsb_exists in H as (g & Hgin & Heq).
      destruct x; cbn in Heq; try discriminate.
      apply String.eqb_eq in Heq. subst. eauto.
    - intros (g & H1 & H2). now apply (is_excluded_In g). }
  split; [exact Hiff|]. split.
  - intros o Ho. rewrite <- Hiff.
    apply movie_record_inv in Ho as (d & a & st & gs' & _ & _ & _ & Hg' & Hif).
    rewrite Hg in Hg'. injection Hg' as <-.
    destruct (is_excluded (snd gs)).
    + split; auto.
    + destruct Hif as (r & _ & ->). split; discriminate.
  - intros o Ho. rewrite <- Hiff.
    apply tv_record_inv in Ho as (a & st & gs' & _ & _ & Hg' & Hif).
    rewrite Hg in Hg'. injection Hg' as <-.
    destruct (is_excluded (snd gs)).
    + split; auto.
    + destruct Hif as (ts & r & _ & _ & ->). split; discriminate.
Qed.

Lemma extract_actors_cast kvs ckvs cast :
  dict_lookup "credits" kvs = Some (JObj ckvs) ->
  dict_lookup "cast" ckvs = Some (JArr cast) ->
  extract_actors (JObj kvs) =
    (top_actors <-? rmap (fun actor => py_getitem actor "name") (firstn 3 cast) ;;
     match top_actors with
     | [] => Ok (JStr "N/A")
     | _ :: _ => joined <-? py_join ", " top_actors ;; Ok (JStr joined)
     end).
Proof.
  intros Hc Hcast. unfold extract_actors. cbn. rewrite Hc. cbn.
  destruct ckvs; [discriminate|]. cbn [truthy]. rewrite Hcast. cbn.
  destruct cast; reflexivity.
Qed.

(** X11: only the first three cast entries are looked at.  Two payloads
    whose cast lists agree on their first three entries give the same
    actors, or the same exception: entries from the fourth on may be
    anything, even malformed. *)
Theorem X11_cast_beyond_three_ignored
    (kvs1 kvs2 ckvs1 ckvs2 : list (string * json)) (cast1 cast2 : list json) :
  dict_lookup "credits" kvs1 = Some (JObj ckvs1) ->
  dict_lookup "credits" kvs2 = Some (JObj ckvs2) ->
  dict_lookup "cast" ckvs1 = Some (JArr cast1) ->
  dict_lookup "cast" ckvs2 = Some (JArr cast2) ->
  firstn 3 cast1 = firstn 3 cast2 ->
  extract_actors (JObj kvs1) = extract_actors (JObj kvs2).
Proof.
  intros H1 H2 Hc1 Hc2 Heq.
  rewrite (extract_actors_cast _ _ _ H1 Hc1), (extract_actors_cast _ _ _ H2 Hc2).
  now rewrite Heq.
Qed.

Lemma provider_entry_key_error entries :
  Forall (fun e => exists kvs, e = JObj kvs) entries ->
  Exists (fun e => exists kvs, e = JObj kvs
                   /\ (dict_lookup "provider_name" kvs = None
                       \/ dict_lookup "logo_path" kvs = None)) entries ->
  exists k, rmap (provider_entry E) entries = Raise (KeyError k)
            /\ (k = "provider_name" \/ k = "logo_path").
Proof.
  intros Hall Hex. induction Hall as [|e rest (kvs & ->) _ IH]; [inversion Hex|].
  cbn [rmap]. unfold provider_entry at 1. cbn.
  destruct (dict_lookup "provider_name" kvs) as [n|] eqn:Hn; cbn; [|eauto].
  destruct (dict_lookup "logo_path" kvs) as [lp|] eqn:Hl; cbn; [|eauto].
  inversion Hex as [? ? (kvs' & Heq & Hnone)|? ? Hrest]; subst.
  - injection Heq as <-. destruct Hnone; congruence.
  - destruct (IH Hrest) as (k & -> & Hk). cbn. eauto.
Qed.

(** X12: the flatrate entries are indexed, not read with a default: one
    entry without ['provider_name'] or ['logo_path'] makes the extraction
    raise [KeyError], and since providers are extracted before the genre
    filter is applied, no iteration that receives such a payload returns,
    not even for an item the filter would have dropped. *)
Theorem X12_incomplete_provider_aborts
    (kvs wp rs us : list (string * json)) (entries : list json) :
  dict_lookup "watch/providers" kvs = Some (JObj wp) ->
  dict_lookup "results" wp = Some (JObj rs) ->
  dict_lookup "US" rs = Some (JObj us) ->
  dict_lookup "flatrate" us = Some (JArr entries) ->
  Forall (fun e => exists ekvs, e = JObj ekvs) entries ->
  Exists (fun e => exists ekvs, e = JObj ekvs
                   /\ (dict_lookup "provider_name" ekvs = None
                       \/ dict_lookup "logo_path" ekvs = None)) entries ->
  (exists k, extract_streaming E (JObj kvs) = Raise (KeyError k)
             /\ (k = "provider_name" \/ k = "logo_path"))
  /\ (forall item o, movie_record E item (JObj kvs) <> Ok o)
  /\ (forall show o, tv_record E show (JObj kvs) <> Ok o).
Proof.
  intros Hwp Hrs Hus Hfl Hall Hex.
  assert (Hst : exists k, extract_streaming E (JObj kvs) = Raise (KeyError k)
                          /\ (k = "provider_name" \/ k = "logo_path")).
  { destruct (provider_entry_key_error entries Hall Hex) as (k & Hk & Hor).
    exists k. split; [|exact Hor].
    unfold extract_streaming. cbn. rewrite Hwp. cbn. rewrite Hrs. cbn.
    rewrite Hus. cbn. rewrite Hfl. cbn.
    destruct entries as [|e entries']; [inversion Hex|]. exact Hk. }
  split; [exact Hst|]. destruct Hst as (k & Hk & _). split.
  - intros item o. unfold movie_record.
    destruct (extract_director (JObj kvs)); cbn; [|discriminate].
    destruct (extract_actors (JObj kvs)); cbn; [|discriminate].
    rewrite Hk. discriminate.
  - intros show o. unfold tv_record.
    destruct (extract_actors (JObj kvs)); cbn; [|discriminate].
    rewrite Hk. discriminate.
Qed.

(** ** Dates the record builder accepts *)

Lemma pages_from_In k : forall p n,
  p <= n < p + Z.of_nat k -> In n (pages_from p k).
Proof.
  induction k as [|k IH]; intros p n H; [lia|]. cbn [pages_from].
  destruct (Z.eq_dec p n) as [->|Hne]; [now left|].
  right. apply IH. lia.
Qed.

Lemma digit_char_spec n :
  0 <= n <= 9 -> is_digit (digit_char n) = true /\ digit (digit_char n) = n.
Proof.
  intro H. assert (Hn : In n (pages_from 0 10)) by (apply pages_from_In; lia).
  cbn in Hn.
  repeat (destruct Hn as [<-|Hn]; [split; reflexivity|]). contradiction.
Qed.

Lemma pad4_year y :
  0 <= y <= 9999 ->
  exists a b c e,
    pad4 y = String a (String b (String c (String e "")))
    /\ is_digit a && is_digit b && is_digit c && is_digit e = true
    /\ year4 a b c e = y.
Proof.
  intro Hy.
  exists (digit_char (y / 1000)), (digit_char (y / 100 mod 10)),
    (digit_char (y / 10 mod 10)), (digit_char (y mod 10)).
  split; [reflexivity|].
  destruct (digit_char_spec (y / 1000)) as [Ha Hva];
    [Z.to_euclidean_division_equations; lia|].
  destruct (digit_char_spec (y / 100 mod 10)) as [Hb Hvb];
    [Z.to_euclidean_division_equations; lia|].
  destruct (digit_char_spec (y / 10 mod 10)) as [Hc Hvc];
    [Z.to_euclidean_division_equations; lia|].
  destruct (digit_char_spec (y mod 10)) as [He Hve];
    [Z.to_euclidean_division_equations; lia|].
  rewrite Ha, Hb, Hc, He. split; [reflexivity|].
  unfold year4. rewrite Hva, Hvb, Hvc, Hve.
  Z.to_euclidean_division_equations. lia.
Qed.

Lemma re_date_iso a b c e m d :
  is_digit a && is_digit b && is_digit c && is_digit e = true ->
  1 <= m <= 12 -> 1 <= d <= 31 ->
  exists tl,
    re_date (a :: b :: c :: e
             :: list_ascii_of_string ("-" ++ pad2 m ++ "-" ++ pad2 d))
    = (year4 a b c e, m, d, []) :: tl.
Proof.
  intros Hdig Hm Hd. unfold re_date, re_Y. rewrite Hdig.
  generalize (year4 a b c e). intro yv.
  assert (Hm' : In m (pages_from 1 12)) by (apply pages_from_In; lia).
  assert (Hd' : In d (pages_from 1 31)) by (apply pages_from_In; lia).
  clear Hm Hd Hdig. cbn in Hm', Hd'.
  repeat (destruct Hm' as [<-|Hm']); try contradiction;
    repeat (destruct Hd' as [<-|Hd']); try contradiction;
    vm_compute; eexists; reflexivity.
Qed.

Lemma valid_date_bounds y m d :
  valid_date y m d = true ->
  1 <= y <= 9999 /\ 1 <= m <= 12 /\ 1 <= d <= 31.
Proof.
  unfold valid_date, days_in_month. intro H.
  repeat (apply andb_true_iff in H as [H ?]).
  destruct (m =? 2); [destruct (is_leap y)|];
    [| |destruct ((m =? 4) || (m =? 6) || (m =? 9) || (m =? 11))]; lia.
Qed.

Lemma strptime_iso y m d :
  valid_date y m d = true -> strptime_ymd (iso_date y m d) = Ok (y, m, d).
Proof.
  intro Hv. destruct (valid_date_bounds y m d Hv) as (Hy & Hm & Hd).
  destruct (pad4_year y ltac:(lia)) as (a & b & c & e & Hp & Hdig & Hyear).
  unfold strptime_ymd, iso_date. rewrite Hp.
  change (list_ascii_of_string
            (String a (String b (String c (String e ""))) ++ "-" ++ pad2 m
             ++ "-" ++ pad2 d))
    with (a :: b :: c :: e
          :: list_ascii_of_string ("-" ++ pad2 m ++ "-" ++ pad2 d)).
  destruct (re_date_iso a b c e m d Hdig Hm Hd) as (tl & ->).
  now rewrite Hyear, Hv.
Qed.

(** X13: a date written as four, two and two digits that names a real
    day of the calendar (years 1 to 9999, leap years counted) is always
    parsed, to exactly that day, so the year of the record is its year
    and an item that has the four indexed keys and such a date always
    yields its record; and whatever string is parsed, it was parsed to a
    real day (a 30th of February is an error, not a date). *)
Theorem X13_valid_dates_parse :
  (forall y m d,
      valid_date y m d = true ->
      strptime_ymd (iso_date y m d) = Ok (y, m, d)
      /\ (forall kvs key,
            dict_lookup key kvs = Some (JStr (iso_date y m d)) ->
            year_of (JObj kvs) key = Ok (JInt y))
      /\ (forall kvs id title vote_average vote_count director actors genres
                 streaming,
            dict_lookup "id" kvs = Some id ->
            dict_lookup "title" kvs = Some title ->
            dict_lookup "vote_average" kvs = Some vote_average ->
            dict_lookup "vote_count" kvs = Some vote_count ->
            dict_lookup "release_date" kvs = Some (JStr (iso_date y m d)) ->
            exists record,
              movie_entry (JObj kvs) director actors genres streaming = Ok record
              /\ field "year" record = Some (JInt y)
              /\ field "release_date" record = Some (JStr (iso_date y m d))))
  /\ (forall s y m d,
        strptime_ymd s = Ok (y, m, d) ->
        valid_date y m d = true
        /\ 1 <= y <= 9999 /\ 1 <= m <= 12 /\ 1 <= d <= days_in_month y m).
Proof.
  split.
  - intros y m d Hv. pose proof (strptime_iso y m d Hv) as Hp.
    assert (Hyear : forall kvs key,
              dict_lookup key kvs = Some (JStr (iso_date y m d)) ->
              year_of (JObj kvs) key = Ok (JInt y)).
    { intros kvs key Hk. rewrite year_of_obj, Hk.
      change (truthy (JStr (iso_date y m d))) with true. cbn [strptime_year].
      now rewrite Hp. }
    split; [exact Hp|]. split; [exact Hyear|].
    intros kvs id title va vc dir act gen st Hid Htitle Hva Hvc Hdate.
    unfold movie_entry. rewrite (Hyear kvs "release_date" Hdate).
    cbn [py_getitem py_get]. rewrite Hid, Htitle, Hva, Hvc, Hdate. cbn [rbind].
    destruct (dict_lookup "overview" kvs); cbn [rbind];
      (destruct (dict_lookup "poster_path" kvs); cbn [rbind]);
      eexists; (split; [reflexivity|]); cbn; auto.
  - intros s y m d. unfold strptime_ymd.
    destruct (re_date (list_ascii_of_string s)) as [|[[[y' m'] d'] rest] tl];
      [discriminate|].
    destruct rest; [|discriminate].
    destruct (valid_date y' m' d') eqn:Hv; [|discriminate].
    intro H. injection H as <- <- <-. split; [exact Hv|].
    unfold valid_date in Hv.
    repeat (apply andb_true_iff in Hv as [Hv ?]). lia.
Qed.

(** ** The status block of a show *)

Lemma episode_summary_spec kvs key :
  falsy_or_dict (dict_lookup key kvs) ->
  episode_summary (JObj kvs) key = Ok (summary_of (dict_lookup key kvs)).
Proof.
  unfold episode_summary, falsy_or_dict. cbn [py_get py_getitem].
  destruct (dict_lookup key kvs) as [v|]; cbn [rbind]; [|reflexivity].
  destruct v as [|b|z|q|str|l|ekvs];
    try (intros H; rewrite H; reflexivity).
  intros _. destruct ekvs as [|kv ekvs]; [reflexivity|].
  cbn [truthy rbind py_get summary_of].
  destruct (dict_lookup "season_number" (kv :: ekvs));
    destruct (dict_lookup "episode_number" (kv :: ekvs));
    destruct (dict_lookup "air_date" (kv :: ekvs));
    destruct (dict_lookup "name" (kv :: ekvs)); reflexivity.
Qed.

(** X14: the status block never fails on a payload whose two episode
    entries are missing, null (or otherwise falsy) or dicts: the status
    defaults to "N/A", the production flag to false, an episode that is
    missing or null is summarised as null, and an episode dict is
    summarised field by field, each field null when the dict lacks it.
    An episode entry that is truthy and no dict raises [AttributeError]. *)
Theorem X14_tv_status_block (kvs : list (string * json)) :
  (falsy_or_dict (dict_lookup "last_episode_to_air" kvs) ->
   falsy_or_dict (dict_lookup "next_episode_to_air" kvs) ->
   tv_status_info (JObj kvs)
   = Ok (JObj [
       ("status", default_to (dict_lookup "status" kvs) (JStr "N/A"));
       ("in_production",
        default_to (dict_lookup "in_production" kvs) (JBool false));
       ("last_episode", summary_of (dict_lookup "last_episode_to_air" kvs));
       ("next_episode", summary_of (dict_lookup "next_episode_to_air" kvs))]))
  /\ (forall v,
        dict_lookup "last_episode_to_air" kvs = Some v ->
        truthy v = true ->
        (forall ekvs, v <> JObj ekvs) ->
        tv_status_info (JObj kvs) = Raise AttributeError).
Proof.
  split.
  - intros Hl Hn. unfold tv_status_info.
    rewrite (episode_summary_spec kvs _ Hl), (episode_summary_spec kvs _ Hn).
    cbn [py_get rbind].
    destruct (dict_lookup "status" kvs);
      destruct (dict_lookup "in_production" kvs); reflexivity.
  - intros v Hk Hv Hnd. unfold tv_status_info, episode_summary.
    cbn [py_get]. rewrite Hk.
    destruct (dict_lookup "status" kvs); cbn [rbind];
      (destruct (dict_lookup "in_production" kvs); cbn [rbind]);
      rewrite Hv; cbn [py_getitem]; rewrite Hk; cbn [rbind];
      (destruct v; try reflexivity; exfalso; eapply Hnd; reflexivity).
Qed.

End Further.

(** * The further properties at concrete inputs *)

(** X3 at a cap of 0. *)
Lemma X3_witness :
  0 < 1
  /\ fetch_all_pages (make_env sample_server) "u" 0 (initial_state 0 None)
     = (Ok [], initial_state 0 None).
Proof.
  split; [lia|].
  exact (X3_page_cap_below_one (make_env sample_server) "u" 0
           (initial_state 0 None) ltac:(lia)).
Defined.

(** X4 at a page whose [total_pages] is null. *)
Lemma X4_witness :
  let E := make_env null_total_server in
  let out := fetch_all_pages E "u" 500 (initial_state 0 None) in
  num_of JNull = Raise TypeError
  /\ fst out = Raise TypeError
  /\ List.length (sent (snd out)) = 1%nat.
Proof.
  cbv zeta. split; [reflexivity|].
  exact (X4_total_pages_not_a_number (make_env null_total_server) "u" 500
           (initial_state 0 None)
           [("results", JArr [JInt 1]); ("total_pages", JNull)]
           (JArr [JInt 1]) JNull [JInt 1]
           ltac:(lia) eq_refl eq_refl eq_refl eq_refl eq_refl).
Defined.

(** X6 at a whole run. *)
Lemma X6_witness :
  under_api (initial_state 0 None)
  /\ under_api (snd (run (make_env sample_server) (initial_state 0 None))).
Proof.
  assert (H : under_api (initial_state 0 None)) by constructor.
  split; [exact H|].
  exact (X6_urls_handed_over_start_with_api_base (make_env sample_server)
           (initial_state 0 None) H).
Defined.

(** X7 at two items, the second of which is dropped. *)
Lemma X7_witness :
  let E := make_env details_then_documentary_server in
  let items := [sample_movie; JObj [("id", JInt 8)]] in
  let s0 := initial_state 0 None in
  let s' := snd (movies_loop E items [] s0) in
  movies_loop E items [] s0 = (Ok [sample_record], s')
  /\ exists ids os,
       List.length ids = List.length items
       /\ List.length os = List.length items
       /\ map snd (sent s')
          = (map snd (sent s0) ++ map (fun id => detail_url E id "movie") ids)%list
       /\ (forall i item,
             nth_error items i = Some item ->
             exists id details o,
               nth_error ids i = Some id
               /\ nth_error os i = Some o
               /\ py_getitem item "id" = Ok id
               /\ decode (server E (List.length (sent s0) + i)
                           (detail_url E id "movie")) = Ok details
               /\ movie_record E item details = Ok o)
       /\ [sample_record] = ([] ++ kept_records os)%list
       /\ len [sample_record] <= len [] + len items.
Proof.
  cbv zeta.
  assert (H : movies_loop (make_env details_then_documentary_server)
                [sample_movie; JObj [("id", JInt 8)]] [] (initial_state 0 None)
              = (Ok [sample_record],
                 snd (movies_loop (make_env details_then_documentary_server)
                        [sample_movie; JObj [("id", JInt 8)]] []
                        (initial_state 0 None))))
    by (vm_compute; reflexivity).
  split; [exact H|].
  exact (X7_movies_loop_trace (make_env details_then_documentary_server)
           _ _ _ _ _ H).
Defined.

(** X8 at one show. *)
Lemma X8_witness :
  let E := make_env sample_details_server in
  let s0 := initial_state 0 None in
  let out := tv_loop E [sample_show] [] s0 in
  (exists data', out = (Ok data', snd out) /\ List.length data' = 1%nat)
  /\ map snd (sent (snd out))
     = ["https://api.themoviedb.org/3/tv/9?append_to_response=credits,watch/providers"].
Proof.
  cbv zeta.
  assert (H : exists data',
             tv_loop (make_env sample_details_server) [sample_show] []
               (initial_state 0 None)
             = (Ok data',
                snd (tv_loop (make_env sample_details_server) [sample_show] []
                       (initial_state 0 None)))
             /\ List.length data' = 1%nat).
  { eexists. split; vm_compute; reflexivity. }
  split; [exact H|].
  destruct H as (data' & H & _).
  destruct (X8_tv_loop_trace (make_env sample_details_server) _ _ _ _ _ H)
    as (ids & os & Hli & _ & Hu & Hnth & _).
  rewrite Hu.
  destruct (Hnth 0%nat sample_show eq_refl) as (id & d & o & Hid & _ & Hget & _).
  injection Hget as <-.
  destruct ids as [|id0 [|id1 ids]]; try discriminate.
  injection Hid as ->. reflexivity.
Defined.

(** X10 at a documentary. *)
Lemma X10_witness :
  extract_genres documentary_details
    = Ok (JStr "Drama, Documentary", [JStr "Drama"; JStr "Documentary"])
  /\ (is_excluded [JStr "Drama"; JStr "Documentary"] = true
      <-> exists g, In g EXCLUDED_GENRES
                    /\ In (JStr g) [JStr "Drama"; JStr "Documentary"]).
Proof.
  split; [reflexivity|].
  exact (proj1 (X10_filter_is_exact (make_env sample_server) sample_movie
                  documentary_details
                  (JStr "Drama, Documentary", [JStr "Drama"; JStr "Documentary"])
                  eq_refl)).
Defined.

(** X11 at a cast whose fourth entry is null. *)
Lemma X11_witness :
  let cast3 := [JObj [("name", JStr "a1")]; JObj [("name", JStr "a2")];
                JObj [("name", JStr "a3")]] in
  extract_actors (JObj (cast_details_kvs (cast3 ++ [JNull])))
  = extract_actors (JObj (cast_details_kvs cast3)).
Proof.
  cbv zeta.
  exact (X11_cast_beyond_three_ignored
           (cast_details_kvs
              ([JObj [("name", JStr "a1")]; JObj [("name", JStr "a2")];
                JObj [("name", JStr "a3")]] ++ [JNull]))
           (cast_details_kvs
              [JObj [("name", JStr "a1")]; JObj [("name", JStr "a2")];
               JObj [("name", JStr "a3")]])
           _ _ _ _ eq_refl eq_refl eq_refl eq_refl eq_refl).
Defined.

(** X12 at a documentary whose second provider has no logo path. *)
Lemma X12_witness :
  (exists k, extract_streaming (make_env sample_server) (JObj broken_provider_kvs)
             = Raise (KeyError k)
             /\ (k = "provider_name" \/ k = "logo_path"))
  /\ (forall item o,
        movie_record (make_env sample_server) item (JObj broken_provider_kvs)
        <> Ok o)
  /\ (forall show o,
        tv_record (make_env sample_server) show (JObj broken_provider_kvs)
        <> Ok o).
Proof.
  apply (X12_incomplete_provider_aborts (make_env sample_server)
           broken_provider_kvs _ _ _ _ eq_refl eq_refl eq_refl eq_refl).
  - repeat constructor; eexists; reflexivity.
  - apply Exists_cons_tl, Exists_cons_hd. eexists. split; [reflexivity|].
    right. reflexivity.
Defined.

(** X15 at a run that finds two movies and no show: four requests. *)
Lemma X15_witness :
  let E := make_env sample_server in
  let s0 := initial_state 0 None in
  let s' := snd (run E s0) in
  run E s0 = (Ok tt, s')
  /\ List.length (sent s') = 4%nat
  /\ exists (pages1 pages2 ids1 ids2 : list json) (os1 os2 : list (option json)),
       map snd (sent s')
       = (map snd (sent s0)
          ++ map (page_url movies_url) (pages_from 1 (List.length pages1))
          ++ map (fun id => detail_url E id "movie") ids1
          ++ map (page_url tv_url) (pages_from 1 (List.length pages2))
          ++ map (fun id => detail_url E id "tv") ids2)%list
       /\ List.length ids1 = List.length (List.concat (map page_items pages1))
       /\ List.length ids2 = List.length (List.concat (map page_items pages2))
       /\ data_json s'
          = Some (output_data E (kept_records os1) (kept_records os2)).
Proof.
  cbv zeta.
  assert (H : run (make_env sample_server) (initial_state 0 None)
              = (Ok tt, snd (run (make_env sample_server) (initial_state 0 None))))
    by (vm_compute; reflexivity).
  split; [exact H|]. split; [vm_compute; reflexivity|].
  destruct (X15_requests_of_a_completed_run (make_env sample_server) _ _ H)
    as (pages1 & pages2 & ids1 & ids2 & os1 & os2 & Hc).
  cbv zeta in Hc.
  destruct Hc as (_ & _ & Hu & _ & Hl1 & _ & _ & _ & Hl2 & _ & _ & Hdoc).
  exists pages1, pages2, ids1, ids2, os1, os2. auto.
Defined.

(** X5 without a token, and with one. *)
Lemma X5_witness :
  let s0 := initial_state 0 None in
  run no_token_env s0 = (Raise ValueError, s0)
  /\ nth_error (map snd (sent (snd (run (make_env sample_server) s0)))) 0
     = Some (page_url movies_url 1).
Proof.
  cbv zeta. split.
  - exact (proj1 (X5_token_gates_the_network no_token_env (initial_state 0 None))
             (or_introl eq_refl)).
  - apply (proj2 (X5_token_gates_the_network (make_env sample_server)
                    (initial_state 0 None)) "token" eq_refl).
    discriminate.
Defined.

(** X9 at a payload with one genre. *)
Lemma X9_witness :
  extract_genres sample_details = Ok (JStr "Action", [JStr "Action"]).
Proof.
  apply (proj1 (proj2 (X9_genres (make_env sample_server) sample_details_kvs))
           [JObj [("name", JStr "Action")]] ["Action"] eq_refl).
  - discriminate.
  - repeat constructor. eexists. split; reflexivity.
Defined.

(** X13 at the 29th of February of a leap year. *)
Lemma X13_witness :
  valid_date 2024 2 29 = true
  /\ iso_date 2024 2 29 = "2024-02-29"
  /\ strptime_ymd (iso_date 2024 2 29) = Ok (2024, 2, 29).
Proof.
  split; [reflexivity|]. split; [reflexivity|].
  exact (proj1 (proj1 X13_valid_dates_parse 2024 2 29 eq_refl)).
Defined.

(** X14 at a payload without episodes. *)
Lemma X14_witness :
  tv_status_info sample_details
  = Ok (JObj [("status", JStr "N/A"); ("in_production", JBool false);
              ("last_episode", JNull); ("next_episode", JNull)]).
Proof.
  exact (proj1 (X14_tv_status_block sample_details_kvs) I I).
Defined.
